(** * things-dxt: the validation, parameter-mapping and response layer

    A shallow embedding of [server/utils.js] ([ThingsValidator],
    [ParameterMapper]), of the script execution methods of [server/index.js]
    ([executeJXA], [executeThingsJXA]), of [server/response-formatter.js] and
    of the update/show handlers of [server/tool-handlers.js], with the
    properties the specification states about them.

    JavaScript strings are sequences of UTF-16 code units, objects are finite
    maps from property names to values, thrown errors are the [Throw] case of
    a result type, and the asynchronous executor is an oracle threaded
    through a log of the commands handed to it. *)

From Stdlib Require Import ZArith NArith List String Ascii Lia Bool.
From Stdlib Require Import Floats.SpecFloat.
From stdpp Require Import base gmap strings list fin_maps pretty.

Set Warnings "-register-all".
Set Default Proof Using "Type".

(** ** JavaScript values *)

(** A string is its list of UTF-16 code units; [length] is [String.length]. *)
Definition jsstring := list N.

(** The code units of an ASCII literal of the source. *)
Definition js (s : string) : jsstring :=
  (λ a, N_of_ascii a) <$> list_ascii_of_string s.

(** Numbers are IEEE-754 values; the code below only asks whether a number
    is falsy ([+0], [-0], [NaN]). *)
Inductive value :=
| VUndefined
| VNull
| VBool (b : bool)
| VNum (x : spec_float)
| VStr (s : jsstring)
| VArr (l : list value)
| VObj (o : gmap string value).

(** [ToBoolean]: what [v ? a : b], [!v], [a && b], [a || b] and [Boolean(v)]
    test. *)
Definition truthy (v : value) : bool :=
  match v with
  | VUndefined | VNull => false
  | VBool b => b
  | VNum S754_nan | VNum (S754_zero _) => false
  | VNum _ => true
  | VStr s => negb (Nat.eqb (length s) 0)
  | VArr _ | VObj _ => true
  end.

(** [o.k] on an object: the property, or [undefined] when it is absent.  No
    property name read by the code is defined on [Object.prototype]. *)
Definition get (o : gmap string value) (k : string) : value :=
  default VUndefined (o !! k).

(** [a || b] *)
Definition js_or (a b : value) : value := if truthy a then a else b.

Definition is_null (v : value) : bool :=
  match v with VNull => true | _ => false end.

Definition is_undefined (v : value) : bool :=
  match v with VUndefined => true | _ => false end.

(** ** Errors *)

(** The members of the SDK's [ErrorCode] the code uses. *)
Inductive ErrorCode := InvalidParams | MethodNotFound | InternalError.

(** What a [throw] carries: an SDK [McpError] with the message handed to its
    constructor, one of the server's [JXAError] subclasses with its code, a
    plain [Error] (also the [TypeError] and [SyntaxError] of the host), or
    the rejection of the executor with its [code] property. *)
Inductive exn :=
| McpError (code : ErrorCode) (message : jsstring)
| JXAError (message : jsstring) (code : jsstring)
| Error (message : jsstring)
| ExecError (code : value) (message : jsstring).

Inductive result (A : Type) :=
| Ok (a : A)
| Throw (e : exn).
Arguments Ok {A} a.
Arguments Throw {A} e.

#[global] Instance result_ret : MRet result := λ A a, Ok a.
#[global] Instance result_bind : MBind result := λ A B f r,
  match r with Ok a => f a | Throw e => Throw e end.
#[global] Instance result_fmap : FMap result := λ A B f r,
  match r with Ok a => Ok (f a) | Throw e => Throw e end.

(** ** Regular expressions

    The regular expressions of [utils.js] are sequences of single-character
    classes, some under [+], between optional [^] and [$].  The matcher is the
    backtracking one of the language: [+] is greedy and gives characters back
    when the rest of the pattern fails. *)

Inductive charclass :=
| CChar (c : N)       (* a pattern character, compared as written *)
| CCharI (c : N)      (* a pattern character under the [i] flag *)
| CSpace              (* \s *)
| CWord               (* \w *)
| CDigit.             (* \d *)

Inductive atom :=
| Bol                 (* ^ *)
| Eol                 (* $ *)
| One (c : charclass)
| Plus (c : charclass).

Definition regex := list atom.

Definition between (lo hi c : N) : bool := (lo <=? c)%N && (c <=? hi)%N.

(** WhiteSpace and LineTerminator code points: what [\s] matches and what
    [String.prototype.trim] strips. *)
Definition is_space (c : N) : bool :=
  between 9 13 c || (c =? 32)%N || (c =? 160)%N || (c =? 5760)%N
  || between 8192 8202 c || (c =? 8232)%N || (c =? 8233)%N || (c =? 8239)%N
  || (c =? 8287)%N || (c =? 12288)%N || (c =? 65279)%N.

Definition is_digit (c : N) : bool := between 48 57 c.

Definition is_word (c : N) : bool :=
  between 97 122 c || between 65 90 c || is_digit c || (c =? 95)%N.

(** [Canonicalize] without the [u] flag: the upper-case mapping, except that
    a code unit from 128 on never folds to one below 128.  Every pattern
    character of the source is ASCII, so only the ASCII part of the mapping
    decides a comparison: a code unit from 128 on stays at 128 or above and
    is left as it is here. *)
Definition Canonicalize (c : N) : N :=
  if between 97 122 c then (c - 32)%N else c.

Definition in_class (cl : charclass) (c : N) : bool :=
  match cl with
  | CChar x => (c =? x)%N
  | CCharI x => (Canonicalize c =? Canonicalize x)%N
  | CSpace => is_space c
  | CWord => is_word c
  | CDigit => is_digit c
  end.

(** [cl+] followed by the rest of the pattern [k]: at least one character of
    the class, then as many more as possible, giving back one at a time. *)
Fixpoint match_plus (cl : charclass) (k : jsstring → bool) (s : jsstring)
    : bool :=
  match s with
  | c :: s' => in_class cl c && (match_plus cl k s' || k s')
  | [] => false
  end.

(** Does [rx] match at the current position? [start] tells whether the
    position is index 0 of the input. *)
Fixpoint match_here (rx : regex) (start : bool) (s : jsstring) : bool :=
  match rx with
  | [] => true
  | Bol :: rx' => start && match_here rx' start s
  | Eol :: rx' =>
      match s with
      | [] => match_here rx' start s
      | _ :: _ => false
      end
  | One cl :: rx' =>
      match s with
      | c :: s' => in_class cl c && match_here rx' false s'
      | [] => false
      end
  | Plus cl :: rx' => match_plus cl (match_here rx' false) s
  end.

Fixpoint search (rx : regex) (start : bool) (s : jsstring) : bool :=
  match_here rx start s ||
  match s with
  | [] => false
  | _ :: s' => search rx false s'
  end.

(** [rx.test(s)] for a regular expression without the [g] and [y] flags: a
    match is tried from every index. *)
Definition test (rx : regex) (s : jsstring) : bool := search rx true s.

(** The characters of a literal, under the [i] flag or not. *)
Definition lit_i (s : string) : regex := (λ c, One (CCharI c)) <$> js s.
Definition lit (s : string) : regex := (λ c, One (CChar c)) <$> js s.

(** ** String.prototype.trim *)

Fixpoint trimStart (s : jsstring) : jsstring :=
  match s with
  | c :: s' => if is_space c then trimStart s' else s
  | [] => []
  end.

Definition trimEnd (s : jsstring) : jsstring := rev (trimStart (rev s)).

Definition trim (s : jsstring) : jsstring := trimEnd (trimStart s).

(** [s.length] *)
Definition strlen (s : jsstring) : N := N.of_nat (length s).

(** ** server-config.js *)

Module SERVER_CONFIG.
Module jxa.
Definition timeout : N := 30000.
Definition maxBuffer : N := 256 * 1024.
End jxa.
Module validation.
Definition maxStringLength : N := 2000.
Definition maxArrayLength : N := 100.
Definition maxRequestSize : N := 32 * 1024.
Definition maxNotesLength : N := 10000.
Definition maxScriptSize : N := 100 * 1024.
End validation.
End SERVER_CONFIG.

Module ERROR_MESSAGES.
Definition JXA_TIMEOUT : jsstring := js "JXA execution timed out".
Definition THINGS_CHECK_FAILED : jsstring :=
  js "Failed to check if Things 3 is running".
End ERROR_MESSAGES.

(** ** The host's Date

    [new Date(input)] is reached only with a string of the shape
    [dddd-dd-dd].  Node's engine reads it as an ISO date when the month is
    01..12 and the day is 01..31, whatever the month (a day past the end of
    the month rolls over into the next one); otherwise its legacy parser takes
    over with the three numbers read so far and accepts them as month, day and
    two-digit year when the first is a day number.  In every accepted case the
    time value is a number. *)

Module Date.

Definition digit (c : N) : Z := Z.of_N c - 48.

Definition number (ds : list N) : Z :=
  fold_left (λ acc d, 10 * acc + digit d)%Z ds 0%Z.

(** The year, month and day fields of [dddd-dd-dd]. *)
Definition fields (s : jsstring) : option (Z * Z * Z) :=
  match s with
  | [y1; y2; y3; y4; _; m1; m2; _; d1; d2] =>
      Some (number [y1; y2; y3; y4], number [m1; m2], number [d1; d2])
  | _ => None
  end.

Definition IsMonth (x : Z) : bool := (1 <=? x)%Z && (x <=? 12)%Z.
Definition IsDay (x : Z) : bool := (1 <=? x)%Z && (x <=? 31)%Z.

(** [!isNaN(new Date(s).getTime())] *)
Definition parses (s : jsstring) : bool :=
  match fields s with
  | Some (y, m, d) =>
      if IsMonth m && IsDay d then true
      else if IsDay y then IsMonth y && IsDay m
      else false
  | None => false
  end.

End Date.

(** ** ThingsValidator *)

Module ThingsValidator.

(** The deny-list of [validateStringInput]. *)
Definition dangerousPatterns : list regex :=
  [ lit_i "tell" ++ [Plus CSpace] ++ lit_i "application";
    lit_i "end" ++ [Plus CSpace] ++ lit_i "tell";
    lit_i "set" ++ [Plus CSpace; Plus CWord; Plus CSpace] ++ lit_i "to";
    lit_i "do" ++ [Plus CSpace] ++ lit_i "shell" ++ [Plus CSpace]
      ++ lit_i "script";
    lit_i "osascript" ].

(** The [for (const pattern of dangerousPatterns)] loop. *)
Fixpoint checkPatterns (patterns : list regex) (input fieldName : jsstring)
    : result unit :=
  match patterns with
  | [] => Ok ()
  | pattern :: rest =>
      if test pattern input
      then Throw (McpError InvalidParams
             (fieldName ++ js " contains potentially dangerous script patterns"))
      else checkPatterns rest input fieldName
  end.

Definition validateStringInput (input : value) (fieldName : jsstring)
    (maxLength : N) : result jsstring :=
  match input with
  | VStr s =>
      if (strlen s =? 0)%N
      then Throw (McpError InvalidParams (fieldName ++ js " cannot be empty"))
      else if (maxLength <? strlen s)%N
      then Throw (McpError InvalidParams
             (fieldName ++ js " cannot exceed " ++ js (pretty maxLength)
                ++ js " characters"))
      else
        _ ← checkPatterns dangerousPatterns s fieldName;
        Ok (trim s)
  | _ => Throw (McpError InvalidParams (fieldName ++ js " must be a string"))
  end.

(** [input.map(item => validateStringInput(item, ..., 100))]: the first
    item that fails throws. *)
Fixpoint validateItems (items : list value) (fieldName : jsstring)
    : result (list jsstring) :=
  match items with
  | [] => Ok []
  | item :: rest =>
      s ← validateStringInput item (fieldName ++ js " item") 100;
      ss ← validateItems rest fieldName;
      Ok (s :: ss)
  end.

Definition validateArrayInput (input : value) (fieldName : jsstring)
    (maxItems : N) : result (list jsstring) :=
  match input with
  | VArr items =>
      if (maxItems <? N.of_nat (length items))%N
      then Throw (McpError InvalidParams
             (fieldName ++ js " cannot exceed " ++ js (pretty maxItems)
                ++ js " items"))
      else validateItems items fieldName
  | _ => Throw (McpError InvalidParams (fieldName ++ js " must be an array"))
  end.

(** [/^\d{4}-\d{2}-\d{2}$/] *)
Definition dateRegex : regex :=
  [Bol] ++ replicate 4 (One CDigit) ++ lit "-" ++ replicate 2 (One CDigit)
    ++ lit "-" ++ replicate 2 (One CDigit) ++ [Eol].

Definition validateDateInput (input : value) (fieldName : jsstring)
    : result jsstring :=
  match input with
  | VStr s =>
      if negb (test dateRegex s)
      then Throw (McpError InvalidParams
             (fieldName ++ js " must be in YYYY-MM-DD format"))
      else if negb (Date.parses s)
      then Throw (McpError InvalidParams (fieldName ++ js " is not a valid date"))
      else Ok s
  | _ => Throw (McpError InvalidParams
           (fieldName ++ js " must be a string in YYYY-MM-DD format"))
  end.

End ThingsValidator.

(** ** ParameterMapper *)

Module ParameterMapper.
Import SERVER_CONFIG.validation ThingsValidator.

(** [args.k ? ThingsValidator.validateStringInput(args.k, "k", maxLength) :
    otherwise] *)
Definition stringField (args : gmap string value) (k : string) (maxLength : N)
    (otherwise : result value) : result value :=
  if truthy (get args k)
  then VStr <$> validateStringInput (get args k) (js k) maxLength
  else otherwise.

(** [args.k ? ThingsValidator.validateDateInput(args.k, "k") : otherwise] *)
Definition dateField (args : gmap string value) (k : string)
    (otherwise : result value) : result value :=
  if truthy (get args k)
  then VStr <$> validateDateInput (get args k) (js k)
  else otherwise.

(** [args.k ? ThingsValidator.validateArrayInput(args.k, "k") : null] *)
Definition arrayField (args : gmap string value) (k : string) : result value :=
  if truthy (get args k)
  then (λ items, VArr (VStr <$> items))
         <$> validateArrayInput (get args k) (js k) maxArrayLength
  else Ok VNull.

(** [args.k !== undefined ? Boolean(args.k) : null] *)
Definition flagField (args : gmap string value) (k : string) : value :=
  if is_undefined (get args k) then VNull else VBool (truthy (get args k)).

(** The object literal is evaluated property by property, in source order, so
    the first validation that fails is the one that throws; the spread of
    [additionalFields] comes last and overrides; the entries whose value is
    [null] are then filtered out. *)
Definition validateAndMapParameters (args additionalFields : gmap string value)
    : result (gmap string value) :=
  name ← stringField args "title" maxStringLength
            (stringField args "name" maxStringLength (Ok VNull));
  title ← stringField args "title" maxStringLength (Ok VNull);
  id ← stringField args "id" maxStringLength (Ok VNull);
  notes ← stringField args "notes" maxNotesLength (Ok VNull);
  activation_date ← dateField args "when" (dateField args "due_date" (Ok VNull));
  due_date ← dateField args "deadline" (Ok VNull);
  area ← stringField args "area_title" maxStringLength
            (stringField args "area" maxStringLength (Ok VNull));
  area_id ← stringField args "area_id" maxStringLength (Ok VNull);
  project ← stringField args "list_title" maxStringLength
               (stringField args "project" maxStringLength (Ok VNull));
  list_id ← stringField args "list_id" maxStringLength (Ok VNull);
  tags ← arrayField args "tags";
  checklist_items ← arrayField args "checklist_items";
  todos ← arrayField args "todos";
  heading ← stringField args "heading" maxStringLength (Ok VNull);
  let completed := flagField args "completed" in
  let canceled := flagField args "canceled" in
  let result : gmap string value :=
    additionalFields ∪
    list_to_map
      [ ("name", name); ("title", title); ("id", id); ("notes", notes);
        ("activation_date", activation_date); ("due_date", due_date);
        ("area", area); ("area_id", area_id); ("project", project);
        ("list_id", list_id); ("tags", tags);
        ("checklist_items", checklist_items); ("todos", todos);
        ("heading", heading); ("completed", completed);
        ("canceled", canceled) ] in
  Ok (filter (λ kv : string * value, is_null kv.2 = false) result).

End ParameterMapper.

(** ** What a pattern denotes

    The words of a pattern without [^] and [$], and what it means for a
    string to contain a match of it. *)

Inductive denotes : regex → jsstring → Prop :=
| denotes_nil : denotes [] []
| denotes_one cl rx c w :
    in_class cl c = true → denotes rx w → denotes (One cl :: rx) (c :: w)
| denotes_plus cl rx c u w :
    in_class cl c = true → forallb (in_class cl) u = true → denotes rx w →
    denotes (Plus cl :: rx) (c :: u ++ w).

Definition contains_match (rx : regex) (s : jsstring) : Prop :=
  ∃ pre m post, s = pre ++ m ++ post ∧ denotes rx m.

Definition anchor_free (rx : regex) : bool :=
  forallb (λ a, match a with Bol | Eol => false | _ => true end) rx.

(** A string of white space only. *)
Definition all_space (s : jsstring) : bool := forallb is_space s.

(** An object literal [{k1: v1, ...}] with distinct keys. *)
Definition object (entries : list (string * value)) : gmap string value :=
  list_to_map entries.

(** ** The host and the executor

    What the code takes from its environment: [JSON.parse] and
    [JSON.stringify], the conversion to string of the values a template
    literal does not receive as strings or primitives, the [message] the SDK
    gives an [McpError], the message of the [TypeError] for reading a property
    of [null] or [undefined], and the executor [execAsync], whose outcome may
    depend on the commands run before. *)

Record Command := {
  command : jsstring;
  timeout : N;
  maxBuffer : N
}.

Inductive ExecOutcome :=
| Exited (stdout stderr : jsstring)          (* the promise resolves *)
| Rejected (code : value) (message : jsstring).  (* the promise rejects *)

Record Host := {
  JSON_parse : jsstring → result value;
  JSON_stringify : value → jsstring;
  ToString_object : value → jsstring;
  McpError_message : ErrorCode → jsstring → jsstring;
  TypeError_message : string → jsstring;
  execAsync : list Command → Command → ExecOutcome
}.

(** [`${v}`]: numbers, arrays and objects are converted by the host. *)
Definition ToString (host : Host) (v : value) : jsstring :=
  match v with
  | VStr s => s
  | VUndefined => js "undefined"
  | VNull => js "null"
  | VBool true => js "true"
  | VBool false => js "false"
  | _ => ToString_object host v
  end.

(** [error.message] *)
Definition exn_message (host : Host) (e : exn) : jsstring :=
  match e with
  | McpError code message => McpError_message host code message
  | JXAError message _ => message
  | Error message => message
  | ExecError _ message => message
  end.

(** [error.code === c]: the code of an [McpError] is a number, a plain
    [Error] has none. *)
Definition exn_code_is (e : exn) (c : jsstring) : bool :=
  match e with
  | JXAError _ code => bool_decide (code = c)
  | ExecError (VStr code) _ => bool_decide (code = c)
  | _ => false
  end.

(** [v.k] on any value: a [TypeError] on [null] and [undefined]; no name read
    by the code is a property of a string, an array, a number or a
    boolean. *)
Definition prop (host : Host) (v : value) (k : string) : result value :=
  match v with
  | VUndefined | VNull => Throw (Error (TypeError_message host k))
  | VObj o => Ok (get o k)
  | _ => Ok VUndefined
  end.

(** [v === false] *)
Definition is_false (v : value) : bool :=
  match v with VBool false => true | _ => false end.

(** Effectful code: a result, and the log of the commands handed to the
    executor so far. *)
Definition M (A : Type) : Type := list Command → result A * list Command.

#[global] Instance M_ret : MRet M := λ A a log, (Ok a, log).
#[global] Instance M_bind : MBind M := λ A B f m log,
  match m log with
  | (Ok a, log') => f a log'
  | (Throw e, log') => (Throw e, log')
  end.

Definition throw {A} (e : exn) : M A := λ log, (Throw e, log).

Definition lift {A} (r : result A) : M A := λ log, (r, log).

(** [try { body } catch (error) { handler }] *)
Definition try_catch {A} (body : M A) (handler : exn → M A) : M A := λ log,
  match body log with
  | (Ok a, log') => (Ok a, log')
  | (Throw error, log') => handler error log'
  end.

(** [await execAsync(command, {timeout, maxBuffer})] *)
Definition exec (host : Host) (cmd : Command) : M (jsstring * jsstring) :=
  λ log,
    (match execAsync host log cmd with
     | Exited stdout stderr => Ok (stdout, stderr)
     | Rejected code message => Throw (ExecError code message)
     end, log ++ [cmd]).

(** The script texts of [JXATemplates] the modelled code asks for, taken as
    given: they run inside the automation engine. *)
Record JXATemplates := {
  isThingsRunning_script : jsstring;
  updateTodo_script : jsstring;
  updateProject_script : jsstring;
  showItem_script : jsstring
}.

(** ** ThingsExtension (index.js)

    The calls to [ThingsLogger] write to the error stream only and are left
    out. *)

Module ThingsExtension.
Import SERVER_CONFIG.

(** [s.replace(/'/g, "'\"'\"'")] *)
Definition escapeQuotes (s : jsstring) : jsstring :=
  s ≫= (λ c, if (c =? 39)%N then [39; 34; 39; 34; 39]%N else [c]).

Definition JXAExecutionError (message : jsstring) : exn :=
  JXAError (js "JXA execution failed: " ++ message) (js "JXA_EXECUTION_ERROR").

Definition executeJXA (host : Host) (script : jsstring)
    (params : gmap string value) (timeout : N) : M value :=
  try_catch
    (if (validation.maxScriptSize <? strlen script)%N
     then throw (McpError InvalidParams
            (js "Generated JXA script too large: " ++ js (pretty (strlen script))
               ++ js " bytes (max: " ++ js (pretty validation.maxScriptSize)
               ++ js ")"))
     else
       let escapedScript := escapeQuotes script in
       let hasParams := (0 <? size params)%nat in
       let command :=
         if hasParams
         then
           let jsonParams := JSON_stringify host (VObj params) in
           let escapedParams := escapeQuotes jsonParams in
           js "osascript -l JavaScript -e '" ++ escapedScript ++ js "' '"
             ++ escapedParams ++ js "'"
         else js "osascript -l JavaScript -e '" ++ escapedScript ++ js "' '{}'" in
       '(stdout, stderr) ← exec host
          {| command := command; timeout := timeout;
             maxBuffer := jxa.maxBuffer |};
       if truthy (VStr stderr)
       then throw (Error (js "JXA error: " ++ stderr))
       else
         let result := trim stdout in
         try_catch
           (parsed ← lift (JSON_parse host result);
            success ← lift (prop host parsed "success");
            if is_false success
            then
              error ← lift (prop host parsed "error");
              if truthy error
              then
                message ← lift (prop host error "message");
                throw (JXAExecutionError
                         (ToString host
                            (js_or message
                               (VStr (js "JXA script returned an error")))))
              else mret parsed
            else mret parsed)
           (λ parseError,
              throw (JXAExecutionError
                       (js "Invalid JXA response: "
                          ++ exn_message host parseError))))
    (λ error,
       if exn_code_is error (js "ETIMEDOUT")
       then throw (McpError InternalError ERROR_MESSAGES.JXA_TIMEOUT)
       else throw (McpError InternalError
              (js "JXA execution failed: " ++ exn_message host error))).

(** [result.error?.message] *)
Definition optional_error_message (host : Host) (jxaResult : value)
    : result value :=
  error ← prop host jxaResult "error";
  match error with
  | VUndefined | VNull => Ok VUndefined
  | _ => prop host error "message"
  end.

Definition executeThingsJXA (host : Host)
    (templateFunction : gmap string value → jsstring)
    (params : gmap string value) (operationName : jsstring) : M value :=
  try_catch
    (let script := templateFunction params in
     result ← executeJXA host script params jxa.timeout;
     success ← lift (prop host result "success");
     data ← (if truthy success then lift (prop host result "data")
             else mret success);
     if truthy data
     then mret data
     else
       message ← lift (optional_error_message host result);
       throw (Error (ToString host
                       (js_or message (VStr (js "Unknown error occurred"))))))
    (λ error, throw error).

Definition ThingsNotRunningError : exn :=
  JXAError
    (js "Things 3 is not running. Please launch Things 3 and try again.")
    (js "THINGS_NOT_RUNNING").

(** [error instanceof ThingsNotRunningError]: no other error carries this
    code. *)
Definition is_ThingsNotRunningError (e : exn) : bool :=
  match e with
  | JXAError _ code => bool_decide (code = js "THINGS_NOT_RUNNING")
  | _ => false
  end.

Definition validateThingsRunning (host : Host) (templates : JXATemplates)
    : M unit :=
  try_catch
    (result ← executeJXA host (isThingsRunning_script templates) ∅ jxa.timeout;
     success ← lift (prop host result "success");
     if negb (truthy success)
     then throw ThingsNotRunningError
     else
       data ← lift (prop host result "data");
       if negb (truthy data)
       then throw ThingsNotRunningError
       else mret ())
    (λ error,
       if is_ThingsNotRunningError error
       then throw error
       else throw (McpError InternalError ERROR_MESSAGES.THINGS_CHECK_FAILED)).

End ThingsExtension.

(** ** ResponseFormatter *)

Module ResponseFormatter.

Definition createSuccessResponse (host : Host) (data : value) : value :=
  VObj (object
    [ ("content",
       VArr [ VObj (object [ ("type", VStr (js "text"));
                             ("text", VStr (JSON_stringify host data)) ]) ]) ]).

End ResponseFormatter.

(** ** ToolHandlers (tool-handlers.js): the update and show handlers

    The handlers hold the [executeThingsJXA] they were constructed with. *)

Module ToolHandlers.
Import ResponseFormatter.

Definition executor : Type :=
  (gmap string value → jsstring) → gmap string value → jsstring → M value.

(** The object literal [updateTodo] passes as the script's parameters. *)
Definition updateTodo_params (scriptParams : gmap string value)
    : gmap string value :=
  object
    [ ("id", get scriptParams "id");
      ("title", js_or (get scriptParams "title") (get scriptParams "new_name"));
      ("notes", get scriptParams "notes");
      ("deadline", get scriptParams "due_date");
      ("when", get scriptParams "activation_date");
      ("tags", get scriptParams "tags");
      ("checklist_items", get scriptParams "checklist_items");
      ("completed", get scriptParams "completed");
      ("canceled", get scriptParams "canceled") ].

Definition updateTodo (host : Host) (templates : JXATemplates)
    (executeThingsJXA : executor) (args : gmap string value) : M value :=
  scriptParams ← lift (ParameterMapper.validateAndMapParameters args ∅);
  if negb (truthy (get scriptParams "id"))
  then throw (McpError InvalidParams (js "Todo ID is required for update"))
  else
    try_catch
      (result ← executeThingsJXA
         (λ _, updateTodo_script templates)
         (updateTodo_params scriptParams)
         (js "Update todo");
       mret (createSuccessResponse host (VObj (object
         [ ("success", VBool true);
           ("message", VStr (js "Updated to-do: "
                               ++ ToString host (get scriptParams "id"))) ]))))
      (λ error,
         mret (createSuccessResponse host (VObj (object
           [ ("success", VBool false);
             ("message", VStr (js "To-do not found: "
                                 ++ ToString host (get scriptParams "id")));
             ("error", VStr (js "TODO_NOT_FOUND")) ])))).

(** The object literal [updateProject] passes as the script's parameters. *)
Definition updateProject_params (scriptParams : gmap string value)
    : gmap string value :=
  object
    [ ("id", get scriptParams "id");
      ("title", get scriptParams "title");
      ("notes", get scriptParams "notes");
      ("deadline", get scriptParams "due_date");
      ("when", get scriptParams "activation_date");
      ("tags", get scriptParams "tags");
      ("completed", get scriptParams "completed");
      ("canceled", get scriptParams "canceled") ].

Definition updateProject (host : Host) (templates : JXATemplates)
    (executeThingsJXA : executor) (args : gmap string value) : M value :=
  scriptParams ← lift (ParameterMapper.validateAndMapParameters args ∅);
  if negb (truthy (get scriptParams "id"))
  then throw (McpError InvalidParams (js "Project ID is required for update"))
  else
    try_catch
      (result ← executeThingsJXA
         (λ _, updateProject_script templates)
         (updateProject_params scriptParams)
         (js "Update project");
       mret (createSuccessResponse host (VObj (object
         [ ("success", VBool true);
           ("message", VStr (js "Updated project: "
                               ++ ToString host (get scriptParams "id"))) ]))))
      (λ error,
         mret (createSuccessResponse host (VObj (object
           [ ("success", VBool false);
             ("message", VStr (js "Project not found: "
                                 ++ ToString host (get scriptParams "id")));
             ("error", VStr (js "PROJECT_NOT_FOUND")) ])))).

Definition showItem (host : Host) (templates : JXATemplates)
    (executeThingsJXA : executor) (args : gmap string value) : M value :=
  itemId ← lift (ThingsValidator.validateStringInput (get args "id") (js "id")
                   SERVER_CONFIG.validation.maxStringLength);
  try_catch
    (item ← executeThingsJXA
       (λ _, showItem_script templates)
       (object [ ("id", VStr itemId) ])
       (js "Show item");
     mret (createSuccessResponse host (VObj (object
       [ ("success", VBool true); ("id", VStr itemId); ("item", item) ]))))
    (λ error,
       mret (createSuccessResponse host (VObj (object
         [ ("success", VBool false);
           ("message", VStr (js "Item not found: " ++ itemId));
           ("error", VStr (js "ITEM_NOT_FOUND")) ])))).

End ToolHandlers.

(** The message of the deny-list failure. *)
Definition dangerous_message (fieldName : jsstring) : jsstring :=
  fieldName ++ js " contains potentially dangerous script patterns".

(** ** The specification's notions of valid input *)

(** A string the validator is meant to accept under the cap [maxLength]:
    not empty, within the cap, free of every deny-listed construct. *)
Definition valid_string (maxLength : N) (s : jsstring) : Prop :=
  s ≠ [] ∧ (strlen s <= maxLength)%N ∧
  ∀ pattern, In pattern ThingsValidator.dangerousPatterns →
    ¬ contains_match pattern s.

Definition leap_year (y : Z) : bool :=
  ((y mod 4 =? 0) && (negb (y mod 100 =? 0) || (y mod 400 =? 0)))%Z.

Definition days_in_month (y m : Z) : Z :=
  if ((m =? 4) || (m =? 6) || (m =? 9) || (m =? 11))%Z then 30
  else if (m =? 2)%Z then (if leap_year y then 29 else 28)
  else 31.

(** [YYYY-MM-DD] naming a day of the calendar. *)
Definition real_calendar_date (s : jsstring) : bool :=
  test ThingsValidator.dateRegex s &&
  match Date.fields s with
  | Some (y, m, d) =>
      Date.IsMonth m && (1 <=? d)%Z && (d <=? days_in_month y m)%Z
  | None => false
  end.

(** ** Examples used below *)

Definition tell_application : regex :=
  lit_i "tell" ++ [Plus CSpace] ++ lit_i "application".

Definition tell_input : jsstring :=
  js "Groceries, then TELL   Application Finder to quit".

Definition spaces_101 : jsstring := replicate 101 32%N.

Definition buy_milk_args : gmap string value :=
  object [("title", VStr (js "Buy milk")); ("when", VStr (js "2025-01-10"));
          ("deadline", VStr (js "2025-01-15"))].

(** ** What the caller supplied

    The argument names each key of the standard table is read from, in
    precedence order, and whether the caller supplied one of them: a flag is
    supplied when its argument is not [undefined], any other field when its
    argument is not a value the mapper treats as absent (a falsy one). *)

Definition sources : list (string * list string) :=
  [ ("name", ["title"; "name"]); ("title", ["title"]); ("id", ["id"]);
    ("notes", ["notes"]); ("activation_date", ["when"; "due_date"]);
    ("due_date", ["deadline"]); ("area", ["area_title"; "area"]);
    ("area_id", ["area_id"]); ("project", ["list_title"; "project"]);
    ("list_id", ["list_id"]); ("tags", ["tags"]);
    ("checklist_items", ["checklist_items"]); ("todos", ["todos"]);
    ("heading", ["heading"]) ].

Definition flags : list string := ["completed"; "canceled"].

Fixpoint assoc {A} (k : string) (l : list (string * A)) : option A :=
  match l with
  | [] => None
  | (k', a) :: l' => if String.eqb k k' then Some a else assoc k l'
  end.

Definition supplied (args : gmap string value) (k : string) : bool :=
  match assoc k sources with
  | Some names => existsb (λ name, truthy (get args name)) names
  | None =>
      existsb (String.eqb k) flags && negb (is_undefined (get args k))
  end.

Definition undefined_status : gmap string value :=
  object [("status", VUndefined)].

Definition minimal_args : gmap string value :=
  object [("title", VStr (js "Minimal task"))].

(** The reply of the is-running script when the application is not running,
    and the reply of the update script for an id that resolves to nothing. *)
Definition not_running_reply : value :=
  VObj (object [("success", VBool true); ("data", VBool false)]).

Definition not_found_reply : value :=
  VObj (object
    [ ("success", VBool false);
      ("error", VObj (object
         [ ("type", VStr (js "NotFound"));
           ("message", VStr (js "Todo not found"));
           ("code", VNum (S754_finite true 1 0)) ])) ]).

(** A host whose script prints one line that parses to [reply]. *)
Definition replying_host (reply : value) : Host := {|
  JSON_parse := λ _, Ok reply;
  JSON_stringify := λ _, js "{}";
  ToString_object := λ _, js "[object Object]";
  McpError_message := λ _ message, message;
  TypeError_message := λ k, js "Cannot read properties of null";
  execAsync := λ _ _, Exited (js "{}") []
|}.

Definition example_templates : JXATemplates := {|
  isThingsRunning_script := js "function run(argv) { /* is it running? */ }";
  updateTodo_script := js "function run(argv) { /* update a to-do */ }";
  updateProject_script := js "function run(argv) { /* update a project */ }";
  showItem_script := js "function run(argv) { /* show an item */ }"
|}.

Definition zzz_args : gmap string value := object [("id", VStr (js "zzz"))].

(** An executor that times out. *)
Definition timing_out : ToolHandlers.executor :=
  λ _ _ _, throw (McpError InternalError ERROR_MESSAGES.JXA_TIMEOUT).

Definition oversized_script : jsstring := replicate (N.to_nat 102401) 120%N.

(** The envelope of a soft failure. *)
Definition soft_failure (host : Host) (message : jsstring) (code : string)
    : value :=
  ResponseFormatter.createSuccessResponse host (VObj (object
    [ ("success", VBool false); ("message", VStr message);
      ("error", VStr (js code)) ])).

(** The executor throws, whatever it is called with, in the state [log]. *)
Definition throws_at (executeThingsJXA : ToolHandlers.executor)
    (log : list Command) : Prop :=
  ∀ templateFunction params operationName,
    ∃ error log', executeThingsJXA templateFunction params operationName log
                  = (Throw error, log').

(** The script ran, wrote nothing to the error stream, and printed a reply
    with [success: false] and an [error]: what the update and show scripts
    print for an id that resolves to nothing. *)
Definition replies_failure (host : Host) : Prop :=
  ∃ stdout reply,
    (∀ log cmd, execAsync host log cmd = Exited stdout [])
    ∧ JSON_parse host (trim stdout) = Ok (VObj reply)
    ∧ get reply "success" = VBool false
    ∧ truthy (get reply "error") = true.

Definition created_reply : gmap string value :=
  object [("success", VBool true);
          ("data", VObj (object [("id", VStr (js "abc"))]))].

Definition example_script : jsstring := js "function run(argv) { }".

(** An entry of the standard table is [null], or a value that is not
    [undefined] for a field the caller supplied. *)
Definition entry_ok (args : gmap string value) (kv : string * value) : Prop :=
  kv.2 = VNull ∨ (is_undefined kv.2 = false ∧ supplied args kv.1 = true).

(** ** Proof steps used repeatedly *)

(** Peels one [x ← e; ...] off a mapping that succeeded. *)
Ltac bind_ok H v E :=
  match type of H with
  | mbind _ ?e = Ok _ =>
      destruct e as [v|] eqn:E;
      [cbn [mbind result_bind] in H|discriminate H]
  end.

(** Evaluates the lookups of an object literal. *)
Ltac eval_get :=
  repeat match goal with
  | |- context [get ?o ?k] =>
      let v := eval vm_compute in (get o k) in change (get o k) with v
  end.

Ltac unfold_mapper :=
  unfold ParameterMapper.validateAndMapParameters,
    ParameterMapper.stringField, ParameterMapper.dateField,
    ParameterMapper.arrayField, ParameterMapper.flagField;
  eval_get.

Ltac finish_mapper :=
  cbn [truthy is_undefined fmap result_fmap mbind result_bind];
  reflexivity.

(** ** StatusValidator (utils.js) *)

Module StatusValidator.

Definition VALID_STATUSES : list jsstring :=
  [js "open"; js "completed"; js "canceled"].

Definition VALID_LISTS : list jsstring :=
  [js "inbox"; js "today"; js "upcoming"; js "anytime"; js "someday";
   js "all"].

(** [list.includes(v)] on a list of strings: only an equal string is found. *)
Definition includes (l : list jsstring) (v : value) : bool :=
  match v with
  | VStr s => bool_decide (s ∈ l)
  | _ => false
  end.

(** [list.join(sep)] *)
Fixpoint join (sep : jsstring) (l : list jsstring) : jsstring :=
  match l with
  | [] => []
  | [x] => x
  | x :: l' => x ++ sep ++ join sep l'
  end.

Definition validateStatus (host : Host) (status : value) (fieldName : jsstring)
    : result value :=
  if negb (includes VALID_STATUSES status)
  then Throw (McpError InvalidParams
         (js "Invalid " ++ fieldName ++ js ": " ++ ToString host status
            ++ js ". Must be one of: " ++ join (js ", ") VALID_STATUSES))
  else Ok status.

Definition validateList (host : Host) (list : value) (fieldName : jsstring)
    : result value :=
  if negb (includes VALID_LISTS list)
  then Throw (McpError InvalidParams
         (js "Invalid " ++ fieldName ++ js ": " ++ ToString host list
            ++ js ". Must be one of: " ++ join (js ", ") VALID_LISTS))
  else Ok list.

(** The [switch] compares with [===]. *)
Definition statusToFilter (status : value) : jsstring :=
  match status with
  | VStr s =>
      if bool_decide (s = js "open") then js "open"
      else if bool_decide (s = js "completed") then js "completed"
      else if bool_decide (s = js "canceled") then js "canceled"
      else js "open"
  | _ => js "open"
  end.

End StatusValidator.

(** ** ToolHandlers (tool-handlers.js): the create handlers

    The script text of [JXATemplates.createTodo] and
    [JXATemplates.createProject] is taken as given. *)

Module CreateHandlers.
Import ResponseFormatter.

(** The object literal [addTodo] passes as the script's parameters. *)
Definition addTodo_params (args scriptParams : gmap string value)
    : gmap string value :=
  object
    [ ("title", js_or (get scriptParams "name") (get scriptParams "title"));
      ("notes", get scriptParams "notes");
      ("deadline", get scriptParams "due_date");
      ("when", get scriptParams "activation_date");
      ("list_id", get scriptParams "list_id");
      ("list_title", get scriptParams "project");
      ("area_id", get scriptParams "area_id");
      ("area_title", get scriptParams "area");
      ("tags", get scriptParams "tags");
      ("checklist_items", get args "checklist_items") ].

Definition addTodo (host : Host) (createTodo_script : jsstring)
    (executeThingsJXA : ToolHandlers.executor) (args : gmap string value)
    : M value :=
  scriptParams ← lift (ParameterMapper.validateAndMapParameters args ∅);
  result ← executeThingsJXA (λ _, createTodo_script)
              (addTodo_params args scriptParams) (js "Create todo");
  id ← lift (prop host result "id");
  mret (createSuccessResponse host (VObj (object
    [ ("success", VBool true);
      ("message", VStr (js "Created to-do: "
                          ++ ToString host
                               (js_or (get scriptParams "name")
                                      (get scriptParams "title"))));
      ("id", id) ]))).

(** The object literal [addProject] passes as the script's parameters. *)
Definition addProject_params (args scriptParams : gmap string value)
    : gmap string value :=
  object
    [ ("title", js_or (get scriptParams "name") (get scriptParams "title"));
      ("notes", get scriptParams "notes");
      ("deadline", get scriptParams "due_date");
      ("when", get scriptParams "activation_date");
      ("area_id", get scriptParams "area_id");
      ("area_title", get scriptParams "area");
      ("tags", get scriptParams "tags");
      ("todos", get args "todos") ].

Definition addProject (host : Host) (createProject_script : jsstring)
    (executeThingsJXA : ToolHandlers.executor) (args : gmap string value)
    : M value :=
  scriptParams ← lift (ParameterMapper.validateAndMapParameters args ∅);
  result ← executeThingsJXA (λ _, createProject_script)
              (addProject_params args scriptParams) (js "Create project");
  id ← lift (prop host result "id");
  mret (createSuccessResponse host (VObj (object
    [ ("success", VBool true);
      ("message", VStr (js "Created project: "
                          ++ ToString host
                               (js_or (get scriptParams "name")
                                      (get scriptParams "title"))));
      ("id", id) ]))).

End CreateHandlers.

(** ** ThingsExtension (index.js): the tool-call request handler *)

Module CallTool.
Import SERVER_CONFIG.

(** [HANDLER_METHOD_MAP] *)
Definition HANDLER_METHOD_MAP : list (string * string) :=
  [ ("add_todo", "addTodo"); ("add_project", "addProject");
    ("get_areas", "getAreas"); ("get_todos", "getTodos");
    ("get_projects", "getProjects"); ("get_inbox", "getInbox");
    ("get_today", "getToday"); ("get_upcoming", "getUpcoming");
    ("get_anytime", "getAnytime"); ("get_someday", "getSomeday");
    ("get_logbook", "getLogbook"); ("get_trash", "getTrash");
    ("get_tags", "getTags"); ("get_tagged_items", "getTaggedItems");
    ("search_todos", "searchTodos"); ("search_advanced", "searchAdvanced");
    ("get_recent", "getRecent"); ("update_todo", "updateTodo");
    ("update_project", "updateProject"); ("show_item", "showItem");
    ("search_items", "searchItems") ].

(** [map.get(key)]: only a string equal to a key is found. *)
Fixpoint map_get (m : list (string * string)) (key : value) : option string :=
  match m with
  | [] => None
  | (k, v) :: m' =>
      if match key with VStr s => bool_decide (s = js k) | _ => false end
      then Some v
      else map_get m' key
  end.

(** A method of the [ToolHandlers] instance, called with the arguments of
    the request as they came. *)
Definition handler : Type := value → M value.

(** [toolHandlers] gives the method of that name, if the instance has one. *)
Definition getHandlerMethod (toolHandlers : string → option handler)
    (toolName : value) : option handler :=
  match map_get HANDLER_METHOD_MAP toolName with
  | Some methodName => toolHandlers methodName
  | None => None
  end.

(** The handler registered for [CallToolRequestSchema]. *)
Definition callTool (host : Host) (templates : JXATemplates)
    (toolHandlers : string → option handler) (request : value) : M value :=
  params ← lift (prop host request "params");
  name ← lift (prop host params "name");
  args ← lift (prop host params "arguments");
  try_catch
    (let requestSize := strlen (JSON_stringify host request) in
     if (validation.maxRequestSize <? requestSize)%N
     then throw (McpError InvalidParams
            (js "Request too large: " ++ js (pretty requestSize)
               ++ js " bytes (max: " ++ js (pretty validation.maxRequestSize)
               ++ js ")"))
     else
       _ ← ThingsExtension.validateThingsRunning host templates;
       match getHandlerMethod toolHandlers name with
       | None =>
           throw (McpError MethodNotFound
                    (js "Unknown tool: " ++ ToString host name))
       | Some handlerMethod => handlerMethod args
       end)
    (λ error,
       match error with
       | McpError _ _ => throw error
       | _ => throw (McpError InternalError
                (js "Tool execution failed: " ++ exn_message host error))
       end).

End CallTool.

(** ** The shell's reading of a quoted word

    How [/bin/sh] reads a word made of quoted parts only: between single
    quotes every character stands for itself; between double quotes so does
    every character but [$], the back quote, the backslash and the double
    quote, none of which this reader accepts there.  Anything outside quotes
    is refused. *)

Module Shell.

Inductive mode := Outside | InSingle | InDouble.

Definition special (c : N) : bool :=
  (c =? 36)%N || (c =? 96)%N || (c =? 92)%N.

Fixpoint unquote (m : mode) (s : jsstring) : option jsstring :=
  match s with
  | [] => match m with Outside => Some [] | _ => None end
  | c :: s' =>
      match m with
      | Outside =>
          if (c =? 39)%N then unquote InSingle s'
          else if (c =? 34)%N then unquote InDouble s'
          else None
      | InSingle =>
          if (c =? 39)%N then unquote Outside s'
          else cons c <$> unquote InSingle s'
      | InDouble =>
          if (c =? 34)%N then unquote Outside s'
          else if special c then None
          else cons c <$> unquote InDouble s'
      end
  end.

Definition word (s : jsstring) : option jsstring := unquote Outside s.

End Shell.

(** ** More notions used in the statements below *)

(** Four digits, a hyphen, two digits, a hyphen, two digits, and nothing
    else. *)
Definition date_shape (s : jsstring) : bool :=
  match s with
  | [y1; y2; y3; y4; h1; m1; m2; h2; d1; d2] =>
      forallb is_digit [y1; y2; y3; y4; m1; m2; d1; d2]
      && (h1 =? 45)%N && (h2 =? 45)%N
  | _ => false
  end.

(** The keys of the standard table of the mapper. *)
Definition standard_keys : gset string :=
  list_to_set
    [ "name"; "title"; "id"; "notes"; "activation_date"; "due_date"; "area";
      "area_id"; "project"; "list_id"; "tags"; "checklist_items"; "todos";
      "heading"; "completed"; "canceled" ].

(** The argument names the mapper reads. *)
Definition argument_names : list string :=
  [ "title"; "name"; "id"; "notes"; "when"; "due_date"; "deadline";
    "area_title"; "area"; "area_id"; "list_title"; "project"; "list_id";
    "tags"; "checklist_items"; "todos"; "heading" ].

(** A value the mapper puts in its result: a trimmed string, an array of
    trimmed strings, or a boolean. *)
Definition clean_value (v : value) : Prop :=
  (∃ s, v = VStr s ∧ trim s = s)
  ∨ (∃ items, v = VArr (VStr <$> items) ∧ Forall (λ s, trim s = s) items)
  ∨ (∃ b, v = VBool b).

(** ** Notions used by the further properties *)


(** The command [executeJXA] hands to the executor. *)
Definition jxa_command (host : Host) (script : jsstring)
    (params : gmap string value) (timeout : N) : Command :=
  {| command :=
       if (0 <? size params)%nat
       then js "osascript -l JavaScript -e '"
              ++ ThingsExtension.escapeQuotes script ++ js "' '"
              ++ ThingsExtension.escapeQuotes
                   (JSON_stringify host (VObj params)) ++ js "'"
       else js "osascript -l JavaScript -e '"
              ++ ThingsExtension.escapeQuotes script ++ js "' '{}'";
     timeout := timeout;
     maxBuffer := SERVER_CONFIG.jxa.maxBuffer |}.

(** The script is within the configured size. *)
Definition within_size (script : jsstring) : Prop :=
  (strlen script <= SERVER_CONFIG.validation.maxScriptSize)%N.

(** What [executeJXA] does with the outcome of the executor. *)
Definition after_exec (host : Host) (outcome : ExecOutcome) : result value :=
  match outcome with
  | Rejected code message =>
      if exn_code_is (ExecError code message) (js "ETIMEDOUT")
      then Throw (McpError InternalError ERROR_MESSAGES.JXA_TIMEOUT)
      else Throw (McpError InternalError
             (js "JXA execution failed: " ++ message))
  | Exited stdout stderr =>
      if truthy (VStr stderr)
      then Throw (McpError InternalError
             (js "JXA execution failed: " ++ js "JXA error: " ++ stderr))
      else
        let checked : result value :=
          parsed ← JSON_parse host (trim stdout);
          success ← prop host parsed "success";
          if is_false success
          then
            error ← prop host parsed "error";
            if truthy error
            then
              message ← prop host error "message";
              Throw (ThingsExtension.JXAExecutionError
                       (ToString host
                          (js_or message
                             (VStr (js "JXA script returned an error")))))
            else Ok parsed
          else Ok parsed in
        match checked with
        | Ok parsed => Ok parsed
        | Throw parseError =>
            Throw (McpError InternalError
              (js "JXA execution failed: " ++ js "JXA execution failed: "
                 ++ js "Invalid JXA response: " ++ exn_message host parseError))
        end
  end.


(** A host whose script always has the outcome [outcome] and whose parser
    always answers [parsed]. *)
Definition example_host (parsed : result value) (outcome : ExecOutcome)
    : Host := {|
  JSON_parse := λ _, parsed;
  JSON_stringify := λ _, js "{}";
  ToString_object := λ _, js "[object Object]";
  McpError_message := λ _ message, message;
  TypeError_message := λ k, js "Cannot read properties of null";
  execAsync := λ _ _, outcome
|}.

(** A request for the tool [name] with the arguments [args]. *)
Definition tool_request (name : jsstring) (args : value) : gmap string value :=
  object [ ("method", VStr (js "tools/call"));
           ("params", VObj (object [ ("name", VStr name);
                                     ("arguments", args) ])) ].

(** A [ToolHandlers] instance with the one method [showItem]. *)
Definition only_showItem (host : Host) (methodName : string)
    : option CallTool.handler :=
  if String.eqb methodName "showItem"
  then Some (λ args,
         match args with
         | VObj o =>
             ToolHandlers.showItem host example_templates
               (ThingsExtension.executeThingsJXA host) o
         | _ => throw (Error (TypeError_message host "id"))
         end)
  else None.

(** A host for which every request serializes to 40000 characters. *)
Definition verbose_host : Host := {|
  JSON_parse := λ _, Ok (VObj created_reply);
  JSON_stringify := λ _, replicate (N.to_nat 40000) 120%N;
  ToString_object := λ _, js "[object Object]";
  McpError_message := λ _ message, message;
  TypeError_message := λ k, js "Cannot read properties of null";
  execAsync := λ _ _, Exited (js "{}") []
|}.

(** What the request handler does with what a tool handler returned or
    threw. *)
Definition through_catch (host : Host) (outcome : result value * list Command)
    : result value * list Command :=
  match outcome with
  | (Ok response, log) => (Ok response, log)
  | (Throw (McpError code message), log) => (Throw (McpError code message), log)
  | (Throw error, log) =>
      (Throw (McpError InternalError
         (js "Tool execution failed: " ++ exn_message host error)), log)
  end.

(** [v.k] on a value that is neither [null] nor [undefined]. *)
Definition property (v : value) (k : string) : value :=
  match v with VObj o => get o k | _ => VUndefined end.

(** The response of a create handler: [createSuccessResponse] of
    [{success: true, message: prefix + (name || title), id}]. *)
Definition created_response (host : Host) (prefix : jsstring)
    (scriptParams : gmap string value) (id : value) : value :=
  ResponseFormatter.createSuccessResponse host (VObj (object
    [ ("success", VBool true);
      ("message", VStr (prefix
                          ++ ToString host
                               (js_or (get scriptParams "name")
                                      (get scriptParams "title"))));
      ("id", id) ])).

(** * Properties *)

(** ** The regular expression matcher meets its specification *)

Section Matcher.

Lemma match_plus_spec cl k s :
  match_plus cl k s = true ↔
  ∃ c u rest, s = c :: u ++ rest ∧ in_class cl c = true
    ∧ forallb (in_class cl) u = true ∧ k rest = true.
Proof.
  split.
  - induction s as [|c s IH]; simpl; [discriminate|].
    intros [Hc [Hp|Hk]%orb_prop]%andb_prop.
    + destruct (IH Hp) as (c' & u & rest & -> & Hc' & Hu & Hrest).
      exists c, (c' :: u), rest. simpl. rewrite Hc', Hu. auto.
    + exists c, [], s. auto.
  - intros (c & u & rest & -> & Hc & Hu & Hk).
    revert c Hc. induction u as [|c' u IH]; intros c Hc; simpl in *.
    + rewrite Hc, Hk. apply orb_true_r.
    + apply andb_prop in Hu as [Hc' Hu]. rewrite Hc. simpl.
      rewrite (IH Hu c' Hc'). reflexivity.
Qed.

Lemma match_here_denotes rx :
  anchor_free rx = true → ∀ start s,
  match_here rx start s = true ↔ ∃ m post, s = m ++ post ∧ denotes rx m.
Proof.
  induction rx as [|a rx IH]; intros Haf start s.
  - simpl. split; [|done]. intros _. exists [], s. split; [done|constructor].
  - simpl in Haf. apply andb_prop in Haf as [Ha Haf].
    destruct a as [| |cl|cl]; try discriminate; simpl.
    + destruct s as [|c s].
      * split; [discriminate|]. intros (m & post & Heq & Hd).
        inversion Hd; subst; discriminate.
      * rewrite andb_true_iff, (IH Haf). split.
        -- intros (Hc & m & post & -> & Hd). exists (c :: m), post.
           split; [done|]. by constructor.
        -- intros (m & post & Heq & Hd). inversion Hd; subst.
           simplify_eq/=. split; [done|]. eauto.
    + rewrite match_plus_spec. split.
      * intros (c & u & rest & -> & Hc & Hu & Hk).
        apply (IH Haf) in Hk as (m & post & -> & Hd).
        exists (c :: u ++ m), post. split.
        -- simpl. by rewrite <- app_assoc.
        -- by constructor.
      * intros (m & post & -> & Hd). inversion Hd; subst.
        exists c, u, (w ++ post). split; [|split; [done|split; [done|]]].
        -- simpl. by rewrite <- app_assoc.
        -- apply (IH Haf). eauto.
Qed.

Lemma search_denotes rx start s :
  anchor_free rx = true →
  search rx start s = true ↔ contains_match rx s.
Proof.
  intros Haf. unfold contains_match. revert start.
  induction s as [|c s IH]; intros start; simpl.
  - rewrite orb_false_r, (match_here_denotes rx Haf). split.
    + intros (m & post & Heq & Hd). exists [], m, post.
      split; [exact Heq|exact Hd].
    + intros (pre & m & post & Heq & Hd).
      symmetry in Heq. apply app_eq_nil in Heq as [-> Heq]. eauto.
  - rewrite orb_true_iff, (match_here_denotes rx Haf), IH. split.
    + intros [(m & post & Heq & Hd)|(pre & m & post & -> & Hd)].
      * exists [], m, post. split; [exact Heq|exact Hd].
      * exists (c :: pre), m, post. split; [reflexivity|exact Hd].
    + intros (pre & m & post & Heq & Hd). destruct pre as [|c' pre].
      * left. exists m, post. split; [exact Heq|exact Hd].
      * right. simplify_eq/=. eauto.
Qed.

Lemma test_contains_match rx s :
  anchor_free rx = true → test rx s = true ↔ contains_match rx s.
Proof. apply search_denotes. Qed.

Lemma contains_match_infix rx a s b :
  contains_match rx s → contains_match rx (a ++ s ++ b).
Proof.
  intros (pre & m & post & -> & Hd).
  exists (a ++ pre), m, (post ++ b). split; [|done].
  by rewrite <- !app_assoc.
Qed.

End Matcher.

(** ** String.prototype.trim *)

Section Trim.

Lemma all_space_app a b : all_space (a ++ b) = all_space a && all_space b.
Proof. apply forallb_app. Qed.

Lemma all_space_rev s : all_space (rev s) = all_space s.
Proof.
  induction s as [|c s IH]; [done|]. simpl.
  rewrite all_space_app, IH. simpl. rewrite andb_true_r. apply andb_comm.
Qed.

Lemma trimStart_split s : ∃ a, s = a ++ trimStart s ∧ all_space a = true.
Proof.
  induction s as [|c s (a & Ha & Hsp)]; [by exists []|]. simpl.
  destruct (is_space c) eqn:Hc.
  - exists (c :: a). simpl. rewrite Hc, Hsp. by rewrite <- Ha.
  - by exists [].
Qed.

Lemma trimStart_all_space s : all_space s = true → trimStart s = [].
Proof.
  induction s as [|c s IH]; [done|]. simpl.
  intros [-> Hs]%andb_prop. auto.
Qed.

Lemma trimStart_snoc x c :
  is_space c = false → trimStart (x ++ [c]) = trimStart x ++ [c].
Proof.
  intros Hc. induction x as [|d x IH]; simpl.
  - by rewrite Hc.
  - destruct (is_space d); [exact IH|done].
Qed.

Lemma trimStart_idem s : trimStart (trimStart s) = trimStart s.
Proof.
  induction s as [|c s IH]; [done|]. simpl.
  destruct (is_space c) eqn:Hc; [exact IH|]. simpl. by rewrite Hc.
Qed.

Lemma trimEnd_split s : ∃ b, s = trimEnd s ++ b ∧ all_space b = true.
Proof.
  unfold trimEnd. destruct (trimStart_split (rev s)) as (a & Ha & Hsp).
  exists (rev a). rewrite all_space_rev. split; [|done].
  rewrite <- rev_app_distr, <- Ha. by rewrite rev_involutive.
Qed.

Lemma trimEnd_cons c t : is_space c = false → trimEnd (c :: t) = c :: trimEnd t.
Proof.
  intros Hc. unfold trimEnd. simpl.
  by rewrite trimStart_snoc, rev_app_distr.
Qed.

Lemma trimEnd_idem s : trimEnd (trimEnd s) = trimEnd s.
Proof. unfold trimEnd. by rewrite rev_involutive, trimStart_idem. Qed.

(** Trimming keeps a leading character that is not white space. *)
Lemma trim_unfold s :
  trim s = match trimStart s with [] => [] | c :: t => c :: trimEnd t end.
Proof.
  unfold trim. destruct (trimStart s) as [|c t] eqn:Hs; [done|].
  apply trimEnd_cons.
  destruct s as [|d s]; [done|]. revert d Hs.
  induction s as [|e s IH]; intros d; simpl.
  - destruct (is_space d) eqn:Hd; [done|]. by intros [= <- _].
  - destruct (is_space d) eqn:Hd; [apply IH|]. by intros [= <- _].
Qed.

Lemma trim_idem s : trim (trim s) = trim s.
Proof.
  unfold trim at 1. rewrite (trim_unfold s).
  destruct (trimStart s) as [|c t] eqn:Hs; [done|].
  assert (Hc : is_space c = false).
  { pose proof (trimStart_idem s) as Hi. rewrite Hs in Hi. simpl in Hi.
    destruct (is_space c) eqn:Hc; [|done].
    destruct (trimStart_split t) as (a & Ha & _).
    apply (f_equal length) in Hi. rewrite Ha in Hi at 2.
    simpl in Hi. rewrite length_app in Hi. lia. }
  simpl. rewrite Hc. by rewrite trimEnd_cons, trimEnd_idem.
Qed.

Lemma trim_infix s : ∃ a b, s = a ++ trim s ++ b.
Proof.
  unfold trim. destruct (trimStart_split s) as (a & Ha & _).
  destruct (trimEnd_split (trimStart s)) as (b & Hb & _).
  exists a, b. by rewrite <- Hb.
Qed.

Lemma trim_length s : (strlen (trim s) <= strlen s)%N.
Proof.
  destruct (trim_infix s) as (a & b & Heq). unfold strlen.
  rewrite Heq at 2. rewrite !length_app. lia.
Qed.

Lemma trim_all_space s : all_space s = true → trim s = [].
Proof. intros Hs. unfold trim. by rewrite trimStart_all_space. Qed.

End Trim.

(** ** ThingsValidator.validateStringInput *)

Section ValidateString.
Import ThingsValidator.

Lemma dangerousPatterns_anchor_free pattern :
  In pattern dangerousPatterns → anchor_free pattern = true.
Proof.
  simpl. intros H. repeat destruct H as [<-|H]; try reflexivity. destruct H.
Qed.

Lemma checkPatterns_throw patterns input fieldName :
  (∃ pattern, In pattern patterns ∧ test pattern input = true) →
  checkPatterns patterns input fieldName
  = Throw (McpError InvalidParams (dangerous_message fieldName)).
Proof.
  induction patterns as [|p ps IH]; intros (q & Hin & Hq); [destruct Hin|].
  simpl. destruct (test p input) eqn:Hp; [done|].
  apply IH. destruct Hin as [->|Hin]; [congruence|eauto].
Qed.

Lemma checkPatterns_ok patterns input fieldName :
  (∀ pattern, In pattern patterns → test pattern input = false) →
  checkPatterns patterns input fieldName = Ok ().
Proof.
  induction patterns as [|p ps IH]; intros Hall; [done|]. simpl.
  rewrite (Hall p) by (by left). apply IH. intros q Hq. apply Hall. by right.
Qed.

Lemma strlen_zero s : (strlen s =? 0)%N = true ↔ s = [].
Proof.
  unfold strlen. rewrite N.eqb_eq. destruct s; simpl; split; try done; lia.
Qed.

(** The validator accepts exactly the valid strings, and returns them
    trimmed. *)
Lemma validateStringInput_valid s fieldName maxLength :
  valid_string maxLength s →
  validateStringInput (VStr s) fieldName maxLength = Ok (trim s).
Proof.
  intros (Hne & Hlen & Hpat). unfold validateStringInput.
  destruct (strlen s =? 0)%N eqn:H0; [by apply strlen_zero in H0|].
  destruct (maxLength <? strlen s)%N eqn:Hlt; [apply N.ltb_lt in Hlt; lia|].
  rewrite checkPatterns_ok; [done|].
  intros p Hp. destruct (test p s) eqn:Ht; [|done].
  apply test_contains_match in Ht; [|by apply dangerousPatterns_anchor_free].
  by destruct (Hpat p Hp).
Qed.

Lemma validateStringInput_inv input fieldName maxLength t :
  validateStringInput input fieldName maxLength = Ok t →
  ∃ s, input = VStr s ∧ valid_string maxLength s ∧ t = trim s.
Proof.
  unfold validateStringInput. destruct input as [| | | |s| |]; try discriminate.
  destruct (strlen s =? 0)%N eqn:H0; [discriminate|].
  destruct (maxLength <? strlen s)%N eqn:Hlt; [discriminate|].
  destruct (checkPatterns dangerousPatterns s fieldName) as [[]|e] eqn:Hc;
    [|discriminate].
  intros [= <-]. exists s. split; [done|]. split; [|done].
  split; [|split].
  - intros ->. discriminate.
  - apply N.ltb_ge in Hlt. lia.
  - intros p Hp Hm.
    apply test_contains_match in Hm; [|by apply dangerousPatterns_anchor_free].
    rewrite checkPatterns_throw in Hc by eauto. discriminate.
Qed.

(** A valid string stays valid when trimmed, unless nothing is left. *)
Lemma valid_string_trim maxLength s :
  valid_string maxLength s → trim s ≠ [] → valid_string maxLength (trim s).
Proof.
  intros (Hne & Hlen & Hpat) Ht. split; [done|]. split.
  - pose proof (trim_length s). lia.
  - intros p Hp Hm. apply (Hpat p Hp).
    destruct (trim_infix s) as (a & b & Heq). rewrite Heq.
    by apply contains_match_infix.
Qed.

(** A letter of a pattern never matches white space. *)
Lemma letter_not_space x c :
  between 97 122 x = true → in_class (CCharI x) c = true → is_space c = false.
Proof.
  unfold in_class, Canonicalize. intros Hx. rewrite Hx.
  unfold between in Hx. apply andb_prop in Hx as [Hx1 Hx2].
  apply N.leb_le in Hx1, Hx2. intros Hc. apply N.eqb_eq in Hc.
  assert (Hr : (65 <= c <= 90 ∨ 97 <= c <= 122)%N).
  { unfold between in Hc.
    destruct (97 <=? c)%N eqn:H1, (c <=? 122)%N eqn:H2; simpl in Hc;
      try apply N.leb_le in H1; try apply N.leb_le in H2; lia. }
  unfold is_space, between.
  repeat apply orb_false_intro; try (apply N.eqb_neq; lia);
    apply andb_false_iff;
    ((left; apply N.leb_gt; lia) || (right; apply N.leb_gt; lia)).
Qed.

(** No deny-listed pattern matches inside white space. *)
Lemma all_space_no_match pattern s :
  In pattern dangerousPatterns → all_space s = true →
  ¬ contains_match pattern s.
Proof.
  intros Hp Hs (pre & m & post & -> & Hd).
  rewrite !all_space_app in Hs.
  apply andb_prop in Hs as [_ [Hm _]%andb_prop].
  assert (∃ x rx, pattern = One (CCharI x) :: rx ∧ between 97 122 x = true)
    as (x & rx & -> & Hx).
  { simpl in Hp. repeat destruct Hp as [<-|Hp]; try destruct Hp;
      eexists _, _; (split; [reflexivity|reflexivity]). }
  inversion Hd; subst. simpl in Hm. apply andb_prop in Hm as [Hc _].
  by rewrite (letter_not_space x c) in Hc.
Qed.

End ValidateString.

(** C7: whatever text surrounds it and whatever the letter case, an input
    that contains a match of a pattern of the deny-list is rejected by
    [validateStringInput] with an [InvalidParams] error; it is never
    returned. *)
Theorem validateString_rejects_dangerous
    (input fieldName : jsstring) (maxLength : N) (pattern : regex) :
  In pattern ThingsValidator.dangerousPatterns →
  contains_match pattern input →
  (∃ message,
     ThingsValidator.validateStringInput (VStr input) fieldName maxLength
     = Throw (McpError InvalidParams message))
  ∧ ∀ out,
     ThingsValidator.validateStringInput (VStr input) fieldName maxLength
     ≠ Ok out.
Proof.
  intros Hp Hm.
  assert (∃ message,
     ThingsValidator.validateStringInput (VStr input) fieldName maxLength
     = Throw (McpError InvalidParams message)) as [message Hthrow].
  { unfold ThingsValidator.validateStringInput.
    destruct (strlen input =? 0)%N; [eauto|].
    destruct (maxLength <? strlen input)%N; [eauto|].
    rewrite checkPatterns_throw; [simpl; eauto|].
    exists pattern. split; [done|].
    apply test_contains_match; [|done].
    by apply dangerousPatterns_anchor_free. }
  split; [eauto|]. intros out. rewrite Hthrow. discriminate.
Qed.

Lemma validateString_rejects_dangerous_witness :
  In tell_application ThingsValidator.dangerousPatterns ∧
  contains_match tell_application tell_input ∧
  (∃ message,
     ThingsValidator.validateStringInput (VStr tell_input) (js "title") 2000
     = Throw (McpError InvalidParams message))
  ∧ ∀ out,
     ThingsValidator.validateStringInput (VStr tell_input) (js "title") 2000
     ≠ Ok out.
Proof.
  assert (Hin : In tell_application ThingsValidator.dangerousPatterns)
    by (simpl; left; reflexivity).
  assert (Hm : contains_match tell_application tell_input)
    by (apply test_contains_match; vm_compute; reflexivity).
  split; [exact Hin|]. split; [exact Hm|].
  exact (validateString_rejects_dangerous tell_input (js "title") 2000
           tell_application Hin Hm).
Defined.

(** C10, as the code has it: [validateStringInput] checks emptiness and the
    cap on the input as given and returns it trimmed.  A non-empty input of
    white space only that is within the cap is accepted and the empty string
    is returned, although the empty input is rejected; whatever is accepted,
    the result is the trimmed input, no longer than the input. *)
Theorem validateString_whitespace_only
    (input fieldName : jsstring) (maxLength : N) :
  input ≠ [] → all_space input = true → (strlen input <= maxLength)%N →
  ThingsValidator.validateStringInput (VStr input) fieldName maxLength = Ok []
  ∧ ThingsValidator.validateStringInput (VStr []) fieldName maxLength
    = Throw (McpError InvalidParams (fieldName ++ js " cannot be empty"))
  ∧ ∀ s out,
      ThingsValidator.validateStringInput (VStr s) fieldName maxLength = Ok out →
      out = trim s ∧ (strlen out <= strlen s <= maxLength)%N.
Proof.
  intros Hne Hsp Hlen. split; [|split].
  - rewrite validateStringInput_valid.
    + by rewrite trim_all_space.
    + split; [done|]. split; [done|].
      intros p Hp. by apply all_space_no_match.
  - reflexivity.
  - intros s out (s' & [= <-] & (_ & Hs & _) & ->)%validateStringInput_inv.
    pose proof (trim_length s). split; [done|lia].
Qed.

Lemma validateString_whitespace_only_witness :
  js " " ≠ [] ∧ all_space (js " ") = true ∧ (strlen (js " ") <= 2000)%N ∧
  ThingsValidator.validateStringInput (VStr (js " ")) (js "title") 2000 = Ok [].
Proof.
  assert (H1 : js " " ≠ []) by (vm_compute; discriminate).
  assert (H2 : all_space (js " ") = true) by reflexivity.
  assert (H3 : (strlen (js " ") <= 2000)%N) by (vm_compute; discriminate).
  split; [exact H1|]. split; [exact H2|]. split; [exact H3|].
  exact (proj1 (validateString_whitespace_only (js " ") (js "title") 2000
                  H1 H2 H3)).
Defined.

(** C10 as stated fails: an input of white space only that is longer than the
    cap is rejected.  Here a tag of 101 spaces, under the cap of 100 that
    [validateArrayInput] passes for its items. *)
Lemma validateString_whitespace_too_long :
  spaces_101 ≠ [] ∧ all_space spaces_101 = true ∧
  ThingsValidator.validateStringInput (VStr spaces_101) (js "tags item") 100
  = Throw (McpError InvalidParams (js "tags item cannot exceed 100 characters")).
Proof. split; [discriminate|]. split; vm_compute; reflexivity. Qed.

(** ** ThingsValidator.validateDateInput *)

Section ValidateDate.
Import ThingsValidator.

Lemma days_in_month_le y m : (days_in_month y m <= 31)%Z.
Proof.
  unfold days_in_month.
  repeat match goal with |- context [if ?b then _ else _] => destruct b end;
    lia.
Qed.

(** Every day of the calendar written [YYYY-MM-DD] is returned unchanged. *)
Lemma validateDateInput_real_date s fieldName :
  real_calendar_date s = true → validateDateInput (VStr s) fieldName = Ok s.
Proof.
  unfold real_calendar_date, validateDateInput, Date.parses.
  intros [-> Hf]%andb_prop. simpl.
  destruct (Date.fields s) as [[[y m] d]|]; [|discriminate].
  apply andb_prop in Hf as [[Hm Hd1]%andb_prop Hd2].
  rewrite Hm. unfold Date.IsDay. rewrite Hd1. simpl.
  pose proof (days_in_month_le y m). apply Z.leb_le in Hd2.
  destruct (Z.leb_spec d 31); [done|lia].
Qed.

Lemma validateDateInput_not_string input fieldName :
  (∀ s, input ≠ VStr s) →
  validateDateInput input fieldName
  = Throw (McpError InvalidParams
      (fieldName ++ js " must be a string in YYYY-MM-DD format")).
Proof. intros H. destruct input; try done. by destruct (H s). Qed.

Lemma validateDateInput_bad_format s fieldName :
  test dateRegex s = false →
  validateDateInput (VStr s) fieldName
  = Throw (McpError InvalidParams (fieldName ++ js " must be in YYYY-MM-DD format")).
Proof. intros H. unfold validateDateInput. by rewrite H. Qed.

Lemma real_calendar_date_truthy s :
  real_calendar_date s = true → truthy (VStr s) = true.
Proof.
  unfold real_calendar_date. intros [_ Hf]%andb_prop.
  destruct s; [discriminate|done].
Qed.

End ValidateDate.

(** C6, where the code departs from it: [2024-02-30] has the required shape
    and is no day of the calendar, yet [validateDateInput] returns it, because
    the host's [Date] rolls the day over into March instead of giving [NaN]. *)
Theorem validateDate_accepts_2024_02_30 :
  test ThingsValidator.dateRegex (js "2024-02-30") = true ∧
  real_calendar_date (js "2024-02-30") = false ∧
  ThingsValidator.validateDateInput (VStr (js "2024-02-30")) (js "when")
  = Ok (js "2024-02-30").
Proof. repeat split; vm_compute; reflexivity. Qed.

(** ** ParameterMapper.validateAndMapParameters *)

Section Mapper.
Import SERVER_CONFIG.validation ThingsValidator ParameterMapper.

Lemma valid_string_truthy maxLength s :
  valid_string maxLength s → truthy (VStr s) = true.
Proof. intros (Hne & _). by destruct s. Qed.

Lemma stringField_valid args k maxLength otherwise s :
  get args k = VStr s → valid_string maxLength s →
  stringField args k maxLength otherwise = Ok (VStr (trim s)).
Proof.
  intros Hk Hs. unfold stringField. rewrite Hk.
  rewrite (valid_string_truthy _ _ Hs).
  by rewrite validateStringInput_valid.
Qed.

Lemma stringField_absent args k maxLength otherwise :
  truthy (get args k) = false →
  stringField args k maxLength otherwise = otherwise.
Proof. intros Hk. unfold stringField. by rewrite Hk. Qed.

Lemma dateField_valid args k otherwise s :
  get args k = VStr s → real_calendar_date s = true →
  dateField args k otherwise = Ok (VStr s).
Proof.
  intros Hk Hs. unfold dateField. rewrite Hk.
  rewrite (real_calendar_date_truthy _ Hs).
  by rewrite validateDateInput_real_date.
Qed.

Lemma dateField_absent args k otherwise :
  truthy (get args k) = false → dateField args k otherwise = otherwise.
Proof. intros Hk. unfold dateField. by rewrite Hk. Qed.

Lemma arrayField_absent args k :
  truthy (get args k) = false → arrayField args k = Ok VNull.
Proof. intros Hk. unfold arrayField. by rewrite Hk. Qed.

Lemma flagField_absent args k :
  get args k = VUndefined → flagField args k = VNull.
Proof. intros Hk. unfold flagField. by rewrite Hk. Qed.

Lemma map_canonical T W D :
  valid_string maxStringLength T →
  real_calendar_date W = true → real_calendar_date D = true →
  validateAndMapParameters
    (object [("title", VStr T); ("when", VStr W); ("deadline", VStr D)]) ∅
  = Ok (object [("name", VStr (trim T)); ("title", VStr (trim T));
                ("activation_date", VStr W); ("due_date", VStr D)]).
Proof.
  intros HT HW HD. unfold_mapper.
  rewrite !(valid_string_truthy _ _ HT), !(validateStringInput_valid _ _ _ HT),
    !(real_calendar_date_truthy _ HW), !(real_calendar_date_truthy _ HD),
    !(validateDateInput_real_date _ _ HW), !(validateDateInput_real_date _ _ HD).
  generalize (trim T). intros t. finish_mapper.
Qed.

(** The mapper applied to its own output: [due_date], the internal key of the
    deadline, is read as the legacy alias of [when]. *)
Lemma map_internal t W D :
  valid_string maxStringLength t →
  real_calendar_date W = true → real_calendar_date D = true →
  validateAndMapParameters
    (object [("name", VStr t); ("title", VStr t);
             ("activation_date", VStr W); ("due_date", VStr D)]) ∅
  = Ok (object [("name", VStr (trim t)); ("title", VStr (trim t));
                ("activation_date", VStr D)]).
Proof.
  intros HT HW HD. unfold_mapper.
  rewrite !(valid_string_truthy _ _ HT), !(validateStringInput_valid _ _ _ HT),
    !(real_calendar_date_truthy _ HD), !(validateDateInput_real_date _ _ HD).
  generalize (trim t). intros t'. finish_mapper.
Qed.

Lemma map_legacy X D :
  valid_string maxStringLength X → real_calendar_date D = true →
  validateAndMapParameters
    (object [("name", VStr X); ("due_date", VStr D)]) ∅
  = Ok (object [("name", VStr (trim X)); ("activation_date", VStr D)]).
Proof.
  intros HX HD. unfold_mapper.
  rewrite !(valid_string_truthy _ _ HX), !(validateStringInput_valid _ _ _ HX),
    !(real_calendar_date_truthy _ HD), !(validateDateInput_real_date _ _ HD).
  generalize (trim X). intros t. finish_mapper.
Qed.

Lemma map_when X D :
  valid_string maxStringLength X → real_calendar_date D = true →
  validateAndMapParameters
    (object [("title", VStr X); ("when", VStr D)]) ∅
  = Ok (object [("name", VStr (trim X)); ("title", VStr (trim X));
                ("activation_date", VStr D)]).
Proof.
  intros HX HD. unfold_mapper.
  rewrite !(valid_string_truthy _ _ HX), !(validateStringInput_valid _ _ _ HX),
    !(real_calendar_date_truthy _ HD), !(validateDateInput_real_date _ _ HD).
  generalize (trim X). intros t. finish_mapper.
Qed.

(** [when] wins over [due_date], which is then not even validated. *)
Lemma map_when_due_date X W (due : value) :
  valid_string maxStringLength X → real_calendar_date W = true →
  validateAndMapParameters
    (object [("title", VStr X); ("when", VStr W); ("due_date", due)]) ∅
  = Ok (object [("name", VStr (trim X)); ("title", VStr (trim X));
                ("activation_date", VStr W)]).
Proof.
  intros HX HW. unfold_mapper.
  rewrite !(valid_string_truthy _ _ HX), !(validateStringInput_valid _ _ _ HX),
    !(real_calendar_date_truthy _ HW), !(validateDateInput_real_date _ _ HW).
  generalize (trim X). intros t. finish_mapper.
Qed.

(** A computable test for [valid_string]. *)
Lemma valid_string_test maxLength s :
  s ≠ [] → (strlen s <= maxLength)%N →
  forallb (λ pattern, negb (test pattern s)) dangerousPatterns = true →
  valid_string maxLength s.
Proof.
  intros Hne Hlen Hall. split; [done|]. split; [done|].
  intros p Hp Hm. rewrite forallb_forall in Hall.
  specialize (Hall p Hp). apply negb_true_iff in Hall.
  apply test_contains_match in Hm; [congruence|].
  by apply dangerousPatterns_anchor_free.
Qed.

(** *** What a successful mapping is made of *)

Lemma stringField_inv args k maxLength otherwise v :
  stringField args k maxLength otherwise = Ok v →
  (truthy (get args k) = true ∧ ∃ s, v = VStr s)
  ∨ (truthy (get args k) = false ∧ otherwise = Ok v).
Proof.
  unfold stringField. destruct (truthy (get args k)); [|auto].
  destruct (validateStringInput _ _ _); [|discriminate].
  intros [= <-]. eauto.
Qed.

Lemma dateField_inv args k otherwise v :
  dateField args k otherwise = Ok v →
  (truthy (get args k) = true ∧ ∃ s, v = VStr s)
  ∨ (truthy (get args k) = false ∧ otherwise = Ok v).
Proof.
  unfold dateField. destruct (truthy (get args k)); [|auto].
  destruct (validateDateInput _ _); [|discriminate].
  intros [= <-]. eauto.
Qed.

Lemma arrayField_inv args k v :
  arrayField args k = Ok v →
  (truthy (get args k) = true ∧ ∃ items, v = VArr items) ∨ v = VNull.
Proof.
  unfold arrayField. destruct (truthy (get args k)); [|intros [= <-]; auto].
  destruct (validateArrayInput _ _ _); [|discriminate].
  intros [= <-]. eauto.
Qed.

Lemma supplied_first args k name names :
  assoc k sources = Some (name :: names) → truthy (get args name) = true →
  supplied args k = true.
Proof. intros Hk Ht. unfold supplied. rewrite Hk. simpl. by rewrite Ht. Qed.

Lemma supplied_second args k name1 name2 names :
  assoc k sources = Some (name1 :: name2 :: names) →
  truthy (get args name2) = true → supplied args k = true.
Proof.
  intros Hk Ht. unfold supplied. rewrite Hk. simpl. rewrite Ht.
  apply orb_true_iff. right. reflexivity.
Qed.

Lemma string_entry_ok args k maxLength v :
  assoc k sources = Some [k] →
  stringField args k maxLength (Ok VNull) = Ok v → entry_ok args (k, v).
Proof.
  intros Hk [[Ht [s ->]]|[_ [= <-]]]%stringField_inv; [right|by left].
  split; [done|]. by eapply supplied_first.
Qed.

Lemma string_entry2_ok args k k1 k2 maxLength v :
  assoc k sources = Some [k1; k2] →
  stringField args k1 maxLength (stringField args k2 maxLength (Ok VNull))
  = Ok v →
  entry_ok args (k, v).
Proof.
  intros Hk [[Ht [s ->]]|[_ H]]%stringField_inv.
  - right. split; [done|]. by eapply supplied_first.
  - apply stringField_inv in H as [[Ht [s ->]]|[_ [= <-]]]; [right|by left].
    split; [done|]. by eapply supplied_second.
Qed.

Lemma date_entry_ok args k k1 v :
  assoc k sources = Some [k1] →
  dateField args k1 (Ok VNull) = Ok v → entry_ok args (k, v).
Proof.
  intros Hk [[Ht [s ->]]|[_ [= <-]]]%dateField_inv; [right|by left].
  split; [done|]. by eapply supplied_first.
Qed.

Lemma date_entry2_ok args k k1 k2 v :
  assoc k sources = Some [k1; k2] →
  dateField args k1 (dateField args k2 (Ok VNull)) = Ok v →
  entry_ok args (k, v).
Proof.
  intros Hk [[Ht [s ->]]|[_ H]]%dateField_inv.
  - right. split; [done|]. by eapply supplied_first.
  - apply dateField_inv in H as [[Ht [s ->]]|[_ [= <-]]]; [right|by left].
    split; [done|]. by eapply supplied_second.
Qed.

Lemma array_entry_ok args k v :
  assoc k sources = Some [k] →
  arrayField args k = Ok v → entry_ok args (k, v).
Proof.
  intros Hk [[Ht [s ->]]| ->]%arrayField_inv; [right|by left].
  split; [done|]. by eapply supplied_first.
Qed.

Lemma flag_entry_ok args k :
  assoc k sources = None → existsb (String.eqb k) flags = true →
  entry_ok args (k, flagField args k).
Proof.
  intros Hk Hf. unfold entry_ok, flagField, supplied. cbn [fst snd].
  rewrite Hk, Hf. destruct (is_undefined (get args k)); [by left|by right].
Qed.

Lemma Ok_inj {A} (x y : A) : Ok x = Ok y → x = y.
Proof. by intros [= ->]. Qed.

(** A successful mapping is the additional fields over a table of sixteen
    such entries, without the entries that are [null]. *)
Lemma validateAndMapParameters_inv args additionalFields result :
  validateAndMapParameters args additionalFields = Ok result →
  ∃ table,
    result = filter (λ kv : string * value, is_null kv.2 = false)
               (additionalFields ∪ list_to_map table)
    ∧ Forall (entry_ok args) table.
Proof.
  unfold validateAndMapParameters. intros H.
  bind_ok H name Ename. bind_ok H title Etitle. bind_ok H ident Eid.
  bind_ok H notes Enotes. bind_ok H activation_date Eactivation.
  bind_ok H due_date Edue. bind_ok H area Earea. bind_ok H area_id Earea_id.
  bind_ok H project Eproject. bind_ok H list_id Elist_id.
  bind_ok H tags Etags. bind_ok H checklist_items Echecklist.
  bind_ok H todos Etodos. bind_ok H heading Eheading.
  exists
    [ ("name", name); ("title", title); ("id", ident); ("notes", notes);
      ("activation_date", activation_date); ("due_date", due_date);
      ("area", area); ("area_id", area_id); ("project", project);
      ("list_id", list_id); ("tags", tags);
      ("checklist_items", checklist_items); ("todos", todos);
      ("heading", heading); ("completed", flagField args "completed");
      ("canceled", flagField args "canceled") ].
  split; [apply Ok_inj in H; rewrite <- H; reflexivity|].
  repeat apply List.Forall_cons; try apply List.Forall_nil;
    first
      [ by eapply string_entry_ok; [reflexivity|eassumption]
      | by eapply string_entry2_ok; [reflexivity|eassumption]
      | by eapply date_entry_ok; [reflexivity|eassumption]
      | by eapply date_entry2_ok; [reflexivity|eassumption]
      | by eapply array_entry_ok; [reflexivity|eassumption]
      | by apply flag_entry_ok ].
Qed.

Lemma mapped_lookup args additionalFields result k v :
  validateAndMapParameters args additionalFields = Ok result →
  result !! k = Some v →
  is_null v = false ∧
  (additionalFields !! k = Some v
   ∨ additionalFields !! k = None ∧ entry_ok args (k, v)).
Proof.
  intros (table & -> & Htable)%validateAndMapParameters_inv.
  intros [Hl Hn]%map_lookup_filter_Some. simpl in Hn. split; [done|].
  apply lookup_union_Some_raw in Hl as [Hl|[Hnone Hl]]; [by left|right].
  split; [done|].
  apply elem_of_list_to_map_2 in Hl.
  rewrite Forall_forall in Htable. by apply Htable.
Qed.

End Mapper.

(** C1, as the code has it.  For a valid title that is not blank and valid
    dates, mapping [{title, when, deadline}] gives [{name, title,
    activation_date: when, due_date: deadline}], and mapping that result again
    gives [{name, title, activation_date: deadline}]: [name] and [title] are
    kept, but the [due_date] of the first result is read as the legacy alias
    of [when], so the deadline moves to [activation_date] and no [due_date]
    is left. *)
Theorem mapping_twice (T W D : jsstring) :
  valid_string SERVER_CONFIG.validation.maxStringLength T → trim T ≠ [] →
  real_calendar_date W = true → real_calendar_date D = true →
  ∃ once twice,
    ParameterMapper.validateAndMapParameters
      (object [("title", VStr T); ("when", VStr W); ("deadline", VStr D)]) ∅
    = Ok once
    ∧ ParameterMapper.validateAndMapParameters once ∅ = Ok twice
    ∧ once = object [("name", VStr (trim T)); ("title", VStr (trim T));
                     ("activation_date", VStr W); ("due_date", VStr D)]
    ∧ twice = object [("name", VStr (trim T)); ("title", VStr (trim T));
                      ("activation_date", VStr D)].
Proof.
  intros HT Hne HW HD. eexists _, _.
  split; [by apply map_canonical|].
  split; [|split; reflexivity].
  rewrite map_internal by (try apply valid_string_trim; done).
  by rewrite trim_idem.
Qed.

Lemma valid_Buy_milk :
  valid_string SERVER_CONFIG.validation.maxStringLength (js "Buy milk").
Proof.
  apply valid_string_test;
    [discriminate|vm_compute; discriminate|vm_compute; reflexivity].
Defined.

Lemma mapping_twice_witness :
  ∃ once twice,
    ParameterMapper.validateAndMapParameters buy_milk_args ∅ = Ok once
    ∧ ParameterMapper.validateAndMapParameters once ∅ = Ok twice
    ∧ once = object [("name", VStr (trim (js "Buy milk")));
                     ("title", VStr (trim (js "Buy milk")));
                     ("activation_date", VStr (js "2025-01-10"));
                     ("due_date", VStr (js "2025-01-15"))]
    ∧ twice = object [("name", VStr (trim (js "Buy milk")));
                      ("title", VStr (trim (js "Buy milk")));
                      ("activation_date", VStr (js "2025-01-15"))].
Proof.
  apply (mapping_twice (js "Buy milk") (js "2025-01-10") (js "2025-01-15")).
  - exact valid_Buy_milk.
  - vm_compute. discriminate.
  - vm_compute. reflexivity.
  - vm_compute. reflexivity.
Defined.

(** C1 as stated fails: on [{title: "Buy milk", when: "2025-01-10", deadline:
    "2025-01-15"}], all three valid, the second mapping differs from the
    first. *)
Lemma mapping_twice_differs :
  valid_string SERVER_CONFIG.validation.maxStringLength (js "Buy milk")
  ∧ real_calendar_date (js "2025-01-10") = true
  ∧ real_calendar_date (js "2025-01-15") = true
  ∧ ∃ once twice,
      ParameterMapper.validateAndMapParameters buy_milk_args ∅ = Ok once
      ∧ ParameterMapper.validateAndMapParameters once ∅ = Ok twice
      ∧ twice ≠ once.
Proof.
  split; [exact valid_Buy_milk|].
  split; [vm_compute; reflexivity|]. split; [vm_compute; reflexivity|].
  exists (object [("name", VStr (js "Buy milk")); ("title", VStr (js "Buy milk"));
                  ("activation_date", VStr (js "2025-01-10"));
                  ("due_date", VStr (js "2025-01-15"))]),
         (object [("name", VStr (js "Buy milk")); ("title", VStr (js "Buy milk"));
                  ("activation_date", VStr (js "2025-01-15"))]).
  split; [vm_compute; reflexivity|].
  split; [vm_compute; reflexivity|].
  intros Heq.
  assert (Hdue : object [("name", VStr (js "Buy milk"));
                         ("title", VStr (js "Buy milk"));
                         ("activation_date", VStr (js "2025-01-15"))]
                 !! "due_date" = None) by (vm_compute; reflexivity).
  rewrite Heq in Hdue. revert Hdue. vm_compute. discriminate.
Qed.

(** C3, as the code has it.  A successful mapping never holds a key whose
    value is [null]; a key whose value is [undefined] is one the additional
    fields carry with that value; and a key the additional fields do not
    carry is absent unless the caller supplied the field. *)
Theorem mapped_parameters_no_null
    (args additionalFields result : gmap string value) :
  ParameterMapper.validateAndMapParameters args additionalFields = Ok result →
  (∀ k, result !! k ≠ Some VNull)
  ∧ (∀ k, result !! k = Some VUndefined →
          additionalFields !! k = Some VUndefined)
  ∧ (∀ k, supplied args k = false → additionalFields !! k = None →
          result !! k = None).
Proof.
  intros Hmap. split; [|split].
  - intros k Hk. by destruct (mapped_lookup _ _ _ _ _ Hmap Hk) as [? _].
  - intros k Hk.
    destruct (mapped_lookup _ _ _ _ _ Hmap Hk)
      as [_ [?|[_ [?|[? _]]]]]; done.
  - intros k Hs Hnone. destruct (result !! k) as [v|] eqn:Hk; [|done].
    destruct (mapped_lookup _ _ _ _ _ Hmap Hk)
      as [Hn [?|[_ [Hv|[_ Hsup]]]]]; simpl in *.
    + congruence.
    + by rewrite Hv in Hn.
    + congruence.
Qed.

Lemma minimal_args_mapped :
  ParameterMapper.validateAndMapParameters minimal_args ∅
  = Ok (object [("name", VStr (js "Minimal task"));
                ("title", VStr (js "Minimal task"))]).
Proof. vm_compute. reflexivity. Defined.

Lemma mapped_parameters_no_null_witness :
  ParameterMapper.validateAndMapParameters minimal_args ∅
  = Ok (object [("name", VStr (js "Minimal task"));
                ("title", VStr (js "Minimal task"))])
  ∧ (∀ k, object [("name", VStr (js "Minimal task"));
                  ("title", VStr (js "Minimal task"))] !! k ≠ Some VNull).
Proof.
  split; [exact minimal_args_mapped|].
  exact (proj1 (mapped_parameters_no_null minimal_args ∅ _ minimal_args_mapped)).
Defined.

(** C3 as stated fails: additional fields that carry the key [status] with the
    value [undefined] leave that key, with that value, in the result. *)
Lemma mapped_parameters_undefined_key :
  ∃ result,
    ParameterMapper.validateAndMapParameters minimal_args undefined_status
    = Ok result
    ∧ result !! "status" = Some VUndefined.
Proof. eexists. split; vm_compute; reflexivity. Qed.

(** C4: for a valid title and a valid date, the legacy [{name, due_date}]
    and the current [{title, when}] both put the date under
    [activation_date]; and when [when] and [due_date] are both given, [when]
    is the one that is kept. *)
Theorem legacy_due_date_alias (X D : jsstring) :
  valid_string SERVER_CONFIG.validation.maxStringLength X →
  real_calendar_date D = true →
  (∃ legacy current,
     ParameterMapper.validateAndMapParameters
       (object [("name", VStr X); ("due_date", VStr D)]) ∅ = Ok legacy
     ∧ ParameterMapper.validateAndMapParameters
         (object [("title", VStr X); ("when", VStr D)]) ∅ = Ok current
     ∧ legacy !! "activation_date" = Some (VStr D)
     ∧ current !! "activation_date" = Some (VStr D))
  ∧ ∀ (W : jsstring) (due : value), real_calendar_date W = true →
      ∃ both,
        ParameterMapper.validateAndMapParameters
          (object [("title", VStr X); ("when", VStr W); ("due_date", due)]) ∅
        = Ok both
        ∧ both !! "activation_date" = Some (VStr W).
Proof.
  intros HX HD. split.
  - eexists _, _. split; [by apply map_legacy|].
    split; [by apply map_when|]. split; reflexivity.
  - intros W due HW. eexists. split; [by apply map_when_due_date|].
    reflexivity.
Qed.

Lemma valid_X : valid_string SERVER_CONFIG.validation.maxStringLength (js "X").
Proof.
  apply valid_string_test;
    [discriminate|vm_compute; discriminate|vm_compute; reflexivity].
Defined.

Lemma legacy_due_date_alias_witness :
  ∃ legacy current,
    ParameterMapper.validateAndMapParameters
      (object [("name", VStr (js "X")); ("due_date", VStr (js "2024-01-01"))])
      ∅ = Ok legacy
    ∧ ParameterMapper.validateAndMapParameters
        (object [("title", VStr (js "X")); ("when", VStr (js "2024-01-01"))])
        ∅ = Ok current
    ∧ legacy !! "activation_date" = Some (VStr (js "2024-01-01"))
    ∧ current !! "activation_date" = Some (VStr (js "2024-01-01")).
Proof.
  refine (proj1 (legacy_due_date_alias (js "X") (js "2024-01-01") valid_X _)).
  vm_compute. reflexivity.
Defined.

(** ** Script execution *)

Section Execution.
Import ThingsExtension.
Context (host : Host).

Lemma executeJXA_oversized script params timeout log :
  (SERVER_CONFIG.validation.maxScriptSize < strlen script)%N →
  executeJXA host script params timeout log
  = (Throw (McpError InternalError
       (js "JXA execution failed: "
          ++ McpError_message host InvalidParams
               (js "Generated JXA script too large: "
                  ++ js (pretty (strlen script)) ++ js " bytes (max: "
                  ++ js (pretty SERVER_CONFIG.validation.maxScriptSize)
                  ++ js ")"))), log).
Proof.
  intros Hlen. apply N.ltb_lt in Hlen.
  unfold executeJXA, try_catch. rewrite Hlen. reflexivity.
Qed.

(** A reply with [success: false] and an [error] makes [executeJXA] throw. *)
Lemma executeJXA_failure_reply script params timeout log :
  replies_failure host →
  ∃ message log',
    executeJXA host script params timeout log
    = (Throw (McpError InternalError message), log').
Proof.
  intros (stdout & reply & Hexec & Hparse & Hsuccess & Herror).
  unfold executeJXA, try_catch at 1.
  destruct (SERVER_CONFIG.validation.maxScriptSize <? strlen script)%N.
  { eexists _, _. reflexivity. }
  unfold mbind, M_bind, exec. rewrite Hexec.
  cbn [truthy length Nat.eqb negb].
  unfold try_catch, lift, mbind. rewrite Hparse. cbn [prop].
  rewrite Hsuccess. cbn [is_false]. rewrite Herror.
  destruct (prop host (get reply "error") "message") as [m|e] eqn:Hm.
  - eexists _, _. reflexivity.
  - eexists _, _. reflexivity.
Qed.

Lemma executeThingsJXA_failure_reply :
  replies_failure host → ∀ log, throws_at (executeThingsJXA host) log.
Proof.
  intros Hreply log templateFunction params operationName.
  destruct (executeJXA_failure_reply (templateFunction params) params
              SERVER_CONFIG.jxa.timeout log Hreply) as (message & log' & H).
  unfold executeThingsJXA, try_catch, mbind, M_bind. rewrite H.
  eexists _, _. reflexivity.
Qed.

End Execution.

(** C8, where the code departs from it: for a script longer than the
    configured maximum, [executeJXA] hands nothing to the executor (the log
    is unchanged), but the [InvalidParams] error of its size check is caught
    by its own [catch] and leaves the method as an [InternalError]. *)
Theorem oversized_script_internal_error
    (host : Host) (script : jsstring) (params : gmap string value)
    (timeout : N) (log : list Command) :
  (SERVER_CONFIG.validation.maxScriptSize < strlen script)%N →
  ∃ message,
    ThingsExtension.executeJXA host script params timeout log
    = (Throw (McpError InternalError
         (js "JXA execution failed: "
            ++ McpError_message host InvalidParams message)), log)
    ∧ message = js "Generated JXA script too large: "
                  ++ js (pretty (strlen script)) ++ js " bytes (max: "
                  ++ js (pretty SERVER_CONFIG.validation.maxScriptSize)
                  ++ js ")".
Proof.
  intros Hlen. eexists. split; [|reflexivity].
  by apply executeJXA_oversized.
Qed.

Lemma oversized_script_internal_error_witness :
  (SERVER_CONFIG.validation.maxScriptSize < strlen oversized_script)%N
  ∧ ∃ message,
      ThingsExtension.executeJXA (replying_host not_running_reply)
        oversized_script ∅ SERVER_CONFIG.jxa.timeout []
      = (Throw (McpError InternalError
           (js "JXA execution failed: "
              ++ McpError_message (replying_host not_running_reply)
                   InvalidParams message)), [])
      ∧ message = js "Generated JXA script too large: "
                    ++ js (pretty (strlen oversized_script))
                    ++ js " bytes (max: "
                    ++ js (pretty SERVER_CONFIG.validation.maxScriptSize)
                    ++ js ")".
Proof.
  assert (H : (SERVER_CONFIG.validation.maxScriptSize
               < strlen oversized_script)%N) by (vm_compute; reflexivity).
  split; [exact H|].
  exact (oversized_script_internal_error (replying_host not_running_reply)
           oversized_script ∅ SERVER_CONFIG.jxa.timeout [] H).
Defined.

(** C2, as the code has it.  When the parsed result has a truthy [success],
    [executeThingsJXA] returns [data] unwrapped if [data] is truthy; if [data]
    is absent or falsy it throws an [Error] whose message is that of the
    result's [error] when there is one, and "Unknown error occurred"
    otherwise. *)
Theorem executeThingsJXA_unwraps_truthy_data
    (host : Host) (templateFunction : gmap string value → jsstring)
    (params : gmap string value) (operationName : jsstring)
    (log log' : list Command) (reply : gmap string value) :
  ThingsExtension.executeJXA host (templateFunction params) params
    SERVER_CONFIG.jxa.timeout log = (Ok (VObj reply), log') →
  truthy (get reply "success") = true →
  (truthy (get reply "data") = true →
     ThingsExtension.executeThingsJXA host templateFunction params
       operationName log = (Ok (get reply "data"), log'))
  ∧ (truthy (get reply "data") = false →
     ∃ message,
       ThingsExtension.optional_error_message host (VObj reply) = Ok message
       ∧ ThingsExtension.executeThingsJXA host templateFunction params
           operationName log
         = (Throw (Error (ToString host
                            (js_or message
                               (VStr (js "Unknown error occurred"))))), log'))
  ∧ (truthy (get reply "data") = false → get reply "error" = VUndefined →
     ThingsExtension.executeThingsJXA host templateFunction params
       operationName log
     = (Throw (Error (js "Unknown error occurred")), log')).
Proof.
  intros Hexec Hsuccess.
  assert (Hstep : ∀ (k : value → M value),
    (ThingsExtension.executeJXA host (templateFunction params) params
       SERVER_CONFIG.jxa.timeout ≫= k) log = k (VObj reply) log').
  { intros k. unfold mbind, M_bind. by rewrite Hexec. }
  assert (Hrun : ThingsExtension.executeThingsJXA host templateFunction params
                   operationName log
    = if truthy (get reply "data")
      then (Ok (get reply "data"), log')
      else
        match ThingsExtension.optional_error_message host (VObj reply) with
        | Ok message =>
            (Throw (Error (ToString host
                             (js_or message
                                (VStr (js "Unknown error occurred"))))), log')
        | Throw e => (Throw e, log')
        end).
  { unfold ThingsExtension.executeThingsJXA, try_catch.
    rewrite Hstep. unfold mbind, M_bind, lift. cbn [prop].
    rewrite Hsuccess. destruct (truthy (get reply "data")); [reflexivity|].
    by destruct (ThingsExtension.optional_error_message host (VObj reply)). }
  rewrite Hrun. split; [|split].
  - by intros ->.
  - intros ->. unfold ThingsExtension.optional_error_message.
    cbn [prop mbind result_bind].
    destruct (get reply "error"); eexists; split; reflexivity.
  - intros -> Herr. unfold ThingsExtension.optional_error_message.
    cbn [prop mbind result_bind]. rewrite Herr. reflexivity.
Qed.

Lemma executeThingsJXA_unwraps_truthy_data_witness :
  ∃ log',
    ThingsExtension.executeJXA (replying_host (VObj created_reply))
      example_script ∅ SERVER_CONFIG.jxa.timeout []
    = (Ok (VObj created_reply), log')
    ∧ truthy (get created_reply "success") = true
    ∧ truthy (get created_reply "data") = true
    ∧ ThingsExtension.executeThingsJXA (replying_host (VObj created_reply))
        (λ _, example_script) ∅ (js "Create todo") []
      = (Ok (get created_reply "data"), log').
Proof.
  eexists.
  assert (Hexec : ThingsExtension.executeJXA (replying_host (VObj created_reply))
            example_script ∅ SERVER_CONFIG.jxa.timeout []
          = (Ok (VObj created_reply), _)) by (vm_compute; reflexivity).
  assert (Hsuccess : truthy (get created_reply "success") = true)
    by (vm_compute; reflexivity).
  assert (Hdata : truthy (get created_reply "data") = true)
    by (vm_compute; reflexivity).
  split; [exact Hexec|]. split; [exact Hsuccess|]. split; [exact Hdata|].
  exact (proj1 (executeThingsJXA_unwraps_truthy_data
                  (replying_host (VObj created_reply)) (λ _, example_script)
                  ∅ (js "Create todo") [] _ created_reply Hexec Hsuccess)
           Hdata).
Defined.

(** C2 as stated fails: the reply [{success: true, data: false}], which is
    what the is-running script prints when the application is not running,
    makes [executeThingsJXA] throw. *)
Lemma executeThingsJXA_rejects_false_data :
  ∃ log',
    ThingsExtension.executeJXA (replying_host not_running_reply)
      example_script ∅ SERVER_CONFIG.jxa.timeout []
    = (Ok not_running_reply, log')
    ∧ ThingsExtension.executeThingsJXA (replying_host not_running_reply)
        (λ _, example_script) ∅ (js "Is running") []
      = (Throw (Error (js "Unknown error occurred")), log').
Proof. eexists. split; vm_compute; reflexivity. Qed.

(** The is-running check itself reads the result of [executeJXA] directly:
    there a reply with [success: true] and a falsy [data] is the
    not-running condition, thrown as its own error. *)
Lemma validateThingsRunning_falsy_data
    (host : Host) (templates : JXATemplates) (log log' : list Command)
    (reply : gmap string value) :
  ThingsExtension.executeJXA host (isThingsRunning_script templates) ∅
    SERVER_CONFIG.jxa.timeout log = (Ok (VObj reply), log') →
  truthy (get reply "success") = true →
  truthy (get reply "data") = false →
  ThingsExtension.validateThingsRunning host templates log
  = (Throw ThingsExtension.ThingsNotRunningError, log').
Proof.
  intros Hexec Hsuccess Hdata.
  unfold ThingsExtension.validateThingsRunning, try_catch, mbind, M_bind, lift.
  rewrite Hexec. cbn [prop]. rewrite Hsuccess. cbn [negb]. rewrite Hdata.
  reflexivity.
Qed.

(** ** The update and show handlers *)

Section Handlers.
Import SERVER_CONFIG.validation ThingsValidator ParameterMapper ToolHandlers.
Context (host : Host) (templates : JXATemplates).

Lemma table_lookup_id (v1 v2 v3 v4 v5 v6 v7 v8 v9 v10 v11 v12 v13 v14 v15 v16
    : value) :
  (list_to_map
     [ ("name", v1); ("title", v2); ("id", v3); ("notes", v4);
       ("activation_date", v5); ("due_date", v6); ("area", v7);
       ("area_id", v8); ("project", v9); ("list_id", v10); ("tags", v11);
       ("checklist_items", v12); ("todos", v13); ("heading", v14);
       ("completed", v15); ("canceled", v16) ] : gmap string value) !! "id"
  = Some v3.
Proof. vm_compute. reflexivity. Qed.

(** A mapped [id] that is truthy is a string. *)
Lemma mapped_id_string args scriptParams :
  validateAndMapParameters args ∅ = Ok scriptParams →
  truthy (get scriptParams "id") = true →
  ∃ id, get scriptParams "id" = VStr id.
Proof.
  unfold validateAndMapParameters. intros H.
  bind_ok H name Ename. bind_ok H title Etitle. bind_ok H ident Eid.
  bind_ok H notes Enotes. bind_ok H activation_date Eactivation.
  bind_ok H due_date Edue. bind_ok H area Earea. bind_ok H area_id Earea_id.
  bind_ok H project Eproject. bind_ok H list_id Elist_id.
  bind_ok H tags Etags. bind_ok H checklist_items Echecklist.
  bind_ok H todos Etodos. bind_ok H heading Eheading.
  apply Ok_inj in H. rewrite <- H. clear H. unfold get.
  destruct (filter _ _ !! "id") as [v|] eqn:Hv; [|discriminate].
  apply map_lookup_filter_Some in Hv as [Hv _].
  apply lookup_union_Some_raw in Hv as [Hv|[_ Hv]];
    [by rewrite lookup_empty in Hv|].
  rewrite table_lookup_id in Hv. injection Hv as <-. simpl.
  apply stringField_inv in Eid as [[_ [s ->]]|[_ [= <-]]]; [eauto|done].
Qed.

Lemma updateTodo_returns executeThingsJXA args scriptParams log :
  validateAndMapParameters args ∅ = Ok scriptParams →
  truthy (get scriptParams "id") = true →
  ∃ response log',
    updateTodo host templates executeThingsJXA args log = (Ok response, log').
Proof.
  intros Hmap Hid. unfold updateTodo, mbind, M_bind, lift.
  rewrite Hmap, Hid. cbn [negb]. unfold try_catch.
  destruct (executeThingsJXA _ _ _ log) as [[v|e] l];
    eexists _, _; reflexivity.
Qed.

Lemma updateTodo_catches executeThingsJXA args scriptParams log error log' :
  validateAndMapParameters args ∅ = Ok scriptParams →
  truthy (get scriptParams "id") = true →
  executeThingsJXA (λ _, updateTodo_script templates)
    (updateTodo_params scriptParams) (js "Update todo") log
  = (Throw error, log') →
  updateTodo host templates executeThingsJXA args log
  = (Ok (soft_failure host
           (js "To-do not found: " ++ ToString host (get scriptParams "id"))
           "TODO_NOT_FOUND"), log').
Proof.
  intros Hmap Hid Hthrow. unfold updateTodo, mbind, M_bind, lift.
  rewrite Hmap, Hid. cbn [negb]. unfold try_catch. by rewrite Hthrow.
Qed.

Lemma updateProject_returns executeThingsJXA args scriptParams log :
  validateAndMapParameters args ∅ = Ok scriptParams →
  truthy (get scriptParams "id") = true →
  ∃ response log',
    updateProject host templates executeThingsJXA args log
    = (Ok response, log').
Proof.
  intros Hmap Hid. unfold updateProject, mbind, M_bind, lift.
  rewrite Hmap, Hid. cbn [negb]. unfold try_catch.
  destruct (executeThingsJXA _ _ _ log) as [[v|e] l];
    eexists _, _; reflexivity.
Qed.

Lemma updateProject_catches executeThingsJXA args scriptParams log error log' :
  validateAndMapParameters args ∅ = Ok scriptParams →
  truthy (get scriptParams "id") = true →
  executeThingsJXA (λ _, updateProject_script templates)
    (updateProject_params scriptParams) (js "Update project") log
  = (Throw error, log') →
  updateProject host templates executeThingsJXA args log
  = (Ok (soft_failure host
           (js "Project not found: " ++ ToString host (get scriptParams "id"))
           "PROJECT_NOT_FOUND"), log').
Proof.
  intros Hmap Hid Hthrow. unfold updateProject, mbind, M_bind, lift.
  rewrite Hmap, Hid. cbn [negb]. unfold try_catch. by rewrite Hthrow.
Qed.

Lemma showItem_returns executeThingsJXA args itemId log :
  validateStringInput (get args "id") (js "id") maxStringLength = Ok itemId →
  ∃ response log',
    showItem host templates executeThingsJXA args log = (Ok response, log').
Proof.
  intros Hid. unfold showItem, mbind, M_bind, lift.
  rewrite Hid. unfold try_catch.
  destruct (executeThingsJXA _ _ _ log) as [[v|e] l];
    eexists _, _; reflexivity.
Qed.

Lemma showItem_catches executeThingsJXA args itemId log error log' :
  validateStringInput (get args "id") (js "id") maxStringLength = Ok itemId →
  executeThingsJXA (λ _, showItem_script templates)
    (object [("id", VStr itemId)]) (js "Show item") log
  = (Throw error, log') →
  showItem host templates executeThingsJXA args log
  = (Ok (soft_failure host (js "Item not found: " ++ itemId)
           "ITEM_NOT_FOUND"), log').
Proof.
  intros Hid Hthrow. unfold showItem, mbind, M_bind, lift.
  rewrite Hid. unfold try_catch. by rewrite Hthrow.
Qed.

End Handlers.

(** C9: in [updateTodo], [updateProject] and [showItem], once the id has
    passed validation the handler returns a response whatever the executor
    does, and whenever the execution throws, whatever the error, the response
    is the soft failure with the handler's not-found code. *)
Theorem handlers_convert_execution_errors
    (host : Host) (templates : JXATemplates)
    (executeThingsJXA : ToolHandlers.executor)
    (args : gmap string value) (log : list Command) :
  (∀ scriptParams,
     ParameterMapper.validateAndMapParameters args ∅ = Ok scriptParams →
     truthy (get scriptParams "id") = true →
     (∃ response log',
        ToolHandlers.updateTodo host templates executeThingsJXA args log
        = (Ok response, log'))
     ∧ (∀ error log',
          executeThingsJXA (λ _, updateTodo_script templates)
            (ToolHandlers.updateTodo_params scriptParams) (js "Update todo")
            log = (Throw error, log') →
          ToolHandlers.updateTodo host templates executeThingsJXA args log
          = (Ok (soft_failure host
                   (js "To-do not found: "
                      ++ ToString host (get scriptParams "id"))
                   "TODO_NOT_FOUND"), log'))
     ∧ (∃ response log',
          ToolHandlers.updateProject host templates executeThingsJXA args log
          = (Ok response, log'))
     ∧ (∀ error log',
          executeThingsJXA (λ _, updateProject_script templates)
            (ToolHandlers.updateProject_params scriptParams)
            (js "Update project") log = (Throw error, log') →
          ToolHandlers.updateProject host templates executeThingsJXA args log
          = (Ok (soft_failure host
                   (js "Project not found: "
                      ++ ToString host (get scriptParams "id"))
                   "PROJECT_NOT_FOUND"), log')))
  ∧ (∀ itemId,
       ThingsValidator.validateStringInput (get args "id") (js "id")
         SERVER_CONFIG.validation.maxStringLength = Ok itemId →
       (∃ response log',
          ToolHandlers.showItem host templates executeThingsJXA args log
          = (Ok response, log'))
       ∧ (∀ error log',
            executeThingsJXA (λ _, showItem_script templates)
              (object [("id", VStr itemId)]) (js "Show item") log
            = (Throw error, log') →
            ToolHandlers.showItem host templates executeThingsJXA args log
            = (Ok (soft_failure host (js "Item not found: " ++ itemId)
                     "ITEM_NOT_FOUND"), log'))).
Proof.
  split.
  - intros scriptParams Hmap Hid. split; [|split; [|split]].
    + by eapply updateTodo_returns.
    + intros error log'. by apply updateTodo_catches.
    + by eapply updateProject_returns.
    + intros error log'. by apply updateProject_catches.
  - intros itemId Hid. split.
    + by eapply showItem_returns.
    + intros error log'. by apply showItem_catches.
Qed.

Lemma zzz_args_mapped :
  ParameterMapper.validateAndMapParameters zzz_args ∅
  = Ok (object [("id", VStr (js "zzz"))]).
Proof. vm_compute. reflexivity. Defined.

Lemma handlers_convert_execution_errors_witness :
  ToolHandlers.updateTodo (replying_host not_found_reply) example_templates
    timing_out zzz_args []
  = (Ok (soft_failure (replying_host not_found_reply)
           (js "To-do not found: " ++ js "zzz") "TODO_NOT_FOUND"), []).
Proof.
  refine (proj1 (proj2 (proj1 (handlers_convert_execution_errors
            (replying_host not_found_reply) example_templates timing_out
            zzz_args []) (object [("id", VStr (js "zzz"))])
            zzz_args_mapped _))
          (McpError InternalError ERROR_MESSAGES.JXA_TIMEOUT) [] _).
  - vm_compute. reflexivity.
  - reflexivity.
Defined.

(** C5: when the script reports that the id resolves to nothing (a reply with
    [success: false] and an [error]), [updateTodo], [updateProject] and
    [showItem], run with the server's [executeThingsJXA], do not throw: they
    return the response envelope with [success: false], the code
    [TODO_NOT_FOUND], [PROJECT_NOT_FOUND] or [ITEM_NOT_FOUND], and a message
    that names the id. *)
Theorem not_found_is_soft_failure
    (host : Host) (templates : JXATemplates)
    (args : gmap string value) (log : list Command) :
  replies_failure host →
  (∀ scriptParams,
     ParameterMapper.validateAndMapParameters args ∅ = Ok scriptParams →
     truthy (get scriptParams "id") = true →
     ∃ id log1 log2,
       get scriptParams "id" = VStr id
       ∧ ToolHandlers.updateTodo host templates
           (ThingsExtension.executeThingsJXA host) args log
         = (Ok (soft_failure host (js "To-do not found: " ++ id)
                  "TODO_NOT_FOUND"), log1)
       ∧ ToolHandlers.updateProject host templates
           (ThingsExtension.executeThingsJXA host) args log
         = (Ok (soft_failure host (js "Project not found: " ++ id)
                  "PROJECT_NOT_FOUND"), log2))
  ∧ (∀ itemId,
       ThingsValidator.validateStringInput (get args "id") (js "id")
         SERVER_CONFIG.validation.maxStringLength = Ok itemId →
       ∃ log',
         ToolHandlers.showItem host templates
           (ThingsExtension.executeThingsJXA host) args log
         = (Ok (soft_failure host (js "Item not found: " ++ itemId)
                  "ITEM_NOT_FOUND"), log')).
Proof.
  intros Hreply.
  pose proof (executeThingsJXA_failure_reply host Hreply log) as Hthrows.
  split.
  - intros scriptParams Hmap Hid.
    destruct (mapped_id_string _ _ Hmap Hid) as [id Hstr].
    destruct (Hthrows (λ _, updateTodo_script templates)
                (ToolHandlers.updateTodo_params scriptParams)
                (js "Update todo")) as (e1 & log1 & H1).
    destruct (Hthrows (λ _, updateProject_script templates)
                (ToolHandlers.updateProject_params scriptParams)
                (js "Update project")) as (e2 & log2 & H2).
    exists id, log1, log2. split; [done|]. split.
    + rewrite (updateTodo_catches host templates _ _ _ _ _ _ Hmap Hid H1).
      by rewrite Hstr.
    + rewrite (updateProject_catches host templates _ _ _ _ _ _ Hmap Hid H2).
      by rewrite Hstr.
  - intros itemId Hid.
    destruct (Hthrows (λ _, showItem_script templates)
                (object [("id", VStr itemId)]) (js "Show item"))
      as (e & log' & H).
    exists log'. by eapply showItem_catches.
Qed.

Lemma replying_host_replies_failure :
  replies_failure (replying_host not_found_reply).
Proof.
  exists (js "{}"), (object
    [ ("success", VBool false);
      ("error", VObj (object
         [ ("type", VStr (js "NotFound"));
           ("message", VStr (js "Todo not found"));
           ("code", VNum (S754_finite true 1 0)) ])) ]).
  split; [reflexivity|]. split; [reflexivity|].
  split; vm_compute; reflexivity.
Defined.

Lemma not_found_is_soft_failure_witness :
  ∃ id log1 log2,
    get (object [("id", VStr (js "zzz"))]) "id" = VStr id
    ∧ ToolHandlers.updateTodo (replying_host not_found_reply)
        example_templates
        (ThingsExtension.executeThingsJXA (replying_host not_found_reply))
        zzz_args []
      = (Ok (soft_failure (replying_host not_found_reply)
               (js "To-do not found: " ++ id) "TODO_NOT_FOUND"), log1)
    ∧ ToolHandlers.updateProject (replying_host not_found_reply)
        example_templates
        (ThingsExtension.executeThingsJXA (replying_host not_found_reply))
        zzz_args []
      = (Ok (soft_failure (replying_host not_found_reply)
               (js "Project not found: " ++ id) "PROJECT_NOT_FOUND"), log2).
Proof.
  refine (proj1 (not_found_is_soft_failure (replying_host not_found_reply)
            example_templates zzz_args [] replying_host_replies_failure)
            (object [("id", VStr (js "zzz"))]) zzz_args_mapped _).
  vm_compute. reflexivity.
Defined.

(** ** The repository's own tests and the specification's scenarios

    [test/parameter-mapping.test.js] and the scenarios of the specification,
    replayed on the model. *)

Section Tests.
Import ParameterMapper.

Example test_basic_parameter_mapping :
  validateAndMapParameters
    (object [("title", VStr (js "Test task")); ("when", VStr (js "2024-12-25"));
             ("deadline", VStr (js "2024-12-31"))]) ∅
  = Ok (object [("name", VStr (js "Test task"));
                ("title", VStr (js "Test task"));
                ("activation_date", VStr (js "2024-12-25"));
                ("due_date", VStr (js "2024-12-31"))]).
Proof. vm_compute. reflexivity. Qed.

Example test_backward_compatibility :
  validateAndMapParameters
    (object [("name", VStr (js "Old style task"));
             ("due_date", VStr (js "2024-12-25"))]) ∅
  = Ok (object [("name", VStr (js "Old style task"));
                ("activation_date", VStr (js "2024-12-25"))]).
Proof. vm_compute. reflexivity. Qed.

Example test_tag_array_mapping :
  validateAndMapParameters
    (object [("title", VStr (js "Task with tags"));
             ("tags", VArr [VStr (js "work"); VStr (js "urgent")])]) ∅
  = Ok (object [("name", VStr (js "Task with tags"));
                ("title", VStr (js "Task with tags"));
                ("tags", VArr [VStr (js "work"); VStr (js "urgent")])]).
Proof. vm_compute. reflexivity. Qed.

Example scenario_buy_milk :
  validateAndMapParameters
    (object [("title", VStr (js "Buy milk")); ("when", VStr (js "2025-01-10"))])
    ∅
  = Ok (object [("name", VStr (js "Buy milk")); ("title", VStr (js "Buy milk"));
                ("activation_date", VStr (js "2025-01-10"))]).
Proof. vm_compute. reflexivity. Qed.

Example scenario_tags_not_an_array :
  validateAndMapParameters
    (object [("title", VStr (js "x")); ("tags", VStr (js "not-an-array"))]) ∅
  = Throw (McpError InvalidParams (js "tags must be an array")).
Proof. vm_compute. reflexivity. Qed.

Example scenario_month_13 :
  ThingsValidator.validateDateInput (VStr (js "2024-13-01")) (js "when")
  = Throw (McpError InvalidParams (js "when is not a valid date")).
Proof. vm_compute. reflexivity. Qed.

End Tests.

(** * Further properties of the code *)

(** ** ThingsValidator, continued *)

Section ValidatorMore.
Import ThingsValidator.

Lemma validateStringInput_throws input fieldName maxLength e :
  validateStringInput input fieldName maxLength = Throw e →
  ∃ message, e = McpError InvalidParams message.
Proof.
  unfold validateStringInput. destruct input as [| | | |s| |];
    try (intros [= <-]; eauto).
  destruct (strlen s =? 0)%N; [intros [= <-]; eauto|].
  destruct (maxLength <? strlen s)%N; [intros [= <-]; eauto|].
  destruct (checkPatterns dangerousPatterns s fieldName) as [[]|e'] eqn:Hc;
    [discriminate|]. cbn [mbind result_bind]. intros [= <-].
  clear -Hc. induction dangerousPatterns as [|p ps IH]; [discriminate|].
  simpl in Hc. destruct (test p s); [injection Hc as <-; eauto|auto].
Qed.

Lemma validateItems_inv items fieldName out :
  validateItems items fieldName = Ok out →
  ∃ strs, items = VStr <$> strs ∧ Forall (valid_string 100) strs
          ∧ out = trim <$> strs.
Proof.
  revert out. induction items as [|item items IH]; intros out; simpl.
  - intros [= <-]. exists []. by repeat split.
  - destruct (validateStringInput item _ 100) as [t|] eqn:Ht; [|discriminate].
    cbn [mbind result_bind].
    destruct (validateItems items fieldName) as [ts|] eqn:Hts; [|discriminate].
    cbn [mbind result_bind]. intros [= <-].
    apply validateStringInput_inv in Ht as (s & -> & Hs & ->).
    destruct (IH _ eq_refl) as (strs & -> & Hall & ->).
    exists (s :: strs). split; [done|]. split; [by constructor|done].
Qed.

Lemma validateItems_valid strs fieldName :
  Forall (valid_string 100) strs →
  validateItems (VStr <$> strs) fieldName = Ok (trim <$> strs).
Proof.
  induction 1 as [|s strs Hs _ IH]; [done|].
  rewrite !fmap_cons. cbn [validateItems].
  rewrite validateStringInput_valid by done. cbn [mbind result_bind].
  rewrite IH. reflexivity.
Qed.

Lemma validateItems_throws items fieldName e :
  validateItems items fieldName = Throw e →
  ∃ message, e = McpError InvalidParams message.
Proof.
  induction items as [|item items IH]; simpl; [discriminate|].
  destruct (validateStringInput item _ 100) as [t|e'] eqn:Ht.
  - cbn [mbind result_bind].
    destruct (validateItems items fieldName) as [ts|e''];
      cbn [mbind result_bind]; [discriminate|].
    intros [= <-]. by apply IH.
  - cbn [mbind result_bind]. intros [= <-].
    by eapply validateStringInput_throws.
Qed.

Lemma validateArrayInput_throws input fieldName maxItems e :
  validateArrayInput input fieldName maxItems = Throw e →
  ∃ message, e = McpError InvalidParams message.
Proof.
  unfold validateArrayInput. destruct input as [| | | | |items|];
    try (intros [= <-]; eauto).
  destruct (maxItems <? N.of_nat (length items))%N; [intros [= <-]; eauto|].
  apply validateItems_throws.
Qed.

Lemma search_bol_false rx s : search (Bol :: rx) false s = false.
Proof. induction s as [|c s IH]; [done|]. simpl. exact IH. Qed.

Lemma is_digit_not_space c : is_digit c = true → is_space c = false.
Proof.
  unfold is_digit, between. intros [H1 H2]%andb_prop.
  apply N.leb_le in H1, H2. unfold is_space, between.
  repeat apply orb_false_intro; try (apply N.eqb_neq; lia);
    apply andb_false_iff;
    ((left; apply N.leb_gt; lia) || (right; apply N.leb_gt; lia)).
Qed.

Lemma test_dateRegex s : test dateRegex s = date_shape s.
Proof.
  unfold test.
  assert (Hs : search dateRegex true s = match_here dateRegex true s).
  { destruct s as [|c s]; [reflexivity|].
    change (search dateRegex true (c :: s))
      with (match_here dateRegex true (c :: s) || search dateRegex false s).
    replace (search dateRegex false s) with false
      by (symmetry; apply (search_bol_false (tl dateRegex))).
    apply orb_false_r. }
  rewrite Hs. clear Hs.
  do 11 (destruct s as [|? s]; [apply eq_true_iff_eq; simpl;
    rewrite ?andb_true_iff; intuition discriminate|]).
  apply eq_true_iff_eq; simpl; rewrite ?andb_true_iff; intuition discriminate.
Qed.

Lemma date_shape_trim s : date_shape s = true → trim s = s.
Proof.
  unfold date_shape.
  do 11 (destruct s as [|? s]; try discriminate).
  simpl. rewrite !andb_true_iff.
  intros [[(Hy & _ & _ & _ & _ & _ & _ & Hd & _) _] _].
  apply is_digit_not_space in Hy, Hd.
  unfold trim, trimEnd. simpl. rewrite Hy. simpl. by rewrite Hd.
Qed.

End ValidatorMore.

(** X1: [validateStringInput] succeeds exactly on the strings that are not
    empty, within the cap and free of the deny-listed constructs, and then
    returns the trimmed string; every failure is an [InvalidParams] error. *)
Theorem validateString_accepts_exactly
    (input : value) (fieldName : jsstring) (maxLength : N) :
  (∀ out,
     ThingsValidator.validateStringInput input fieldName maxLength = Ok out
     ↔ ∃ s, input = VStr s ∧ valid_string maxLength s ∧ out = trim s)
  ∧ (∀ e,
       ThingsValidator.validateStringInput input fieldName maxLength = Throw e
       → ∃ message, e = McpError InvalidParams message).
Proof.
  split.
  - intros out. split; [apply validateStringInput_inv|].
    intros (s & -> & Hs & ->). by apply validateStringInput_valid.
  - intros e. apply validateStringInput_throws.
Qed.

(** X2: the string [validateStringInput] returns has no white space at
    either end, and unless it is empty it is accepted again, under any field
    name, and returned unchanged. *)
Theorem validateString_result_stable
    (input : value) (fieldName : jsstring) (maxLength : N) (out : jsstring) :
  ThingsValidator.validateStringInput input fieldName maxLength = Ok out →
  trim out = out
  ∧ (out ≠ [] → ∀ fieldName',
       ThingsValidator.validateStringInput (VStr out) fieldName' maxLength
       = Ok out).
Proof.
  intros (s & -> & Hs & ->)%validateStringInput_inv.
  split; [apply trim_idem|]. intros Hne fieldName'.
  rewrite validateStringInput_valid by (by apply valid_string_trim).
  by rewrite trim_idem.
Qed.

Lemma validateString_result_stable_witness :
  ThingsValidator.validateStringInput (VStr (js "  Buy milk ")) (js "title")
    2000 = Ok (js "Buy milk")
  ∧ trim (js "Buy milk") = js "Buy milk"
  ∧ ThingsValidator.validateStringInput (VStr (js "Buy milk")) (js "name")
      2000 = Ok (js "Buy milk").
Proof.
  assert (H : ThingsValidator.validateStringInput (VStr (js "  Buy milk "))
                (js "title") 2000 = Ok (js "Buy milk"))
    by (vm_compute; reflexivity).
  split; [exact H|].
  destruct (validateString_result_stable _ _ _ _ H) as [H1 H2].
  split; [exact H1|]. apply H2. discriminate.
Defined.

(** X3: [validateArrayInput] succeeds exactly on the arrays of at most
    [maxItems] items that are all strings valid under the cap of 100, and
    returns them trimmed, in order; every failure is an [InvalidParams]
    error. *)
Theorem validateArray_accepts_exactly
    (input : value) (fieldName : jsstring) (maxItems : N) :
  (∀ out,
     ThingsValidator.validateArrayInput input fieldName maxItems = Ok out
     ↔ ∃ strs, input = VArr (VStr <$> strs)
               ∧ (N.of_nat (length strs) <= maxItems)%N
               ∧ Forall (valid_string 100) strs
               ∧ out = trim <$> strs)
  ∧ (∀ e,
       ThingsValidator.validateArrayInput input fieldName maxItems = Throw e
       → ∃ message, e = McpError InvalidParams message).
Proof.
  split; [|intros e; apply validateArrayInput_throws].
  intros out. unfold ThingsValidator.validateArrayInput. split.
  - destruct input as [| | | | |items|]; try discriminate.
    destruct (maxItems <? N.of_nat (length items))%N eqn:Hlen; [discriminate|].
    intros (strs & -> & Hall & ->)%validateItems_inv.
    exists strs. rewrite length_fmap in Hlen. apply N.ltb_ge in Hlen.
    by repeat split.
  - intros (strs & -> & Hlen & Hall & ->). rewrite length_fmap.
    apply N.ltb_ge in Hlen. rewrite Hlen. by apply validateItems_valid.
Qed.

(** X4: an array with more than [maxItems] items is refused for its length
    alone, whatever its items are. *)
Theorem validateArray_too_many_items
    (items : list value) (fieldName : jsstring) (maxItems : N) :
  (maxItems < N.of_nat (length items))%N →
  ThingsValidator.validateArrayInput (VArr items) fieldName maxItems
  = Throw (McpError InvalidParams
      (fieldName ++ js " cannot exceed " ++ js (pretty maxItems)
         ++ js " items")).
Proof.
  intros Hlen. apply N.ltb_lt in Hlen.
  unfold ThingsValidator.validateArrayInput. by rewrite Hlen.
Qed.

Lemma validateArray_too_many_items_witness :
  ThingsValidator.validateArrayInput
    (VArr [VNull; VStr (js "a"); VStr []]) (js "tags") 2
  = Throw (McpError InvalidParams (js "tags cannot exceed 2 items")).
Proof.
  refine (validateArray_too_many_items [VNull; VStr (js "a"); VStr []]
            (js "tags") 2 _).
  vm_compute. reflexivity.
Defined.

(** X5: the date pattern matches exactly the strings made of four digits, a
    hyphen, two digits, a hyphen and two digits, with nothing before or
    after. *)
Theorem dateRegex_matches_shape (s : jsstring) :
  test ThingsValidator.dateRegex s = date_shape s.
Proof. apply test_dateRegex. Qed.

(** X6: [validateDateInput] returns every day of the calendar written
    [YYYY-MM-DD] unchanged; whatever it returns is its input, a string of
    that shape; and every failure is an [InvalidParams] error. *)
Theorem validateDate_returns_input (fieldName : jsstring) :
  (∀ s, real_calendar_date s = true →
        ThingsValidator.validateDateInput (VStr s) fieldName = Ok s)
  ∧ (∀ input out,
       ThingsValidator.validateDateInput input fieldName = Ok out →
       input = VStr out ∧ date_shape out = true)
  ∧ (∀ input e,
       ThingsValidator.validateDateInput input fieldName = Throw e →
       ∃ message, e = McpError InvalidParams message).
Proof.
  split; [|split].
  - intros s. apply validateDateInput_real_date.
  - intros input out. unfold ThingsValidator.validateDateInput.
    destruct input as [| | | |s| |]; try discriminate.
    destruct (test ThingsValidator.dateRegex s) eqn:Ht; [|discriminate].
    destruct (Date.parses s); [|discriminate]. simpl. intros [= <-].
    by rewrite <- test_dateRegex.
  - intros input e. unfold ThingsValidator.validateDateInput.
    destruct input as [| | | |s| |]; try (intros [= <-]; eauto).
    destruct (test ThingsValidator.dateRegex s); simpl;
      [|intros [= <-]; eauto].
    destruct (Date.parses s); simpl; [discriminate|intros [= <-]; eauto].
Qed.

(** ** StatusValidator *)

(** X7: [validateStatus] accepts exactly the strings [open], [completed] and
    [canceled], returns them unchanged and fails with [InvalidParams] on
    anything else; [statusToFilter] always answers one of the three, and is
    the identity on what [validateStatus] returned. *)
Theorem validateStatus_statusToFilter
    (host : Host) (status : value) (fieldName : jsstring) :
  (∀ out,
     StatusValidator.validateStatus host status fieldName = Ok out
     ↔ out = status
       ∧ ∃ s, status = VStr s ∧ s ∈ StatusValidator.VALID_STATUSES)
  ∧ (∀ out,
       StatusValidator.validateStatus host status fieldName = Ok out →
       VStr (StatusValidator.statusToFilter out) = out)
  ∧ StatusValidator.statusToFilter status ∈ StatusValidator.VALID_STATUSES
  ∧ (∀ e,
       StatusValidator.validateStatus host status fieldName = Throw e →
       ∃ message, e = McpError InvalidParams message).
Proof.
  assert (Hfilter : ∀ s, s ∈ StatusValidator.VALID_STATUSES →
            StatusValidator.statusToFilter (VStr s) = s).
  { intros s Hs. unfold StatusValidator.VALID_STATUSES in Hs.
    rewrite !elem_of_cons, elem_of_nil in Hs.
    destruct Hs as [->|[->|[->|[]]]]; reflexivity. }
  unfold StatusValidator.validateStatus, StatusValidator.includes.
  split; [|split; [|split]].
  - intros out. destruct status as [| | | |s| |]; simpl;
      try (split; [discriminate|intros [_ (s' & [=] & _)]]).
    case_bool_decide as Hs; simpl.
    + split; [intros [= <-]; eauto|]. by intros [-> _].
    + split; [discriminate|]. intros [_ (s' & [= <-] & Hs')]. done.
  - intros out. destruct status as [| | | |s| |]; simpl; try discriminate.
    case_bool_decide as Hs; simpl; [|discriminate].
    intros [= <-]. by rewrite Hfilter.
  - unfold StatusValidator.statusToFilter, StatusValidator.VALID_STATUSES.
    destruct status as [| | | |s| |]; repeat case_bool_decide;
      rewrite !elem_of_cons; auto.
  - intros e. destruct status as [| | | |s| |]; simpl;
      try (intros [= <-]; eauto).
    case_bool_decide; simpl; [discriminate|intros [= <-]; eauto].
Qed.

(** ** ParameterMapper, continued *)

Section MapperMore.
Import SERVER_CONFIG.validation ThingsValidator ParameterMapper.

Lemma filtered_lookup (additionalFields table : gmap string value) k :
  filter (λ kv : string * value, is_null kv.2 = false)
    (additionalFields ∪ table) !! k
  = match additionalFields !! k with
    | Some v => if is_null v then None else Some v
    | None =>
        match table !! k with
        | Some v => if is_null v then None else Some v
        | None => None
        end
    end.
Proof.
  rewrite map_lookup_filter, lookup_union.
  destruct (additionalFields !! k) as [v|], (table !! k) as [w|]; simpl;
    try done; try (destruct (is_null v) eqn:Hv; by repeat case_guard);
    destruct (is_null w) eqn:Hw; by repeat case_guard.
Qed.

(** The fields of a mapping that succeeded. *)
Lemma mapper_fields args additionalFields result :
  validateAndMapParameters args additionalFields = Ok result →
  ∃ name title ident notes activation_date due_date area area_id project
    list_id tags checklist_items todos heading,
    stringField args "title" maxStringLength
      (stringField args "name" maxStringLength (Ok VNull)) = Ok name
    ∧ stringField args "title" maxStringLength (Ok VNull) = Ok title
    ∧ stringField args "id" maxStringLength (Ok VNull) = Ok ident
    ∧ stringField args "notes" maxNotesLength (Ok VNull) = Ok notes
    ∧ dateField args "when" (dateField args "due_date" (Ok VNull))
      = Ok activation_date
    ∧ dateField args "deadline" (Ok VNull) = Ok due_date
    ∧ stringField args "area_title" maxStringLength
        (stringField args "area" maxStringLength (Ok VNull)) = Ok area
    ∧ stringField args "area_id" maxStringLength (Ok VNull) = Ok area_id
    ∧ stringField args "list_title" maxStringLength
        (stringField args "project" maxStringLength (Ok VNull)) = Ok project
    ∧ stringField args "list_id" maxStringLength (Ok VNull) = Ok list_id
    ∧ arrayField args "tags" = Ok tags
    ∧ arrayField args "checklist_items" = Ok checklist_items
    ∧ arrayField args "todos" = Ok todos
    ∧ stringField args "heading" maxStringLength (Ok VNull) = Ok heading
    ∧ result
      = filter (λ kv : string * value, is_null kv.2 = false)
          (additionalFields ∪
           list_to_map
             [ ("name", name); ("title", title); ("id", ident);
               ("notes", notes); ("activation_date", activation_date);
               ("due_date", due_date); ("area", area); ("area_id", area_id);
               ("project", project); ("list_id", list_id); ("tags", tags);
               ("checklist_items", checklist_items); ("todos", todos);
               ("heading", heading);
               ("completed", flagField args "completed");
               ("canceled", flagField args "canceled") ]).
Proof.
  unfold validateAndMapParameters. intros H.
  bind_ok H name Ename. bind_ok H title Etitle. bind_ok H ident Eid.
  bind_ok H notes Enotes. bind_ok H activation_date Eactivation.
  bind_ok H due_date Edue. bind_ok H area Earea. bind_ok H area_id Earea_id.
  bind_ok H project Eproject. bind_ok H list_id Elist_id.
  bind_ok H tags Etags. bind_ok H checklist_items Echecklist.
  bind_ok H todos Etodos. bind_ok H heading Eheading.
  exists name, title, ident, notes, activation_date, due_date, area, area_id,
    project, list_id, tags, checklist_items, todos, heading.
  repeat (split; [reflexivity|]).
  apply Ok_inj in H. rewrite <- H. reflexivity.
Qed.







Lemma table_lookups (v1 v2 v3 v4 v5 v6 v7 v8 v9 v10 v11 v12 v13 v14 v15 v16
    : value) :
  let table : gmap string value :=
    list_to_map
      [ ("name", v1); ("title", v2); ("id", v3); ("notes", v4);
        ("activation_date", v5); ("due_date", v6); ("area", v7);
        ("area_id", v8); ("project", v9); ("list_id", v10); ("tags", v11);
        ("checklist_items", v12); ("todos", v13); ("heading", v14);
        ("completed", v15); ("canceled", v16) ] in
  table !! "name" = Some v1 ∧ table !! "title" = Some v2
  ∧ table !! "id" = Some v3 ∧ table !! "notes" = Some v4
  ∧ table !! "activation_date" = Some v5 ∧ table !! "due_date" = Some v6
  ∧ table !! "area" = Some v7 ∧ table !! "area_id" = Some v8
  ∧ table !! "project" = Some v9 ∧ table !! "list_id" = Some v10
  ∧ table !! "tags" = Some v11 ∧ table !! "checklist_items" = Some v12
  ∧ table !! "todos" = Some v13 ∧ table !! "heading" = Some v14
  ∧ table !! "completed" = Some v15 ∧ table !! "canceled" = Some v16
  ∧ table !! "new_name" = None.
Proof. repeat split; vm_compute; reflexivity. Qed.

Lemma table_keys (table : list (string * value)) k v :
  (list_to_map table : gmap string value) !! k = Some v →
  (k, v) ∈ table.
Proof. apply elem_of_list_to_map_2. Qed.

Lemma stringField_truthy args k maxLength otherwise s v :
  get args k = VStr s → s ≠ [] →
  stringField args k maxLength otherwise = Ok v → v = VStr (trim s).
Proof.
  intros Hk Hs. unfold stringField. rewrite Hk.
  replace (truthy (VStr s)) with true by (by destruct s).
  destruct (validateStringInput _ _ _) as [t|] eqn:Ht; [|discriminate].
  intros [= <-]. by apply validateStringInput_inv in Ht as (? & [= <-] & _ & ->).
Qed.

Lemma stringField_clean args k maxLength otherwise v :
  (∀ v', otherwise = Ok v' → v' = VNull ∨ clean_value v') →
  stringField args k maxLength otherwise = Ok v →
  v = VNull ∨ clean_value v.
Proof.
  intros Ho. unfold stringField. destruct (truthy (get args k)); [|apply Ho].
  destruct (validateStringInput _ _ _) as [t|] eqn:Ht; [|discriminate].
  intros [= <-]. right. left. exists t. split; [done|].
  apply validateStringInput_inv in Ht as (s & _ & _ & ->). apply trim_idem.
Qed.

Lemma dateField_clean args k otherwise v :
  (∀ v', otherwise = Ok v' → v' = VNull ∨ clean_value v') →
  dateField args k otherwise = Ok v →
  v = VNull ∨ clean_value v.
Proof.
  intros Ho. unfold dateField. destruct (truthy (get args k)); [|apply Ho].
  destruct (validateDateInput _ _) as [t|] eqn:Ht; [|discriminate].
  intros [= <-]. right. left. exists t. split; [done|].
  apply date_shape_trim. revert Ht. unfold validateDateInput.
  destruct (get args k) as [| | | |s| |]; try discriminate.
  destruct (test dateRegex s) eqn:Hs; [|discriminate].
  destruct (Date.parses s); [|discriminate]. simpl. intros [= <-].
  by rewrite <- test_dateRegex.
Qed.

Lemma arrayField_clean args k v :
  arrayField args k = Ok v → v = VNull ∨ clean_value v.
Proof.
  unfold arrayField. destruct (truthy (get args k)); [|intros [= <-]; auto].
  destruct (validateArrayInput _ _ _) as [items|] eqn:Hi; [|discriminate].
  intros [= <-]. right. right. left. exists items. split; [done|].
  revert Hi. unfold validateArrayInput.
  destruct (get args k) as [| | | | |l|]; try discriminate.
  destruct (_ <? _)%N; [discriminate|].
  intros (strs & _ & _ & ->)%validateItems_inv.
  apply Forall_fmap, Forall_forall. intros s _. apply trim_idem.
Qed.

Lemma flagField_clean args k :
  flagField args k = VNull ∨ clean_value (flagField args k).
Proof.
  unfold flagField. destruct (is_undefined (get args k)); [by left|].
  right. right. right. eauto.
Qed.

Lemma null_clean v' : Ok VNull = Ok v' → v' = VNull ∨ clean_value v'.
Proof. intros [= <-]. by left. Qed.

Lemma filtered_lookup_single (m : gmap string value) k :
  filter (λ kv : string * value, is_null kv.2 = false) m !! k
  = match m !! k with
    | Some v => if is_null v then None else Some v
    | None => None
    end.
Proof.
  rewrite map_lookup_filter. destruct (m !! k) as [v|]; simpl; [|done].
  destruct (is_null v) eqn:Hv; by repeat case_guard.
Qed.

Lemma null_table_lookup k v :
  (list_to_map
     [ ("name", VNull); ("title", VNull); ("id", VNull); ("notes", VNull);
       ("activation_date", VNull); ("due_date", VNull); ("area", VNull);
       ("area_id", VNull); ("project", VNull); ("list_id", VNull);
       ("tags", VNull); ("checklist_items", VNull); ("todos", VNull);
       ("heading", VNull); ("completed", VNull); ("canceled", VNull) ]
   : gmap string value) !! k = Some v →
  v = VNull.
Proof.
  intros Hk%elem_of_list_to_map_2.
  rewrite !elem_of_cons, elem_of_nil in Hk.
  repeat (destruct Hk as [[= _ ->]|Hk]; [done|]). done.
Qed.

End MapperMore.



(** X9: in a mapping that succeeds, a non-empty string [title] gives both
    [name] and [title], trimmed, whatever [name] holds; without a truthy
    [title], a non-empty string [name] gives [name] alone. *)
Theorem title_precedes_name (args result : gmap string value) :
  ParameterMapper.validateAndMapParameters args ∅ = Ok result →
  (∀ T, get args "title" = VStr T → T ≠ [] →
        result !! "name" = Some (VStr (trim T))
        ∧ result !! "title" = Some (VStr (trim T)))
  ∧ (truthy (get args "title") = false →
     ∀ X, get args "name" = VStr X → X ≠ [] →
          result !! "name" = Some (VStr (trim X))
          ∧ result !! "title" = None).
Proof.
  intros (name & title & ident & notes & activation_date & due_date & area
          & area_id & project & list_id & tags & checklist_items & todos
          & heading & Ename & Etitle & _ & _ & _ & _ & _ & _ & _ & _ & _ & _
          & _ & _ & ->)%mapper_fields.
  destruct (table_lookups name title ident notes activation_date due_date area
              area_id project list_id tags checklist_items todos heading
              (ParameterMapper.flagField args "completed")
              (ParameterMapper.flagField args "canceled"))
    as (Hname & Htitle & _).
  rewrite !filtered_lookup, !lookup_empty, Hname, Htitle. split.
  - intros T HT Hne.
    rewrite (stringField_truthy _ _ _ _ _ _ HT Hne Ename).
    by rewrite (stringField_truthy _ _ _ _ _ _ HT Hne Etitle).
  - intros Hfalsy X HX Hne.
    rewrite stringField_absent in Ename, Etitle by done.
    rewrite (stringField_truthy _ _ _ _ _ _ HX Hne Ename).
    by injection Etitle as <-.
Qed.

Lemma title_precedes_name_witness :
  ParameterMapper.validateAndMapParameters
    (object [("title", VStr (js " New ")); ("name", VStr (js "Old"))]) ∅
  = Ok (object [("name", VStr (js "New")); ("title", VStr (js "New"))])
  ∧ object [("name", VStr (js "New")); ("title", VStr (js "New"))] !! "name"
    = Some (VStr (trim (js " New "))).
Proof.
  assert (H : ParameterMapper.validateAndMapParameters
    (object [("title", VStr (js " New ")); ("name", VStr (js "Old"))]) ∅
    = Ok (object [("name", VStr (js "New")); ("title", VStr (js "New"))]))
    by (vm_compute; reflexivity).
  split; [exact H|].
  refine (proj1 (proj1 (title_precedes_name _ _ H) (js " New ") _ _)).
  - vm_compute. reflexivity.
  - discriminate.
Defined.

(** X10: when none of the arguments the mapper reads is truthy and neither
    flag is given, the mapping succeeds and holds nothing but the additional
    fields that are not [null]; so an empty title, a zero or a [null] is
    dropped without an error. *)
Theorem mapping_without_truthy_arguments
    (args additionalFields : gmap string value) :
  Forall (λ k, truthy (get args k) = false) argument_names →
  get args "completed" = VUndefined → get args "canceled" = VUndefined →
  ParameterMapper.validateAndMapParameters args additionalFields
  = Ok (filter (λ kv : string * value, is_null kv.2 = false) additionalFields).
Proof.
  intros Hall Hcompleted Hcanceled. unfold argument_names in Hall.
  repeat (apply Forall_cons in Hall as [? Hall]).
  unfold ParameterMapper.validateAndMapParameters.
  rewrite !stringField_absent, !dateField_absent, !arrayField_absent,
    !flagField_absent by assumption.
  cbn [mbind result_bind]. f_equal. apply map_eq. intros k.
  rewrite filtered_lookup, filtered_lookup_single.
  destruct (additionalFields !! k) as [v|]; [done|].
  match goal with
  | |- match ?t !! k with _ => _ end = _ => destruct (t !! k) as [v|] eqn:Hk
  end; [|done].
  by rewrite (null_table_lookup k v Hk).
Qed.

Lemma mapping_without_truthy_arguments_witness :
  ParameterMapper.validateAndMapParameters
    (object [("title", VStr []); ("notes", VNull);
             ("tags", VNum (S754_zero false)); ("id", VBool false)]) ∅
  = Ok (filter (λ kv : string * value, is_null kv.2 = false) ∅).
Proof.
  apply mapping_without_truthy_arguments.
  - unfold argument_names. repeat (apply List.Forall_cons; [reflexivity|]).
    apply List.Forall_nil.
  - reflexivity.
  - reflexivity.
Defined.

(** X11: in a mapping that succeeds, a flag the additional fields do not
    carry is absent when its argument is [undefined], and otherwise is the
    boolean the argument coerces to, so that [null], [0] and the empty string
    give [false]. *)
Theorem mapped_flags (args additionalFields result : gmap string value) :
  ParameterMapper.validateAndMapParameters args additionalFields = Ok result →
  (additionalFields !! "completed" = None →
   result !! "completed"
   = if is_undefined (get args "completed") then None
     else Some (VBool (truthy (get args "completed"))))
  ∧ (additionalFields !! "canceled" = None →
     result !! "canceled"
     = if is_undefined (get args "canceled") then None
       else Some (VBool (truthy (get args "canceled")))).
Proof.
  intros (name & title & ident & notes & activation_date & due_date & area
          & area_id & project & list_id & tags & checklist_items & todos
          & heading & _ & _ & _ & _ & _ & _ & _ & _ & _ & _ & _ & _
          & _ & _ & ->)%mapper_fields.
  destruct (table_lookups name title ident notes activation_date due_date area
              area_id project list_id tags checklist_items todos heading
              (ParameterMapper.flagField args "completed")
              (ParameterMapper.flagField args "canceled"))
    as (_ & _ & _ & _ & _ & _ & _ & _ & _ & _ & _ & _ & _ & _ & Hc1 & Hc2 & _).
  rewrite !filtered_lookup, Hc1, Hc2. unfold ParameterMapper.flagField.
  split; intros ->.
  - by destruct (is_undefined (get args "completed")).
  - by destruct (is_undefined (get args "canceled")).
Qed.

Lemma mapped_flags_witness :
  ParameterMapper.validateAndMapParameters
    (object [("id", VStr (js "abc")); ("completed", VNull)]) ∅
  = Ok (object [("id", VStr (js "abc")); ("completed", VBool false)])
  ∧ object [("id", VStr (js "abc")); ("completed", VBool false)]
      !! "completed"
    = if is_undefined
           (get (object [("id", VStr (js "abc")); ("completed", VNull)])
                "completed")
      then None
      else Some (VBool (truthy
             (get (object [("id", VStr (js "abc")); ("completed", VNull)])
                  "completed"))).
Proof.
  assert (H : ParameterMapper.validateAndMapParameters
    (object [("id", VStr (js "abc")); ("completed", VNull)]) ∅
    = Ok (object [("id", VStr (js "abc")); ("completed", VBool false)]))
    by (vm_compute; reflexivity).
  split; [exact H|].
  refine (proj1 (mapped_flags _ _ _ H) _). reflexivity.
Defined.

(** X12: in a mapping that succeeds, a key the additional fields carry has
    the value they give it, unvalidated and over whatever the arguments say,
    unless that value is [null], in which case the key is absent. *)
Theorem additional_fields_override
    (args additionalFields result : gmap string value) (k : string)
    (v : value) :
  ParameterMapper.validateAndMapParameters args additionalFields = Ok result →
  additionalFields !! k = Some v →
  result !! k = if is_null v then None else Some v.
Proof.
  intros (name & title & ident & notes & activation_date & due_date & area
          & area_id & project & list_id & tags & checklist_items & todos
          & heading & _ & _ & _ & _ & _ & _ & _ & _ & _ & _ & _ & _
          & _ & _ & ->)%mapper_fields.
  intros Hk. by rewrite filtered_lookup, Hk.
Qed.

Lemma additional_fields_override_witness :
  ParameterMapper.validateAndMapParameters
    (object [("title", VStr (js "Buy milk"))])
    (object [("name", VNum (S754_finite false 5 0)); ("title", VNull)])
  = Ok (object [("name", VNum (S754_finite false 5 0))])
  ∧ object [("name", VNum (S754_finite false 5 0))] !! "name"
    = Some (VNum (S754_finite false 5 0)).
Proof.
  assert (H : ParameterMapper.validateAndMapParameters
    (object [("title", VStr (js "Buy milk"))])
    (object [("name", VNum (S754_finite false 5 0)); ("title", VNull)])
    = Ok (object [("name", VNum (S754_finite false 5 0))]))
    by (vm_compute; reflexivity).
  split; [exact H|].
  refine (additional_fields_override _ _ _ "name"
            (VNum (S754_finite false 5 0)) H _).
  vm_compute. reflexivity.
Defined.

(** X13: the keys of a mapping that succeeds are keys of the additional
    fields or among the sixteen internal names; the user-facing names [when],
    [deadline], [list_title] and [area_title] are not among these. *)
Theorem mapped_keys (args additionalFields result : gmap string value) :
  ParameterMapper.validateAndMapParameters args additionalFields = Ok result →
  dom result ⊆ dom additionalFields ∪ standard_keys
  ∧ Forall (λ k, k ∉ standard_keys)
      ["when"; "deadline"; "list_title"; "area_title"].
Proof.
  intros (name & title & ident & notes & activation_date & due_date & area
          & area_id & project & list_id & tags & checklist_items & todos
          & heading & _ & _ & _ & _ & _ & _ & _ & _ & _ & _ & _ & _
          & _ & _ & ->)%mapper_fields.
  split.
  - intros k [v Hk]%elem_of_dom. rewrite filtered_lookup in Hk.
    apply elem_of_union.
    destruct (additionalFields !! k) as [w|] eqn:Hw.
    { left. apply elem_of_dom. eauto. }
    right.
    match type of Hk with
    | match ?t !! k with _ => _ end = _ => destruct (t !! k) as [w|] eqn:Ht
    end; [|discriminate].
    apply elem_of_list_to_map_2 in Ht.
    rewrite !elem_of_cons, elem_of_nil in Ht.
    repeat (destruct Ht as [[= -> _]|Ht]; [by vm_compute|]). done.
  - repeat (apply List.Forall_cons; [by vm_compute|]). apply List.Forall_nil.
Qed.

Lemma mapped_keys_witness :
  ParameterMapper.validateAndMapParameters minimal_args undefined_status
  = Ok (object [("name", VStr (js "Minimal task"));
                ("title", VStr (js "Minimal task"));
                ("status", VUndefined)])
  ∧ dom (object [("name", VStr (js "Minimal task"));
                 ("title", VStr (js "Minimal task"));
                 ("status", VUndefined)])
    ⊆ dom undefined_status ∪ standard_keys.
Proof.
  assert (H : ParameterMapper.validateAndMapParameters minimal_args
                undefined_status
    = Ok (object [("name", VStr (js "Minimal task"));
                  ("title", VStr (js "Minimal task"));
                  ("status", VUndefined)])) by (vm_compute; reflexivity).
  split; [exact H|]. exact (proj1 (mapped_keys _ _ _ H)).
Defined.

(** X14: in a mapping that succeeds, every value under a key the additional
    fields do not carry is a string without white space at either end, an
    array of such strings, or a boolean. *)
Theorem mapped_values_clean
    (args additionalFields result : gmap string value) (k : string)
    (v : value) :
  ParameterMapper.validateAndMapParameters args additionalFields = Ok result →
  additionalFields !! k = None →
  result !! k = Some v →
  clean_value v.
Proof.
  intros (name & title & ident & notes & activation_date & due_date & area
          & area_id & project & list_id & tags & checklist_items & todos
          & heading & E1 & E2 & E3 & E4 & E5 & E6 & E7 & E8 & E9 & E10 & E11
          & E12 & E13 & E14 & ->)%mapper_fields.
  intros Hnone. rewrite filtered_lookup, Hnone.
  match goal with
  | |- match ?t !! k with _ => _ end = _ → _ =>
      destruct (t !! k) as [w|] eqn:Ht
  end; [|discriminate].
  destruct (is_null w) eqn:Hw; [discriminate|]. intros [= <-].
  assert (w = VNull ∨ clean_value w) as [->|Hc]; [|discriminate|done].
  apply elem_of_list_to_map_2 in Ht.
  rewrite !elem_of_cons, elem_of_nil in Ht.
  repeat (destruct Ht as [[= _ ->]|Ht];
    [first [ by eapply stringField_clean; [|eassumption];
               first [apply null_clean
                     |intros ?; apply stringField_clean, null_clean]
           | by eapply dateField_clean; [|eassumption];
               first [apply null_clean
                     |intros ?; apply dateField_clean, null_clean]
           | by eapply arrayField_clean
           | apply flagField_clean ]|]).
  done.
Qed.

Lemma mapped_values_clean_witness :
  ParameterMapper.validateAndMapParameters
    (object [("title", VStr (js " Buy milk "))]) ∅
  = Ok (object [("name", VStr (js "Buy milk"));
                ("title", VStr (js "Buy milk"))])
  ∧ clean_value (VStr (js "Buy milk")).
Proof.
  assert (H : ParameterMapper.validateAndMapParameters
    (object [("title", VStr (js " Buy milk "))]) ∅
    = Ok (object [("name", VStr (js "Buy milk"));
                  ("title", VStr (js "Buy milk"))]))
    by (vm_compute; reflexivity).
  split; [exact H|].
  refine (mapped_values_clean _ _ _ "name" _ H _ _); vm_compute; reflexivity.
Defined.

(** ** Script execution, continued *)

Section ExecutionMore.
Import ThingsExtension.
Context (host : Host).

Lemma executeJXA_within_size script params timeout log :
  within_size script →
  executeJXA host script params timeout log
  = (after_exec host (execAsync host log (jxa_command host script params timeout)),
     log ++ [jxa_command host script params timeout]).
Proof.
  intros Hsize. apply N.ltb_ge in Hsize.
  unfold executeJXA. rewrite Hsize.
  unfold try_catch at 1, mbind at 1, M_bind at 1, exec.
  change {| command := _; timeout := timeout; maxBuffer := _ |}
    with (jxa_command host script params timeout).
  destruct (execAsync host log (jxa_command host script params timeout))
    as [stdout stderr|code message]; cbn [after_exec].
  - destruct (truthy (VStr stderr)); [reflexivity|].
    unfold try_catch, lift, mbind, M_bind, throw.
    destruct (JSON_parse host (trim stdout)) as [parsed|pe];
      cbn [result_bind]; [|reflexivity].
    destruct (prop host parsed "success") as [success|e];
      cbn [result_bind]; [|reflexivity].
    destruct (is_false success); [|reflexivity].
    destruct (prop host parsed "error") as [error|e];
      cbn [result_bind]; [|reflexivity].
    destruct (truthy error); [|reflexivity].
    destruct (prop host error "message") as [message|e];
      cbn [result_bind]; reflexivity.
  - unfold throw. destruct (exn_code_is _ _); reflexivity.
Qed.

Lemma executeJXA_throws script params timeout log e log' :
  executeJXA host script params timeout log = (Throw e, log') →
  ∃ message, e = McpError InternalError message.
Proof.
  unfold executeJXA, try_catch at 1.
  match goal with
  | |- (let (_, _) := ?body log in _) = _ → _ =>
      destruct (body log) as [[v|e0] l]
  end; [discriminate|].
  unfold throw. destruct (exn_code_is e0 _); intros [= <- _]; eauto.
Qed.

Lemma unquote_single s rest :
  Shell.unquote Shell.InSingle (escapeQuotes s ++ 39%N :: rest)
  = (s ++.) <$> Shell.unquote Shell.Outside rest.
Proof.
  induction s as [|c s IH].
  - simpl. by destruct (Shell.unquote Shell.Outside rest).
  - unfold escapeQuotes in *. rewrite bind_cons, <- app_assoc.
    destruct (c =? 39)%N eqn:Hc.
    + apply N.eqb_eq in Hc as ->. simpl. rewrite IH.
      by destruct (Shell.unquote Shell.Outside rest).
    + simpl. rewrite Hc, IH.
      by destruct (Shell.unquote Shell.Outside rest).
Qed.

Lemma word_quoted s :
  Shell.word (js "'" ++ escapeQuotes s ++ js "'") = Some s.
Proof.
  unfold Shell.word. change (js "'") with [39%N]. simpl.
  rewrite unquote_single. simpl. by rewrite app_nil_r.
Qed.

End ExecutionMore.

(** X15: whatever goes wrong in [executeJXA] (size, executor, error
    stream, parsing, a reported error), what it throws is an [McpError] with
    the code [InternalError]. *)
Theorem executeJXA_throws_InternalError
    (host : Host) (script : jsstring) (params : gmap string value)
    (timeout : N) (log log' : list Command) (e : exn) :
  ThingsExtension.executeJXA host script params timeout log = (Throw e, log') →
  ∃ message, e = McpError InternalError message.
Proof. apply executeJXA_throws. Qed.

Lemma executeJXA_throws_InternalError_witness :
  ∃ log' message,
    ThingsExtension.executeJXA (replying_host not_found_reply) example_script
      ∅ SERVER_CONFIG.jxa.timeout []
    = (Throw (McpError InternalError (js
         "JXA execution failed: JXA execution failed: Invalid JXA response: JXA execution failed: Todo not found")), log')
    ∧ McpError InternalError (js
         "JXA execution failed: JXA execution failed: Invalid JXA response: JXA execution failed: Todo not found")
      = McpError InternalError message.
Proof.
  eexists.
  assert (H : ThingsExtension.executeJXA (replying_host not_found_reply)
                example_script ∅ SERVER_CONFIG.jxa.timeout []
    = (Throw (McpError InternalError (js
         "JXA execution failed: JXA execution failed: Invalid JXA response: JXA execution failed: Todo not found")), _))
    by (vm_compute; reflexivity).
  destruct (executeJXA_throws_InternalError _ _ _ _ _ _ _ H) as [message Hm].
  exists message. split; [exact H|exact Hm].
Defined.

(** X16: [executeJXA] hands at most one command to the executor: none when
    the script is over the size limit, and otherwise exactly one, with the
    timeout it was given and the configured buffer limit; in that command the
    script and the parameters are two quoted words that the shell reads back
    as the script text and the JSON text of the parameters (or [{}] when there
    are none). *)
Theorem executeJXA_runs_one_command
    (host : Host) (script : jsstring) (params : gmap string value)
    (ms : N) (log : list Command) :
  (¬ within_size script →
   snd (ThingsExtension.executeJXA host script params ms log) = log)
  ∧ (within_size script →
     ∃ scriptWord paramsWord,
       snd (ThingsExtension.executeJXA host script params ms log)
       = log ++ [ {| command := js "osascript -l JavaScript -e " ++ scriptWord
                                  ++ js " " ++ paramsWord;
                     timeout := ms;
                     maxBuffer := 262144 |} ]
       ∧ Shell.word scriptWord = Some script
       ∧ Shell.word paramsWord
         = Some (if (0 <? size params)%nat
                 then JSON_stringify host (VObj params)
                 else js "{}")).
Proof.
  split.
  - intros Hsize. unfold within_size in Hsize. apply N.nle_gt in Hsize.
    by rewrite executeJXA_oversized.
  - intros Hsize. rewrite executeJXA_within_size by done.
    exists (js "'" ++ ThingsExtension.escapeQuotes script ++ js "'").
    exists (if (0 <? size params)%nat
            then js "'" ++ ThingsExtension.escapeQuotes
                             (JSON_stringify host (VObj params)) ++ js "'"
            else js "'{}'").
    split; [|split].
    + cbn [snd]. do 2 f_equal. unfold jxa_command. f_equal.
      destruct (0 <? size params)%nat.
      * change (js "osascript -l JavaScript -e '")
          with (js "osascript -l JavaScript -e " ++ js "'").
        change (js "' '") with (js "'" ++ js " " ++ js "'").
        by rewrite <- !app_assoc.
      * change (js "osascript -l JavaScript -e '")
          with (js "osascript -l JavaScript -e " ++ js "'").
        change (js "' '{}'") with (js "'" ++ js " " ++ js "'{}'").
        by rewrite <- !app_assoc.
    + apply word_quoted.
    + destruct (0 <? size params)%nat; [apply word_quoted|reflexivity].
Qed.

Lemma executeJXA_runs_one_command_witness :
  within_size (js "return 'it''s';")
  ∧ ∃ scriptWord paramsWord,
      snd (ThingsExtension.executeJXA (replying_host not_running_reply)
             (js "return 'it''s';") ∅ 30000 [])
      = [] ++ [ {| command := js "osascript -l JavaScript -e " ++ scriptWord
                                ++ js " " ++ paramsWord;
                   timeout := 30000;
                   maxBuffer := 262144 |} ]
      ∧ Shell.word scriptWord = Some (js "return 'it''s';")
      ∧ Shell.word paramsWord
        = Some (if (0 <? size (∅ : gmap string value))%nat
                then JSON_stringify (replying_host not_running_reply) (VObj ∅)
                else js "{}").
Proof.
  assert (H : within_size (js "return 'it''s';"))
    by (vm_compute; discriminate).
  split; [exact H|].
  exact (proj2 (executeJXA_runs_one_command (replying_host not_running_reply)
                  (js "return 'it''s';") ∅ 30000 []) H).
Defined.

(** X17: when the executor rejects, [executeJXA] reports a rejection whose
    code is the string [ETIMEDOUT] as "JXA execution timed out", and any
    other rejection as "JXA execution failed: " followed by its message. *)
Theorem executeJXA_executor_rejects
    (host : Host) (script : jsstring) (params : gmap string value)
    (ms : N) (log : list Command) (code : value) (message : jsstring) :
  within_size script →
  (∀ cmd, execAsync host log cmd = Rejected code message) →
  fst (ThingsExtension.executeJXA host script params ms log)
  = Throw (McpError InternalError
      (match code with
       | VStr c =>
           if bool_decide (c = js "ETIMEDOUT")
           then ERROR_MESSAGES.JXA_TIMEOUT
           else js "JXA execution failed: " ++ message
       | _ => js "JXA execution failed: " ++ message
       end)).
Proof.
  intros Hsize Hexec. rewrite executeJXA_within_size, Hexec by done.
  cbn [fst after_exec exn_code_is].
  destruct code as [| | | |c| |]; try reflexivity.
  by destruct (bool_decide (c = js "ETIMEDOUT")).
Qed.

(** X18: whenever the script writes to the error stream, [executeJXA] fails
    with "JXA execution failed: JXA error: " followed by that text, whatever
    the script printed. *)
Theorem executeJXA_error_stream
    (host : Host) (script : jsstring) (params : gmap string value)
    (ms : N) (log : list Command) (stdout stderr : jsstring) :
  within_size script → stderr ≠ [] →
  (∀ cmd, execAsync host log cmd = Exited stdout stderr) →
  fst (ThingsExtension.executeJXA host script params ms log)
  = Throw (McpError InternalError
      (js "JXA execution failed: " ++ js "JXA error: " ++ stderr)).
Proof.
  intros Hsize Hne Hexec. rewrite executeJXA_within_size, Hexec by done.
  cbn [fst after_exec]. by destruct stderr.
Qed.

(** X19: when the script prints, with nothing on the error stream, text that
    parses to an object whose [success] is not [false], or whose [error] is
    falsy, [executeJXA] returns that object as it is. *)
Theorem executeJXA_returns_parsed
    (host : Host) (script : jsstring) (params : gmap string value)
    (ms : N) (log : list Command) (stdout : jsstring)
    (reply : gmap string value) :
  within_size script →
  (∀ cmd, execAsync host log cmd = Exited stdout []) →
  JSON_parse host (trim stdout) = Ok (VObj reply) →
  is_false (get reply "success") = false ∨ truthy (get reply "error") = false →
  fst (ThingsExtension.executeJXA host script params ms log)
  = Ok (VObj reply).
Proof.
  intros Hsize Hexec Hparse Hok. rewrite executeJXA_within_size, Hexec by done.
  cbn [fst after_exec truthy length Nat.eqb negb]. rewrite Hparse.
  cbn [mbind result_bind prop].
  destruct (is_false (get reply "success")); [|reflexivity].
  destruct Hok as [Hok| ->]; [discriminate|reflexivity].
Qed.


Lemma executeJXA_executor_rejects_witness :
  fst (ThingsExtension.executeJXA
         (example_host (Ok VNull)
            (Rejected (VStr (js "ETIMEDOUT")) (js "spawn timed out")))
         example_script ∅ 30000 [])
  = Throw (McpError InternalError (js "JXA execution timed out")).
Proof.
  refine (executeJXA_executor_rejects
            (example_host (Ok VNull)
               (Rejected (VStr (js "ETIMEDOUT")) (js "spawn timed out")))
            example_script ∅ 30000 [] (VStr (js "ETIMEDOUT"))
            (js "spawn timed out") _ _).
  - vm_compute. discriminate.
  - reflexivity.
Defined.

Lemma executeJXA_error_stream_witness :
  fst (ThingsExtension.executeJXA
         (example_host (Ok (VObj created_reply))
            (Exited (js "{}") (js "warning")))
         example_script ∅ 30000 [])
  = Throw (McpError InternalError
      (js "JXA execution failed: " ++ js "JXA error: " ++ js "warning")).
Proof.
  refine (executeJXA_error_stream
            (example_host (Ok (VObj created_reply))
               (Exited (js "{}") (js "warning")))
            example_script ∅ 30000 [] (js "{}") (js "warning") _ _ _).
  - vm_compute. discriminate.
  - discriminate.
  - reflexivity.
Defined.

Lemma executeJXA_returns_parsed_witness :
  fst (ThingsExtension.executeJXA (replying_host (VObj created_reply))
         example_script ∅ 30000 [])
  = Ok (VObj created_reply).
Proof.
  refine (executeJXA_returns_parsed (replying_host (VObj created_reply))
            example_script ∅ 30000 [] (js "{}") created_reply _ _ _ _).
  - vm_compute. discriminate.
  - reflexivity.
  - reflexivity.
  - left. vm_compute. reflexivity.
Defined.


Section ExecutionOutcomes.
Import ThingsExtension.
Context (host : Host).

Lemma prop_throws v k e :
  prop host v k = Throw e → ∃ message, e = Error message.
Proof. destruct v; simpl; intros [= <-]; eauto. Qed.

Lemma executeThingsJXA_rethrows templateFunction params operationName
    log e log' :
  executeJXA host (templateFunction params) params SERVER_CONFIG.jxa.timeout
    log = (Throw e, log') →
  executeThingsJXA host templateFunction params operationName log
  = (Throw e, log').
Proof.
  intros H. unfold executeThingsJXA, try_catch, mbind, M_bind.
  by rewrite H.
Qed.

Lemma executeThingsJXA_result templateFunction params operationName
    log r log' :
  executeThingsJXA host templateFunction params operationName log
  = (r, log') →
  match r with
  | Ok data => truthy data = true
  | Throw e =>
      (∃ message, e = McpError InternalError message)
      ∨ (∃ message, e = Error message)
  end.
Proof.
  unfold executeThingsJXA, try_catch, mbind, M_bind, lift, throw.
  destruct (executeJXA host (templateFunction params) params
              SERVER_CONFIG.jxa.timeout log) as [[result|e] l] eqn:Hexec.
  - destruct (prop host result "success") as [success|e] eqn:Hs.
    + destruct (truthy success) eqn:Hsuccess.
      * destruct (prop host result "data") as [data|e] eqn:Hd.
        -- destruct (truthy data) eqn:Hdata.
           ++ intros [= <- _]. exact Hdata.
           ++ destruct (optional_error_message host result) as [m|e] eqn:Hm;
                intros [= <- _]; right; [eauto|].
              revert Hm. unfold optional_error_message.
              destruct (prop host result "error") as [err|e'] eqn:He;
                cbn [mbind result_bind].
              ** destruct err; try discriminate; apply prop_throws.
              ** intros [= <-]. by eapply prop_throws.
        -- intros [= <- _]. right. by eapply prop_throws.
      * cbn [mret M_ret]. rewrite Hsuccess.
        destruct (optional_error_message host result) as [m|e] eqn:Hm;
          intros [= <- _]; right; [eauto|].
        revert Hm. unfold optional_error_message.
        destruct (prop host result "error") as [err|e'] eqn:He;
          cbn [mbind result_bind].
        -- destruct err; try discriminate; apply prop_throws.
        -- intros [= <-]. by eapply prop_throws.
    + intros [= <- _]. right. by eapply prop_throws.
  - intros [= <- _]. left. by eapply executeJXA_throws.
Qed.

Lemma validateThingsRunning_result templates log r log' :
  validateThingsRunning host templates log = (r, log') →
  r = Ok () ∨ r = Throw ThingsNotRunningError
  ∨ r = Throw (McpError InternalError ERROR_MESSAGES.THINGS_CHECK_FAILED).
Proof.
  unfold validateThingsRunning, try_catch, mbind, M_bind, lift, throw.
  destruct (executeJXA host (isThingsRunning_script templates) ∅
              SERVER_CONFIG.jxa.timeout log) as [[result|e] l] eqn:Hexec.
  - destruct (prop host result "success") as [success|e] eqn:Hs.
    + destruct (truthy success); cbn [negb].
      * destruct (prop host result "data") as [data|e] eqn:Hd.
        -- destruct (truthy data); cbn [negb]; intros [= <- _]; auto.
        -- apply prop_throws in Hd as [m ->]. intros [= <- _]. auto.
      * intros [= <- _]. auto.
    + apply prop_throws in Hs as [m ->]. intros [= <- _]. auto.
  - apply executeJXA_throws in Hexec as [m ->]. intros [= <- _]. auto.
Qed.

Lemma validateThingsRunning_execution_fails templates log e log' :
  executeJXA host (isThingsRunning_script templates) ∅
    SERVER_CONFIG.jxa.timeout log = (Throw e, log') →
  validateThingsRunning host templates log
  = (Throw (McpError InternalError ERROR_MESSAGES.THINGS_CHECK_FAILED), log').
Proof.
  intros H. unfold validateThingsRunning, try_catch, mbind, M_bind.
  rewrite H. by apply executeJXA_throws in H as [m ->].
Qed.

End ExecutionOutcomes.

(** X21: what [executeThingsJXA] returns is truthy, so its callers can read
    properties of it; what it throws is an [InternalError] or a plain
    [Error]; and an error thrown by [executeJXA] is thrown on unchanged. *)
Theorem executeThingsJXA_outcomes
    (host : Host) (templateFunction : gmap string value → jsstring)
    (params : gmap string value) (operationName : jsstring)
    (log : list Command) :
  (∀ r log',
     ThingsExtension.executeThingsJXA host templateFunction params
       operationName log = (r, log') →
     match r with
     | Ok data => truthy data = true
     | Throw e =>
         (∃ message, e = McpError InternalError message)
         ∨ (∃ message, e = Error message)
     end)
  ∧ (∀ e log',
       ThingsExtension.executeJXA host (templateFunction params) params
         SERVER_CONFIG.jxa.timeout log = (Throw e, log') →
       ThingsExtension.executeThingsJXA host templateFunction params
         operationName log = (Throw e, log')).
Proof.
  split.
  - intros r log'. apply executeThingsJXA_result.
  - intros e log'. apply executeThingsJXA_rethrows.
Qed.

Lemma executeThingsJXA_outcomes_witness :
  ∃ log',
    ThingsExtension.executeThingsJXA (replying_host (VObj created_reply))
      (λ _, example_script) ∅ (js "Create todo") []
    = (Ok (get created_reply "data"), log')
    ∧ truthy (get created_reply "data") = true.
Proof.
  eexists.
  assert (H : ThingsExtension.executeThingsJXA
                (replying_host (VObj created_reply))
                (λ _, example_script) ∅ (js "Create todo") []
    = (Ok (get created_reply "data"), _)) by (vm_compute; reflexivity).
  split; [exact H|].
  exact (proj1 (executeThingsJXA_outcomes (replying_host (VObj created_reply))
                  (λ _, example_script) ∅ (js "Create todo") []) _ _ H).
Defined.

(** X22: [validateThingsRunning] either succeeds, or throws the
    not-running error, or throws an [InternalError] with the check-failed
    message; every failure of the execution itself, a timeout included, ends
    as the last. *)
Theorem validateThingsRunning_outcomes
    (host : Host) (templates : JXATemplates) (log : list Command) :
  (∀ r log',
     ThingsExtension.validateThingsRunning host templates log = (r, log') →
     r = Ok ()
     ∨ r = Throw ThingsExtension.ThingsNotRunningError
     ∨ r = Throw (McpError InternalError
                    ERROR_MESSAGES.THINGS_CHECK_FAILED))
  ∧ (∀ e log',
       ThingsExtension.executeJXA host (isThingsRunning_script templates) ∅
         SERVER_CONFIG.jxa.timeout log = (Throw e, log') →
       ThingsExtension.validateThingsRunning host templates log
       = (Throw (McpError InternalError ERROR_MESSAGES.THINGS_CHECK_FAILED),
          log')).
Proof.
  split.
  - intros r log'. apply validateThingsRunning_result.
  - intros e log'. apply validateThingsRunning_execution_fails.
Qed.

Lemma validateThingsRunning_outcomes_witness :
  ∃ log',
    ThingsExtension.executeJXA
      (example_host (Ok VNull)
         (Rejected (VStr (js "ETIMEDOUT")) (js "spawn timed out")))
      (isThingsRunning_script example_templates) ∅
      SERVER_CONFIG.jxa.timeout []
    = (Throw (McpError InternalError ERROR_MESSAGES.JXA_TIMEOUT), log')
    ∧ ThingsExtension.validateThingsRunning
        (example_host (Ok VNull)
           (Rejected (VStr (js "ETIMEDOUT")) (js "spawn timed out")))
        example_templates []
      = (Throw (McpError InternalError ERROR_MESSAGES.THINGS_CHECK_FAILED),
         log').
Proof.
  eexists.
  assert (H : ThingsExtension.executeJXA
      (example_host (Ok VNull)
         (Rejected (VStr (js "ETIMEDOUT")) (js "spawn timed out")))
      (isThingsRunning_script example_templates) ∅
      SERVER_CONFIG.jxa.timeout []
    = (Throw (McpError InternalError ERROR_MESSAGES.JXA_TIMEOUT), _))
    by (vm_compute; reflexivity).
  split; [exact H|].
  exact (proj2 (validateThingsRunning_outcomes _ example_templates []) _ _ H).
Defined.

(** ** The tool-call request handler *)

Section Dispatcher.
Import CallTool.
Context (host : Host) (templates : JXATemplates)
  (toolHandlers : string → option handler).

Lemma callTool_unfold (request params : gmap string value) log :
  get request "params" = VObj params →
  callTool host templates toolHandlers (VObj request) log
  = if (SERVER_CONFIG.validation.maxRequestSize
        <? strlen (JSON_stringify host (VObj request)))%N
    then (Throw (McpError InvalidParams
            (js "Request too large: "
               ++ js (pretty (strlen (JSON_stringify host (VObj request))))
               ++ js " bytes (max: "
               ++ js (pretty SERVER_CONFIG.validation.maxRequestSize)
               ++ js ")")), log)
    else
      match ThingsExtension.validateThingsRunning host templates log with
      | (Throw error, log1) => through_catch host (Throw error, log1)
      | (Ok _, log1) =>
          match getHandlerMethod toolHandlers (get params "name") with
          | None =>
              (Throw (McpError MethodNotFound
                 (js "Unknown tool: " ++ ToString host (get params "name"))),
               log1)
          | Some handlerMethod =>
              through_catch host (handlerMethod (get params "arguments") log1)
          end
      end.
Proof.
  intros Hparams. unfold callTool.
  unfold mbind at 1, M_bind at 1, lift at 1. cbn [prop]. rewrite Hparams.
  unfold mbind at 1, M_bind at 1, lift at 1. cbn [prop].
  unfold mbind at 1, M_bind at 1, lift at 1. cbn [prop].
  unfold try_catch.
  destruct (_ <? _)%N; [reflexivity|].
  unfold mbind, M_bind.
  destruct (ThingsExtension.validateThingsRunning host templates log)
    as [[[]|e] log1].
  - destruct (getHandlerMethod toolHandlers (get params "name")) as [h|];
      [|reflexivity].
    unfold through_catch.
    destruct (h (get params "arguments") log1) as [[v|[]] l]; reflexivity.
  - unfold through_catch. destruct e; reflexivity.
Qed.

Lemma through_catch_throws outcome e log' :
  through_catch host outcome = (Throw e, log') →
  ∃ code message, e = McpError code message.
Proof.
  unfold through_catch. destruct outcome as [[v|[]] l];
    intros [= <- _]; eauto.
Qed.

End Dispatcher.

(** X23: for a request that has its [params], whatever the tool-call handler
    throws is an [McpError]: an error of any other kind is rewrapped as an
    [InternalError] before it leaves. *)
Theorem callTool_throws_McpError
    (host : Host) (templates : JXATemplates)
    (toolHandlers : string → option CallTool.handler)
    (request params : gmap string value) (log log' : list Command) (e : exn) :
  get request "params" = VObj params →
  CallTool.callTool host templates toolHandlers (VObj request) log
  = (Throw e, log') →
  ∃ code message, e = McpError code message.
Proof.
  intros Hparams. rewrite (callTool_unfold _ _ _ _ _ _ Hparams).
  destruct (_ <? _)%N; [intros [= <- _]; eauto|].
  destruct (ThingsExtension.validateThingsRunning host templates log)
    as [[[]|e0] log1]; [|apply through_catch_throws].
  destruct (CallTool.getHandlerMethod toolHandlers (get params "name"));
    [apply through_catch_throws|intros [= <- _]; eauto].
Qed.

(** X24: a request whose JSON text is longer than the configured maximum is
    refused with [InvalidParams], and this error, unlike that of an oversized
    script, reaches the caller with its code; nothing is executed. *)
Theorem callTool_oversized_request
    (host : Host) (templates : JXATemplates)
    (toolHandlers : string → option CallTool.handler)
    (request params : gmap string value) (log : list Command) :
  get request "params" = VObj params →
  (SERVER_CONFIG.validation.maxRequestSize
   < strlen (JSON_stringify host (VObj request)))%N →
  CallTool.callTool host templates toolHandlers (VObj request) log
  = (Throw (McpError InvalidParams
       (js "Request too large: "
          ++ js (pretty (strlen (JSON_stringify host (VObj request))))
          ++ js " bytes (max: "
          ++ js (pretty SERVER_CONFIG.validation.maxRequestSize)
          ++ js ")")), log).
Proof.
  intros Hparams Hsize. rewrite (callTool_unfold _ _ _ _ _ _ Hparams).
  apply N.ltb_lt in Hsize. by rewrite Hsize.
Qed.

(** X25: when the running check throws the not-running error, the tool-call
    handler calls no tool handler, known or not, and throws an
    [InternalError] whose message is "Tool execution failed: " followed by
    the not-running message. *)
Theorem callTool_not_running
    (host : Host) (templates : JXATemplates)
    (toolHandlers : string → option CallTool.handler)
    (request params : gmap string value) (log log1 : list Command) :
  get request "params" = VObj params →
  (strlen (JSON_stringify host (VObj request))
   <= SERVER_CONFIG.validation.maxRequestSize)%N →
  ThingsExtension.validateThingsRunning host templates log
  = (Throw ThingsExtension.ThingsNotRunningError, log1) →
  CallTool.callTool host templates toolHandlers (VObj request) log
  = (Throw (McpError InternalError
       (js "Tool execution failed: "
          ++ js "Things 3 is not running. Please launch Things 3 and try again.")),
     log1).
Proof.
  intros Hparams Hsize Hcheck. rewrite (callTool_unfold _ _ _ _ _ _ Hparams).
  apply N.ltb_ge in Hsize. rewrite Hsize, Hcheck. reflexivity.
Qed.

(** X26: once the running check has passed, a name that is not one of the
    twenty-one tool names is answered with [MethodNotFound], and a known tool
    gets what its handler returns or throws, except that an error that is not
    an [McpError] is rewrapped as an [InternalError] with the prefix "Tool
    execution failed: ". *)
Theorem callTool_dispatch
    (host : Host) (templates : JXATemplates)
    (toolHandlers : string → option CallTool.handler)
    (request params : gmap string value) (log log1 : list Command) :
  get request "params" = VObj params →
  (strlen (JSON_stringify host (VObj request))
   <= SERVER_CONFIG.validation.maxRequestSize)%N →
  ThingsExtension.validateThingsRunning host templates log = (Ok (), log1) →
  (CallTool.map_get CallTool.HANDLER_METHOD_MAP (get params "name") = None →
   CallTool.callTool host templates toolHandlers (VObj request) log
   = (Throw (McpError MethodNotFound
        (js "Unknown tool: " ++ ToString host (get params "name"))), log1))
  ∧ (∀ methodName handlerMethod,
       CallTool.map_get CallTool.HANDLER_METHOD_MAP (get params "name")
       = Some methodName →
       toolHandlers methodName = Some handlerMethod →
       CallTool.callTool host templates toolHandlers (VObj request) log
       = through_catch host (handlerMethod (get params "arguments") log1)).
Proof.
  intros Hparams Hsize Hcheck. rewrite (callTool_unfold _ _ _ _ _ _ Hparams).
  apply N.ltb_ge in Hsize. rewrite Hsize, Hcheck.
  unfold CallTool.getHandlerMethod. split.
  - by intros ->.
  - intros methodName handlerMethod -> ->. reflexivity.
Qed.

Lemma callTool_throws_McpError_witness :
  ∃ log' code message,
    CallTool.callTool (replying_host not_running_reply) example_templates
      (only_showItem (replying_host not_running_reply))
      (VObj (tool_request (js "show_item") (VObj zzz_args))) []
    = (Throw (McpError InternalError (js
         "Tool execution failed: Things 3 is not running. Please launch Things 3 and try again.")),
       log')
    ∧ McpError InternalError (js
         "Tool execution failed: Things 3 is not running. Please launch Things 3 and try again.")
      = McpError code message.
Proof.
  eexists.
  assert (H : CallTool.callTool (replying_host not_running_reply)
      example_templates (only_showItem (replying_host not_running_reply))
      (VObj (tool_request (js "show_item") (VObj zzz_args))) []
    = (Throw (McpError InternalError (js
         "Tool execution failed: Things 3 is not running. Please launch Things 3 and try again.")),
       _)) by (vm_compute; reflexivity).
  destruct (callTool_throws_McpError _ _ _
              (tool_request (js "show_item") (VObj zzz_args))
              (object [("name", VStr (js "show_item"));
                       ("arguments", VObj zzz_args)]) _ _ _ eq_refl H)
    as (code & message & Hm).
  exists code, message. split; [exact H|exact Hm].
Defined.

Lemma callTool_oversized_request_witness :
  CallTool.callTool verbose_host example_templates (only_showItem verbose_host)
    (VObj (tool_request (js "show_item") (VObj zzz_args))) []
  = (Throw (McpError InvalidParams
       (js "Request too large: "
          ++ js (pretty (strlen (JSON_stringify verbose_host
                   (VObj (tool_request (js "show_item") (VObj zzz_args))))))
          ++ js " bytes (max: "
          ++ js (pretty SERVER_CONFIG.validation.maxRequestSize)
          ++ js ")")), []).
Proof.
  refine (callTool_oversized_request verbose_host example_templates
            (only_showItem verbose_host)
            (tool_request (js "show_item") (VObj zzz_args))
            (object [("name", VStr (js "show_item"));
                     ("arguments", VObj zzz_args)]) [] _ _).
  - reflexivity.
  - vm_compute. reflexivity.
Defined.

Lemma callTool_not_running_witness :
  ∃ log1,
    ThingsExtension.validateThingsRunning (replying_host not_running_reply)
      example_templates []
    = (Throw ThingsExtension.ThingsNotRunningError, log1)
    ∧ CallTool.callTool (replying_host not_running_reply) example_templates
        (only_showItem (replying_host not_running_reply))
        (VObj (tool_request (js "no_such_tool") VUndefined)) []
      = (Throw (McpError InternalError
           (js "Tool execution failed: "
              ++ js "Things 3 is not running. Please launch Things 3 and try again.")),
         log1).
Proof.
  eexists.
  assert (H : ThingsExtension.validateThingsRunning
                (replying_host not_running_reply) example_templates []
    = (Throw ThingsExtension.ThingsNotRunningError, _))
    by (vm_compute; reflexivity).
  split; [exact H|].
  refine (callTool_not_running (replying_host not_running_reply)
            example_templates
            (only_showItem (replying_host not_running_reply))
            (tool_request (js "no_such_tool") VUndefined)
            (object [("name", VStr (js "no_such_tool"));
                     ("arguments", VUndefined)]) [] _ _ _ H).
  - reflexivity.
  - vm_compute. discriminate.
Defined.

Lemma callTool_dispatch_witness :
  ∃ log1,
    ThingsExtension.validateThingsRunning (replying_host (VObj created_reply))
      example_templates [] = (Ok (), log1)
    ∧ CallTool.callTool (replying_host (VObj created_reply)) example_templates
        (only_showItem (replying_host (VObj created_reply)))
        (VObj (tool_request (js "delete_todo") (VObj zzz_args))) []
      = (Throw (McpError MethodNotFound
           (js "Unknown tool: "
              ++ ToString (replying_host (VObj created_reply))
                   (get (object [("name", VStr (js "delete_todo"));
                                 ("arguments", VObj zzz_args)]) "name"))),
         log1).
Proof.
  eexists.
  assert (H : ThingsExtension.validateThingsRunning
                (replying_host (VObj created_reply)) example_templates []
    = (Ok (), _)) by (vm_compute; reflexivity).
  split; [exact H|].
  refine (proj1 (callTool_dispatch (replying_host (VObj created_reply))
            example_templates
            (only_showItem (replying_host (VObj created_reply)))
            (tool_request (js "delete_todo") (VObj zzz_args))
            (object [("name", VStr (js "delete_todo"));
                     ("arguments", VObj zzz_args)]) [] _ _ _ H) _).
  - reflexivity.
  - vm_compute. discriminate.
  - vm_compute. reflexivity.
Defined.

(** ** The handlers, continued *)

Section HandlersMore.
Context (host : Host).
Import SERVER_CONFIG.validation ThingsValidator ParameterMapper ToolHandlers
  CreateHandlers.

Lemma params_title (a b c d e f g h i : value) :
  get (object [ ("id", a); ("title", b); ("notes", c); ("deadline", d);
                ("when", e); ("tags", f); ("checklist_items", g);
                ("completed", h); ("canceled", i) ]) "title" = b
  ∧ get (object [ ("id", a); ("title", b); ("notes", c); ("deadline", d);
                  ("when", e); ("tags", f); ("completed", h);
                  ("canceled", i) ]) "title" = b.
Proof. split; vm_compute; reflexivity. Qed.

Lemma create_params (a b c d e f g h i j : value) :
  let todo :=
    object [ ("title", a); ("notes", b); ("deadline", c); ("when", d);
             ("list_id", e); ("list_title", f); ("area_id", g);
             ("area_title", h); ("tags", i); ("checklist_items", j) ] in
  let project :=
    object [ ("title", a); ("notes", b); ("deadline", c); ("when", d);
             ("area_id", g); ("area_title", h); ("tags", i); ("todos", j) ] in
  get todo "title" = a ∧ get todo "deadline" = c ∧ get todo "when" = d
  ∧ get project "title" = a ∧ get project "deadline" = c
  ∧ get project "when" = d.
Proof. repeat split; vm_compute; reflexivity. Qed.

Lemma mapped_title_absent args scriptParams :
  validateAndMapParameters args ∅ = Ok scriptParams →
  truthy (get args "title") = false →
  get scriptParams "title" = VUndefined
  ∧ get scriptParams "new_name" = VUndefined.
Proof.
  intros (name & title & ident & notes & activation_date & due_date & area
          & area_id & project & list_id & tags & checklist_items & todos
          & heading & _ & Etitle & _ & _ & _ & _ & _ & _ & _ & _ & _ & _
          & _ & _ & ->)%mapper_fields Hfalsy.
  destruct (table_lookups name title ident notes activation_date due_date area
              area_id project list_id tags checklist_items todos heading
              (flagField args "completed") (flagField args "canceled"))
    as (_ & Htitle & _ & _ & _ & _ & _ & _ & _ & _ & _ & _ & _ & _ & _ & _
        & Hnew).
  unfold get. rewrite !filtered_lookup, !lookup_empty, Htitle, Hnew.
  rewrite stringField_absent in Etitle by done. by injection Etitle as <-.
Qed.

Lemma dateField_value args k otherwise v :
  dateField args k otherwise = Ok v →
  if truthy (get args k) then v = get args k else otherwise = Ok v.
Proof.
  unfold dateField. destruct (truthy (get args k)); [|done].
  unfold validateDateInput.
  destruct (get args k) as [| | | |s| |]; try discriminate.
  destruct (test dateRegex s); [|discriminate].
  destruct (Date.parses s); [|discriminate]. simpl. by intros [= <-].
Qed.

Lemma truthy_not_null v : truthy v = true → is_null v = false.
Proof. by destruct v. Qed.

Lemma mapped_dates args scriptParams :
  validateAndMapParameters args ∅ = Ok scriptParams →
  get scriptParams "activation_date"
  = (if truthy (get args "when") then get args "when"
     else if truthy (get args "due_date") then get args "due_date"
     else VUndefined)
  ∧ get scriptParams "due_date"
    = (if truthy (get args "deadline") then get args "deadline"
       else VUndefined).
Proof.
  intros (name & title & ident & notes & activation_date & due_date & area
          & area_id & project & list_id & tags & checklist_items & todos
          & heading & _ & _ & _ & _ & Eactivation & Edue & _ & _ & _ & _ & _
          & _ & _ & _ & ->)%mapper_fields.
  destruct (table_lookups name title ident notes activation_date due_date area
              area_id project list_id tags checklist_items todos heading
              (flagField args "completed") (flagField args "canceled"))
    as (_ & _ & _ & _ & Hactivation & Hdue & _).
  apply dateField_value in Eactivation, Edue. split.
  - unfold get at 1. rewrite filtered_lookup, lookup_empty, Hactivation.
    destruct (truthy (get args "when")) eqn:Hw.
    + subst activation_date. by rewrite (truthy_not_null _ Hw).
    + apply dateField_value in Eactivation.
      destruct (truthy (get args "due_date")) eqn:Hd.
      * subst activation_date. by rewrite (truthy_not_null _ Hd).
      * by injection Eactivation as <-.
  - unfold get at 1. rewrite filtered_lookup, lookup_empty, Hdue.
    destruct (truthy (get args "deadline")) eqn:Hd.
    + subst due_date. by rewrite (truthy_not_null _ Hd).
    + by injection Edue as <-.
Qed.

Lemma addTodo_unfold createTodo_script executeThingsJXA args scriptParams
    log :
  validateAndMapParameters args ∅ = Ok scriptParams →
  addTodo host createTodo_script executeThingsJXA args log
  = match executeThingsJXA (λ _, createTodo_script)
            (addTodo_params args scriptParams) (js "Create todo") log with
    | (Ok data, log') =>
        match prop host data "id" with
        | Ok id =>
            (Ok (created_response host (js "Created to-do: ") scriptParams id),
             log')
        | Throw e => (Throw e, log')
        end
    | (Throw e, log') => (Throw e, log')
    end.
Proof.
  intros Hmap. unfold addTodo, mbind, M_bind, lift, mret, M_ret.
  rewrite Hmap.
  destruct (executeThingsJXA _ _ _ log) as [[data|e] log']; [|done].
  by destruct (prop host data "id").
Qed.

Lemma addProject_unfold createProject_script executeThingsJXA args
    scriptParams log :
  validateAndMapParameters args ∅ = Ok scriptParams →
  addProject host createProject_script executeThingsJXA args log
  = match executeThingsJXA (λ _, createProject_script)
            (addProject_params args scriptParams) (js "Create project") log
    with
    | (Ok data, log') =>
        match prop host data "id" with
        | Ok id =>
            (Ok (created_response host (js "Created project: ") scriptParams
                   id), log')
        | Throw e => (Throw e, log')
        end
    | (Throw e, log') => (Throw e, log')
    end.
Proof.
  intros Hmap. unfold addProject, mbind, M_bind, lift, mret, M_ret.
  rewrite Hmap.
  destruct (executeThingsJXA _ _ _ log) as [[data|e] log']; [|done].
  by destruct (prop host data "id").
Qed.

Lemma prop_truthy data k :
  truthy data = true → prop host data k = Ok (property data k).
Proof. by destruct data. Qed.

Lemma executeThingsJXA_truthy templateFunction params operationName log data
    log' :
  ThingsExtension.executeThingsJXA host templateFunction params operationName
    log = (Ok data, log') →
  truthy data = true.
Proof.
  unfold ThingsExtension.executeThingsJXA, try_catch, mbind, M_bind, lift,
    throw, mret, M_ret.
  destruct (ThingsExtension.executeJXA host (templateFunction params) params
              SERVER_CONFIG.jxa.timeout log) as [[result|e] l];
    [|discriminate].
  destruct (prop host result "success") as [success|e]; [|discriminate].
  destruct (truthy success) eqn:Hsuccess.
  - destruct (prop host result "data") as [data'|e]; [|discriminate].
    destruct (truthy data') eqn:Hdata.
    + by intros [= <- _].
    + by destruct (ThingsExtension.optional_error_message host result).
  - rewrite Hsuccess.
    by destruct (ThingsExtension.optional_error_message host result).
Qed.

End HandlersMore.

(** X27: [updateTodo] and [updateProject] refuse, with [InvalidParams] and
    without calling the executor, every request whose mapped [id] is falsy:
    an [id] that is absent, falsy, or blank once trimmed. *)
Theorem update_requires_id
    (host : Host) (templates : JXATemplates)
    (executeThingsJXA : ToolHandlers.executor)
    (args scriptParams : gmap string value) (log : list Command) :
  ParameterMapper.validateAndMapParameters args ∅ = Ok scriptParams →
  truthy (get scriptParams "id") = false →
  ToolHandlers.updateTodo host templates executeThingsJXA args log
  = (Throw (McpError InvalidParams (js "Todo ID is required for update")), log)
  ∧ ToolHandlers.updateProject host templates executeThingsJXA args log
    = (Throw (McpError InvalidParams (js "Project ID is required for update")),
       log).
Proof.
  intros Hmap Hid.
  unfold ToolHandlers.updateTodo, ToolHandlers.updateProject, mbind, M_bind,
    lift.
  rewrite Hmap, Hid. split; reflexivity.
Qed.

Lemma blank_id_mapped :
  ParameterMapper.validateAndMapParameters
    (object [("id", VStr (js "  ")); ("title", VStr (js "New title"))]) ∅
  = Ok (object [("name", VStr (js "New title"));
                ("title", VStr (js "New title")); ("id", VStr [])]).
Proof. vm_compute. reflexivity. Defined.

Lemma update_requires_id_witness :
  ToolHandlers.updateTodo (replying_host (VObj created_reply))
    example_templates timing_out
    (object [("id", VStr (js "  ")); ("title", VStr (js "New title"))]) []
  = (Throw (McpError InvalidParams (js "Todo ID is required for update")), []).
Proof.
  refine (proj1 (update_requires_id (replying_host (VObj created_reply))
            example_templates timing_out _ _ [] blank_id_mapped _)).
  vm_compute. reflexivity.
Defined.

(** X28: the title the update handlers send to the script is the validated
    [title] argument alone: when [title] is not given, the legacy [name]
    argument does not stand in for it and the script receives no title. *)
Theorem update_ignores_legacy_name
    (args scriptParams : gmap string value) :
  ParameterMapper.validateAndMapParameters args ∅ = Ok scriptParams →
  truthy (get args "title") = false →
  get (ToolHandlers.updateTodo_params scriptParams) "title" = VUndefined
  ∧ get (ToolHandlers.updateProject_params scriptParams) "title" = VUndefined.
Proof.
  intros Hmap Hfalsy.
  destruct (mapped_title_absent _ _ Hmap Hfalsy) as [Htitle Hnew].
  unfold ToolHandlers.updateTodo_params, ToolHandlers.updateProject_params.
  match goal with
  | |- get (object [(_, ?a); (_, ?b); (_, ?c); (_, ?d); (_, ?e); (_, ?f);
                    (_, ?g); (_, ?h); (_, ?i)]) _ = _ ∧ _ =>
      destruct (params_title a b c d e f g h i) as [-> _];
      destruct (params_title a (get scriptParams "title") c d e f g h i)
        as [_ ->]
  end.
  by rewrite Htitle, Hnew.
Qed.

Lemma legacy_name_mapped :
  ParameterMapper.validateAndMapParameters
    (object [("id", VStr (js "abc")); ("name", VStr (js "Renamed"))]) ∅
  = Ok (object [("name", VStr (js "Renamed")); ("id", VStr (js "abc"))]).
Proof. vm_compute. reflexivity. Defined.

Lemma update_ignores_legacy_name_witness :
  get (ToolHandlers.updateTodo_params
         (object [("name", VStr (js "Renamed")); ("id", VStr (js "abc"))]))
      "title" = VUndefined.
Proof.
  refine (proj1 (update_ignores_legacy_name _ _ legacy_name_mapped _)).
  vm_compute. reflexivity.
Defined.

(** X29: the dates the create handlers send to the script are the caller's
    own strings: [when] is the [when] argument, or else the legacy [due_date]
    argument, or else absent; [deadline] is the [deadline] argument or
    absent.  Both handlers send the same two values. *)
Theorem create_params_dates (args scriptParams : gmap string value) :
  ParameterMapper.validateAndMapParameters args ∅ = Ok scriptParams →
  get (CreateHandlers.addTodo_params args scriptParams) "when"
  = (if truthy (get args "when") then get args "when"
     else if truthy (get args "due_date") then get args "due_date"
     else VUndefined)
  ∧ get (CreateHandlers.addTodo_params args scriptParams) "deadline"
    = (if truthy (get args "deadline") then get args "deadline"
       else VUndefined)
  ∧ get (CreateHandlers.addProject_params args scriptParams) "when"
    = get (CreateHandlers.addTodo_params args scriptParams) "when"
  ∧ get (CreateHandlers.addProject_params args scriptParams) "deadline"
    = get (CreateHandlers.addTodo_params args scriptParams) "deadline".
Proof.
  intros [Hactivation Hdue]%mapped_dates.
  unfold CreateHandlers.addTodo_params, CreateHandlers.addProject_params.
  match goal with
  | |- get (object [(_, ?a); (_, ?b); (_, ?c); (_, ?d); (_, ?e); (_, ?f);
                    (_, ?g); (_, ?h); (_, ?i); (_, ?j)]) _ = _ ∧ _ =>
      destruct (create_params a b c d e f g h i j)
        as (_ & -> & -> & _ & _ & _);
      destruct (create_params a b c d e f g h i (get args "todos"))
        as (_ & _ & _ & _ & -> & ->)
  end.
  by rewrite Hactivation, Hdue.
Qed.

Lemma create_params_dates_witness :
  get (CreateHandlers.addTodo_params
         (object [("name", VStr (js "Buy milk"));
                  ("due_date", VStr (js "2024-03-01"))])
         (object [("name", VStr (js "Buy milk"));
                  ("activation_date", VStr (js "2024-03-01"))])) "when"
  = VStr (js "2024-03-01")
  ∧ get (CreateHandlers.addTodo_params
           (object [("name", VStr (js "Buy milk"));
                    ("due_date", VStr (js "2024-03-01"))])
           (object [("name", VStr (js "Buy milk"));
                    ("activation_date", VStr (js "2024-03-01"))])) "deadline"
    = VUndefined.
Proof.
  assert (Hmap : ParameterMapper.validateAndMapParameters
            (object [("name", VStr (js "Buy milk"));
                     ("due_date", VStr (js "2024-03-01"))]) ∅
          = Ok (object [("name", VStr (js "Buy milk"));
                        ("activation_date", VStr (js "2024-03-01"))]))
    by (vm_compute; reflexivity).
  destruct (create_params_dates _ _ Hmap) as (Hwhen & Hdeadline & _).
  split; [exact Hwhen|exact Hdeadline].
Defined.

(** X30: the create handlers, run with the server's [executeThingsJXA], catch
    nothing.  A mapping error is thrown before any command is run; an error of
    the execution is thrown on as it is; and whatever the execution returns
    yields the success response carrying its [id], since what is returned is
    truthy and reading [id] of it cannot fail. *)
Theorem create_handlers_outcomes (host : Host) (script : jsstring)
    (args : gmap string value) (log : list Command) :
  (∀ e, ParameterMapper.validateAndMapParameters args ∅ = Throw e →
        CreateHandlers.addTodo host script
          (ThingsExtension.executeThingsJXA host) args log = (Throw e, log)
        ∧ CreateHandlers.addProject host script
            (ThingsExtension.executeThingsJXA host) args log = (Throw e, log))
  ∧ (∀ scriptParams,
       ParameterMapper.validateAndMapParameters args ∅ = Ok scriptParams →
       (∀ r log',
          ThingsExtension.executeThingsJXA host (λ _, script)
            (CreateHandlers.addTodo_params args scriptParams)
            (js "Create todo") log = (r, log') →
          CreateHandlers.addTodo host script
            (ThingsExtension.executeThingsJXA host) args log
          = (match r with
             | Ok data =>
                 Ok (created_response host (js "Created to-do: ") scriptParams
                       (property data "id"))
             | Throw e => Throw e
             end, log'))
       ∧ (∀ r log',
            ThingsExtension.executeThingsJXA host (λ _, script)
              (CreateHandlers.addProject_params args scriptParams)
              (js "Create project") log = (r, log') →
            CreateHandlers.addProject host script
              (ThingsExtension.executeThingsJXA host) args log
            = (match r with
               | Ok data =>
                   Ok (created_response host (js "Created project: ")
                         scriptParams (property data "id"))
               | Throw e => Throw e
               end, log'))).
Proof.
  split.
  - intros e Hmap.
    unfold CreateHandlers.addTodo, CreateHandlers.addProject, mbind, M_bind,
      lift.
    by rewrite Hmap.
  - intros scriptParams Hmap. split; intros r log' Hrun.
    + rewrite (addTodo_unfold host _ _ _ _ _ Hmap), Hrun.
      destruct r as [data|e]; [|done].
      by rewrite (prop_truthy host _ _ (executeThingsJXA_truthy host _ _ _ _ _ _ Hrun)).
    + rewrite (addProject_unfold host _ _ _ _ _ Hmap), Hrun.
      destruct r as [data|e]; [|done].
      by rewrite (prop_truthy host _ _ (executeThingsJXA_truthy host _ _ _ _ _ _ Hrun)).
Qed.

Lemma create_handlers_outcomes_witness :
  ∃ log',
    CreateHandlers.addTodo (replying_host (VObj created_reply)) example_script
      (ThingsExtension.executeThingsJXA (replying_host (VObj created_reply)))
      buy_milk_args []
    = (Ok (created_response (replying_host (VObj created_reply))
             (js "Created to-do: ")
             (object [("name", VStr (js "Buy milk"));
                      ("title", VStr (js "Buy milk"));
                      ("activation_date", VStr (js "2025-01-10"));
                      ("due_date", VStr (js "2025-01-15"))])
             (property (get created_reply "data") "id")), log').
Proof.
  eexists.
  refine (proj1 (proj2 (create_handlers_outcomes
            (replying_host (VObj created_reply)) example_script
            buy_milk_args []) _ _) (Ok (get created_reply "data")) _ _).
  - vm_compute. reflexivity.
  - vm_compute. reflexivity.
Defined.
